(** * Resumable archive transfer: backup download and chunked restore

    A shallow embedding of [backend/backup.py] (the [stable] tree): the
    [/backup] download handler with its byte-range window and streaming
    generator, the [/restore] upload handler with chunk reassembly and
    checksum gate, [perform_restore], [backup_current_databases], the
    two delayed cleanups, [/backup/verify], [/backup/status] and
    [format_size]; and of the [/backup] handler of the [alpha] tree, which
    streams an archive built in memory.

    Conventions of the embedding.
    - The file system is a finite map from path strings to file contents.
      Directories are not tracked: [os.makedirs] has no effect on the map,
      a write to a path always succeeds, and so does [shutil.copy2] of a
      file that is there. What [os.makedirs] raises for a staging
      directory, whose name the client chooses, comes with the request,
      and what [shutil.rmtree] removes and raises comes with the call.
      The directory [database], a fixed name, is taken to be creatable.
    - [OPERATIONS], the module-level dict, is a finite map from upload ids
      to operation records; it lives in the same world as the files.
    - The world also keeps a trace: the files opened for writing, the
      copies, the calls of [perform_restore] and the cleanup threads
      started, in the order they happen.
    - Handlers run one after another on the world (no interleaving of
      requests or of the background cleanup threads).
    - Python exceptions are values of [exn]; a computation either returns
      or raises, and keeps the effects it had before raising. An
      exception that leaves a handler is the handler's outcome.
    - The zip codec and MD5 are library code: they are parameters of the
      development ([zip_write], [zip_read], [is_zip_bytes],
      [md5_hexdigest]).
    - The clock and [uuid4] are read from an environment that comes with
      each request.
    - Strings are byte strings; the non-ASCII digits and white space that
      Python's [int()] accepts are outside the model, and so is the limit
      on the number of digits that recent interpreters put on [int()].
    - The long [restore_database] and [perform_restore] are cut into
      their blocks, each a definition named after what the block does.
    - [werkzeug]'s [secure_filename] and the two-decimal rendering of a
      float are parameters too. The sizes [format_size] divides are
      rationals: division by 1024 is exact on floats, and the first
      conversion is exact for sizes below 2^53, so the unit reached is the
      one the interpreter reaches. *)

From Stdlib Require Import ZArith QArith Qround List Ascii String Decimal
  DecimalString DecimalZ Lia Bool.
From Equations Require Import Equations.
From stdpp Require Import gmap strings list fin_maps.

Import ListNotations.
Open Scope string_scope.
Open Scope list_scope.
Open Scope Z_scope.

(** ** Python strings and integers *)

Module Py.

(** [str(n)] for an [int]. *)
Definition str_of_int (z : Z) : string := NilZero.string_of_int (Z.to_int z).

(** The white space [int()] skips at both ends of an ASCII string: tab,
    line feed, vertical tab, form feed, carriage return and space. The
    separators 0x1c to 0x1f, which [str.strip()] removes, are not among
    them: [int("\x1c2")] raises. *)
Definition is_space (c : ascii) : bool :=
  let n := nat_of_ascii c in
  ((9 <=? n) && (n <=? 13) || (n =? 32))%nat.

Fixpoint lstrip (s : string) : string :=
  match s with
  | String c r => if is_space c then lstrip r else s
  | EmptyString => EmptyString
  end.

(** [rstrip] keeps a character when something that is not white space
    follows it or when it is not white space itself. *)
Fixpoint rstrip (s : string) : string :=
  match s with
  | String c r =>
      match rstrip r with
      | EmptyString => if is_space c then EmptyString else String c EmptyString
      | r' => String c r'
      end
  | EmptyString => EmptyString
  end.

Definition strip (s : string) : string := rstrip (lstrip s).

(** Digit groups of an integer literal: single underscores are allowed
    between two characters, never first, last or doubled. The result is
    the literal without its underscores. *)
Fixpoint ungroup (s : string) (after_digit : bool) : option string :=
  match s with
  | EmptyString => if after_digit then Some EmptyString else None
  | String c r =>
      if Ascii.eqb c "_"
      then (if after_digit then ungroup r false else None)
      else option_map (String c) (ungroup r true)
  end.

Definition int_of_digits (s : string) : option Z :=
  match ungroup s false with
  | Some t => option_map Z.of_uint (NilZero.uint_of_string t)
  | None => None
  end.

(** [int(s)] in base ten: [None] stands for [ValueError]. *)
Definition int_of_str (s : string) : option Z :=
  match strip s with
  | String c r =>
      if Ascii.eqb c "-" then option_map Z.opp (int_of_digits r)
      else if Ascii.eqb c "+" then int_of_digits r
      else int_of_digits (String c r)
  | EmptyString => None
  end.

(** [s.startswith(p)]. *)
Fixpoint startswith (p s : string) : bool :=
  match p, s with
  | EmptyString, _ => true
  | String a p', String b s' => Ascii.eqb a b && startswith p' s'
  | String _ _, EmptyString => false
  end.

(** [s.replace(pat, "")] for a non-empty [pat]: occurrences are removed
    from left to right, without overlap. [skip] counts the characters of
    a match that are still to be dropped. *)
Fixpoint remove_from (pat s : string) (skip : nat) : string :=
  match s with
  | EmptyString => EmptyString
  | String c r =>
      match skip with
      | S k => remove_from pat r k
      | O =>
          if startswith pat s
          then remove_from pat r (String.length pat - 1)
          else String c (remove_from pat r 0)
      end
  end.

Definition remove_all (pat s : string) : string := remove_from pat s 0.

(** [s.split(sep)] for a one-character separator: never the empty list. *)
Fixpoint split (sep : ascii) (s : string) : list string :=
  match s with
  | EmptyString => [EmptyString]
  | String c r =>
      if Ascii.eqb c sep then EmptyString :: split sep r
      else match split sep r with
           | w :: ws => String c w :: ws
           | [] => [String c EmptyString]
           end
  end.

(** [c in s]. *)
Fixpoint contains (c : ascii) (s : string) : bool :=
  match s with
  | EmptyString => false
  | String a r => Ascii.eqb c a || contains c r
  end.

(** [s[-1:]], as an optional character. *)
Fixpoint last_char (s : string) : option ascii :=
  match s with
  | EmptyString => None
  | String c r => match last_char r with
                  | Some x => Some x
                  | None => Some c
                  end
  end.

(** [c.isdigit()] for an ASCII character. *)
Definition is_digit (c : ascii) : bool :=
  let n := nat_of_ascii c in ((48 <=? n) && (n <=? 57))%nat.

(** [s.endswith("/")]. *)
Fixpoint endswith_sep (s : string) : bool :=
  match s with
  | EmptyString => false
  | String c EmptyString => Ascii.eqb c "/"
  | String _ r => endswith_sep r
  end.

(** [os.path.join(a, b)] of [posixpath]. *)
Definition path_join (a b : string) : string :=
  if startswith "/" b then b
  else if (String.eqb a "" || endswith_sep a)%bool then a +:+ b
  else a +:+ "/" +:+ b.

(** [os.path.basename(p)]: what follows the last slash. *)
Fixpoint basename (p : string) : string :=
  match p with
  | EmptyString => EmptyString
  | String c r =>
      if Ascii.eqb c "/" then basename r
      else if existsb (Ascii.eqb "/") (list_ascii_of_string r) then basename r
      else p
  end.

End Py.

(** ** The world: files, the operation table, and what happened *)

Abbreviation bytes := (list Byte.byte).

(** The values of an operation's ['status'] key. *)
Inductive Status := uploading | restoring | completed | failed.

(** Python exceptions that the handlers can meet. *)
Inductive exn :=
| ValueError
| IndexError
| KeyError (key : string)
| FileNotFoundError (path : string)
| BadZipFile
| FileExistsError (path : string)
| IsADirectoryError (path : string)
| OSError.

(** One entry of [OPERATIONS]. The first six keys are set at creation;
    the last three are added by [perform_restore]. *)
Record Operation := mkOperation {
  op_type : string;
  status : Status;
  started_at : Z;
  chunks_received : Z;
  total_chunks : Z;
  temp_dir : string;
  completed_at : option Z;
  restored_files : option (list string);
  error : option exn
}.

Definition set_status (s : Status) (o : Operation) : Operation :=
  mkOperation (op_type o) s (started_at o) (chunks_received o)
    (total_chunks o) (temp_dir o) (completed_at o) (restored_files o) (error o).

Definition set_chunks_received (n : Z) (o : Operation) : Operation :=
  mkOperation (op_type o) (status o) (started_at o) n
    (total_chunks o) (temp_dir o) (completed_at o) (restored_files o) (error o).

Definition set_completed_at (t : Z) (o : Operation) : Operation :=
  mkOperation (op_type o) (status o) (started_at o) (chunks_received o)
    (total_chunks o) (temp_dir o) (Some t) (restored_files o) (error o).

Definition set_restored_files (l : list string) (o : Operation) : Operation :=
  mkOperation (op_type o) (status o) (started_at o) (chunks_received o)
    (total_chunks o) (temp_dir o) (completed_at o) (Some l) (error o).

Definition set_error (e : exn) (o : Operation) : Operation :=
  mkOperation (op_type o) (status o) (started_at o) (chunks_received o)
    (total_chunks o) (temp_dir o) (completed_at o) (restored_files o) (Some e).

(** Observable steps, in the order they happen. *)
Inductive Event :=
| EvWrite (path : string)                (* a file opened for writing *)
| EvCopy (src dst : string)              (* shutil.copy2 *)
| EvPerformRestore (zip_path operation_id : string)
| EvCleanupOperationLater (operation_id : string) (delay : Z)
| EvCleanupFileLater (path : string) (delay : Z).

Record World := mkWorld {
  fs : gmap string bytes;
  OPERATIONS : gmap string Operation;
  trace : list Event
}.

Definition with_fs (f : gmap string bytes → gmap string bytes) (w : World) : World :=
  mkWorld (f (fs w)) (OPERATIONS w) (trace w).

Definition with_ops (f : gmap string Operation → gmap string Operation)
    (w : World) : World :=
  mkWorld (fs w) (f (OPERATIONS w)) (trace w).

Definition emit (e : Event) (w : World) : World :=
  mkWorld (fs w) (OPERATIONS w) (trace w ++ [e]).

(** ** Computations that read and change the world and may raise *)

Inductive outcome (A : Type) :=
| Ret (a : A)
| Raise (e : exn).
Arguments Ret {A} a.
Arguments Raise {A} e.

Definition M (A : Type) : Type := World → outcome A * World.

Definition ret {A} (a : A) : M A := λ w, (Ret a, w).
Definition raise {A} (e : exn) : M A := λ w, (Raise e, w).

Definition bind {A B} (m : M A) (k : A → M B) : M B :=
  λ w, match m w with
       | (Ret a, w') => k a w'
       | (Raise e, w') => (Raise e, w')
       end.

(** [try: body except Exception as e: handler e]. *)
Definition try_except {A} (body : M A) (handler : exn → M A) : M A :=
  λ w, match body w with
       | (Ret a, w') => (Ret a, w')
       | (Raise e, w') => handler e w'
       end.

(** A computation that does not touch the world. *)
Definition lift {A} (o : outcome A) : M A := λ w, (o, w).

Definition and_then {A B} (o : outcome A) (k : A → outcome B) : outcome B :=
  match o with
  | Ret a => k a
  | Raise e => Raise e
  end.

Definition modify (f : World → World) : M unit := λ w, (Ret tt, f w).
Definition gets {A} (f : World → A) : M A := λ w, (Ret (f w), w).

Declare Scope py_scope.
Delimit Scope py_scope with py.
Notation "'let*' x := m 'in' k" := (bind m (λ x, k))
  (at level 10, x name, m at level 100, k at level 200) : py_scope.
Notation "m >> k" := (bind m (λ _, k))
  (at level 90, right associativity) : py_scope.
Open Scope py_scope.

(** [for x in l: body x]. *)
Fixpoint for_each {A} (l : list A) (body : A → M unit) : M unit :=
  match l with
  | [] => ret tt
  | x :: r => body x >> for_each r body
  end.

(** *** Files *)

Definition path_exists (p : string) : M bool :=
  gets (λ w, match fs w !! p with Some _ => true | None => false end).

(** [open(p, 'rb').read()]. *)
Definition read_file (p : string) : M bytes :=
  λ w, match fs w !! p with
       | Some d => (Ret d, w)
       | None => (Raise (FileNotFoundError p), w)
       end.

(** [open(p, 'wb')] followed by one write of [d]; also [file.save(p)]. *)
Definition write_file (p : string) (d : bytes) : M unit :=
  modify (λ w, emit (EvWrite p) (with_fs <[p := d]> w)).

(** A further write on a file that is already open for writing. *)
Definition append_file (p : string) (d : bytes) : M unit :=
  modify (with_fs (λ m, <[p := default [] (m !! p) ++ d]> m)).

(** [shutil.copy2(src, dst)]. *)
Definition copy2 (src dst : string) : M unit :=
  let* d := read_file src in
  modify (λ w, emit (EvCopy src dst) (with_fs <[dst := d]> w)).

(** *** The operation table *)

(** [OPERATIONS[k]]: raises [KeyError] when [k] is not a key. *)
Definition get_op (k : string) : M Operation :=
  λ w, match OPERATIONS w !! k with
       | Some o => (Ret o, w)
       | None => (Raise (KeyError k), w)
       end.

(** [OPERATIONS[k][field] = v], as an update [f] of the record. *)
Definition update_op (k : string) (f : Operation → Operation) : M unit :=
  let* o := get_op k in
  modify (with_ops <[k := f o]>).

Definition op_in (k : string) : M bool :=
  gets (λ w, match OPERATIONS w !! k with Some _ => true | None => false end).

(** *** What a computation may touch

    [touches m W K E]: from any world, [m] leaves every file outside [W]
    and every operation outside [K] as it was, and only adds events of
    [E] to the trace. *)
Definition touches {A} (m : M A) (W K : string → Prop) (E : Event → Prop)
    : Prop :=
  ∀ w,
    (∀ p, ¬ W p → fs (m w).2 !! p = fs w !! p) ∧
    (∀ k, ¬ K k → OPERATIONS (m w).2 !! k = OPERATIONS w !! k) ∧
    (∀ k, is_Some (OPERATIONS w !! k) → is_Some (OPERATIONS (m w).2 !! k)) ∧
    ∃ tr, trace (m w).2 = trace w ++ tr ∧ Forall E tr.

(** ** The program *)

Definition DATABASE_PATHS : list string :=
  ["database/books_data.db"; "database/books_static.db"].

(** What a request reads from its surroundings: [uuid.uuid4()], the two
    readings of [time.time()], [datetime.now().strftime(...)], and what
    [os.makedirs] raises when the request makes its staging directory, if
    anything ([FileExistsError] when a file is in the way, another
    [OSError] when the system refuses): directories are not in the world,
    so the outcome comes with the request. *)
Record Env := mkEnv {
  uuid4 : string;
  time_started : Z;
  time_completed : Z;
  timestamp : string;
  makedirs_raises : option exn
}.

(** [os.makedirs(temp_dir, exist_ok=True)] of a request. *)
Definition makedirs (env : Env) : M unit :=
  match makedirs_raises env with
  | Some e => raise e
  | None => ret tt
  end.

(** How one member of an opened archive reads: whole, not at all
    ([zip_ref.open] raises before the target is opened), or up to a point
    where the copy raises. *)
Inductive ZipEntry :=
| EntryData (d : bytes)
| EntryUnreadable
| EntryTruncated (d : bytes).

(** The multipart form and files of a [POST /restore]. *)
Record RestoreRequest := mkRestoreRequest {
  form_chunk : option string;
  form_upload_id : option string;
  form_total_chunks : option string;
  form_checksum : option string;
  files_backup_file : option (string * bytes)   (* file name, content *)
}.

(** The JSON bodies of [/restore], one constructor per [jsonify] call. *)
Inductive RestoreBody :=
| UploadSessionNotFound
| NoBackupFileProvided
| NoBackupFileSelected
| ChunkReceived (upload_id : string) (chunk_number received total : Z)
| ChecksumVerificationFailed (upload_id expected calculated : string)
| InvalidZipFileProvided (upload_id : string)
| RestoreFailed (e : exn) (upload_id : string)
| InvalidZipFile (upload_id : string)
| NoValidDatabaseFiles (upload_id : string)
| RestoreCompleted (restored : list string) (upload_id : string).

Definition RestoreResponse : Type := RestoreBody * Z.

(** The query string and headers of a [GET /backup]. *)
Record BackupRequest := mkBackupRequest {
  args_chunk_size : option string;
  headers_Range : option string
}.

(** The variables the generator closes over. *)
Record Generator := mkGenerator {
  gen_backup_path : string;
  gen_start : Z;
  gen_content_length : Z;
  gen_chunk_size : Z
}.

Inductive BackupError :=
| DatabaseFileNotFound (db_path : string)
| InvalidRangeHeader
| RangeNotSatisfiable
| BackupFailed (e : exn).

Inductive BackupResponse :=
| BackupJson (err : BackupError) (code : Z)
| BackupStream (gen : Generator) (status_code : Z) (headers : list (string * string)).

(** [int(s)], raising [ValueError]. *)
Definition int_value (s : string) : outcome Z :=
  match Py.int_of_str s with
  | Some z => Ret z
  | None => Raise ValueError
  end.

Definition int (s : string) : M Z := lift (int_value s).

(** [range(n)]. *)
Definition range (n : Z) : list Z := map Z.of_nat (seq 0 (Z.to_nat n)).

(** A path that lies below the directory [d], read as strings. *)
Definition below (d p : string) : bool :=
  Py.startswith (if Py.endswith_sep d then d else d +:+ "/") p.

(** What a call of [shutil.rmtree] does, which depends on the directory
    tree and on how the path resolves: the files it removes before it
    returns or raises, and the exception it raises, if any. A directory
    that is not there is a removal of nothing that does not raise. *)
Record Removal := mkRemoval {
  removed : string → string → bool;     (* directory, file *)
  removal_error : string → option exn
}.

(** [if os.path.exists(d): shutil.rmtree(d)]. *)
Definition rmtree (r : Removal) (d : string) : M unit :=
  modify (with_fs (filter (λ kv, removed r d kv.1 = false))) >>
  match removal_error r d with
  | Some e => raise e
  | None => ret tt
  end.

(** A removal that does what [shutil.rmtree] does on a plain path when
    nothing fails: every file below the directory goes and no other. *)
Definition plain_removal : Removal :=
  mkRemoval below (λ _, None).

(** [f.read(size)] on a binary file at offset [pos]: a negative size
    other than -1 raises [ValueError], -1 reads to the end. *)
Definition file_read (data : bytes) (pos : nat) (size : Z) : option bytes :=
  if (size <? -1)%Z then None
  else if (size =? -1)%Z then Some (drop pos data)
  else Some (take (Z.to_nat size) (drop pos data)).

(** A value together with the equation that names it. *)
Definition inspect {A : Type} (x : A) : {y : A | x = y} := exist _ x eq_refl.

(** The [while remaining > 0] loop of [generate]: the blocks yielded, and
    the exception that ended the loop if one did. *)
Equations? stream_loop (data : bytes) (chunk_size : Z) (pos : nat)
    (remaining : Z) : list bytes * option exn
    by wf (Z.to_nat remaining) lt :=
  stream_loop data chunk_size pos remaining
    with inspect (0 <? remaining)%Z := {
    | exist _ false _ => ([], None)
    | exist _ true _
        with inspect (file_read data pos (Z.min chunk_size remaining)) := {
      | exist _ None _ => ([], Some ValueError)
      | exist _ (Some []) _ => ([], None)
      | exist _ (Some (b :: d)) _ =>
          let rest := stream_loop data chunk_size (pos + length (b :: d))%nat
                        (remaining - Z.of_nat (length (b :: d))) in
          ((b :: d) :: rest.1, rest.2) } }.
Proof. simpl. lia. Qed.

Section Backend.

(** [hashlib.md5] over the whole content, as a hex string. *)
Variable md5_hexdigest : bytes → string.
(** The archive [zipfile.ZipFile(path, 'w', ZIP_DEFLATED)] produces from
    the (name, content) pairs written to it. *)
Variable zip_write : list (string * bytes) → bytes.
(** [zipfile.is_zipfile] on a file's content. *)
Variable is_zip_bytes : bytes → bool.
(** [zipfile.ZipFile(path, 'r')] on a file's content: the members in
    directory order, or [None] for [BadZipFile]. *)
Variable zip_read : bytes → option (list (string * ZipEntry)).

(** [calculate_file_checksum]: the 4096-byte blocks fed to the digest
    add up to the file's content. *)
Definition calculate_file_checksum (file_path : string) : M string :=
  let* d := read_file file_path in
  ret (md5_hexdigest d).

(** [zipfile.is_zipfile(path)]: false when the file cannot be opened. *)
Definition is_zipfile (path : string) : M bool :=
  gets (λ w, match fs w !! path with
             | Some d => is_zip_bytes d
             | None => false
             end).

Definition ZipFile_open (path : string) : M (list (string * ZipEntry)) :=
  let* d := read_file path in
  match zip_read d with
  | Some entries => ret entries
  | None => raise BadZipFile
  end.

(** [zip_ref.getinfo(name)]: the last member of that name. *)
Fixpoint getinfo (name : string) (entries : list (string * ZipEntry))
    : option ZipEntry :=
  match entries with
  | [] => None
  | (n, e) :: r =>
      match getinfo name r with
      | Some e' => Some e'
      | None => if String.eqb n name then Some e else None
      end
  end.

Definition bak_path (db_path ts : string) : string :=
  db_path +:+ "." +:+ ts +:+ ".bak".

Definition backup_current_databases (env : Env) : M bool :=
  for_each DATABASE_PATHS (λ db_path,
    let* there := path_exists db_path in
    if there then copy2 db_path (bak_path db_path (timestamp env))
    else ret tt) >>
  ret true.

(** [with zip_ref.open(base_name) as source, open(db_path, 'wb') as
    target: shutil.copyfileobj(source, target)]. *)
Definition extract_member (entries : list (string * ZipEntry))
    (base_name db_path : string) : M unit :=
  match getinfo base_name entries with
  | None => raise (KeyError base_name)
  | Some EntryUnreadable => raise BadZipFile
  | Some (EntryData d) => write_file db_path d
  | Some (EntryTruncated d) => write_file db_path d >> raise BadZipFile
  end.

(** The [for db_path in DATABASE_PATHS] loop of [perform_restore];
    [restored] is the list built so far. *)
Fixpoint extract_wanted (entries : list (string * ZipEntry))
    (paths restored : list string) : M (list string) :=
  match paths with
  | [] => ret restored
  | db_path :: rest =>
      let base_name := Py.basename db_path in
      if bool_decide (base_name ∈ map fst entries)
      then extract_member entries base_name db_path >>
           extract_wanted entries rest (restored ++ [db_path])
      else extract_wanted entries rest restored
  end.

(** [perform_restore] from the [with zipfile.ZipFile(zip_path, 'r')]
    block to the last [return]. *)
Definition extract_and_finish (env : Env) (zip_path operation_id : string)
    : M RestoreResponse :=
  let* entries := ZipFile_open zip_path in
  let* restored := extract_wanted entries DATABASE_PATHS [] in
  match restored with
  | [] =>
      update_op operation_id (set_status failed) >>
      ret (NoValidDatabaseFiles operation_id, 400)
  | _ =>
      update_op operation_id (set_status completed) >>
      update_op operation_id (set_completed_at (time_completed env)) >>
      update_op operation_id (set_restored_files restored) >>
      modify (emit (EvCleanupOperationLater operation_id 3600)) >>
      ret (RestoreCompleted restored operation_id, 200)
  end.

(** The [except Exception as e] block of [perform_restore]. *)
Definition restore_failed (operation_id : string) (e : exn)
    : M RestoreResponse :=
  update_op operation_id (set_status failed) >>
  update_op operation_id (set_error e) >>
  ret (RestoreFailed e operation_id, 500).

Definition perform_restore (env : Env) (zip_path operation_id : string)
    : M RestoreResponse :=
  modify (emit (EvPerformRestore zip_path operation_id)) >>
  try_except
    (update_op operation_id (set_status restoring) >>
     let* ok := is_zipfile zip_path in
     if negb ok then
       update_op operation_id (set_status failed) >>
       ret (InvalidZipFile operation_id, 400)
     else
       backup_current_databases env >>
       extract_and_finish env zip_path operation_id)
    (restore_failed operation_id).

(** The checksum gate and the hand-over to [perform_restore]; the handler
    has this code twice, after assembly and after a single-file save. *)
Definition verify_and_restore (env : Env) (req : RestoreRequest)
    (upload_id file_path : string) : M RestoreResponse :=
  let client_checksum := form_checksum req in
  match client_checksum with
  | Some c =>
      if negb (String.eqb c "") then
        let* calculated := calculate_file_checksum file_path in
        if negb (String.eqb calculated c) then
          update_op upload_id (set_status failed) >>
          ret (ChecksumVerificationFailed upload_id c calculated, 400)
        else perform_restore env file_path upload_id
      else perform_restore env file_path upload_id
  | None => perform_restore env file_path upload_id
  end.

Definition chunk_file (dir : string) (i : Z) : string :=
  Py.path_join dir ("chunk_" +:+ Py.str_of_int i).

(** The body of the [if chunks_received >= total_chunks] branch up to the
    end of the [with open(combined_file_path, 'wb')] block. *)
Definition combine_chunks (upload_id : string) : M string :=
  let* op := get_op upload_id in
  let combined_file_path := Py.path_join (temp_dir op) "combined.zip" in
  write_file combined_file_path [] >>
  for_each (range (total_chunks op)) (λ i,
    let* d := read_file (chunk_file (temp_dir op) i) in
    append_file combined_file_path d) >>
  ret combined_file_path.

Definition new_operation (env : Env) (upload_id : string) (total : Z) : Operation :=
  mkOperation "restore" uploading (time_started env) 0 total
    (Py.path_join "temp_uploads" upload_id) None None None.

(** [request.form.get('upload_id', str(uuid.uuid4()))]. *)
Definition upload_id_of (env : Env) (req : RestoreRequest) : string :=
  default (uuid4 env) (form_upload_id req).

(** ['chunk' in request.form]. *)
Definition is_chunk (req : RestoreRequest) : bool :=
  match form_chunk req with Some _ => true | None => false end.

(** The first block of [restore_database]: a request without a chunk
    field, or with chunk ['0'], puts a fresh record in the table under
    its upload id and then makes the staging directory; any other chunk
    needs the id to be in the table. The result tells whether the handler
    goes on. The block is outside the [try]: what [int] or [os.makedirs]
    raises here leaves the handler, the latter with the record stored. *)
Definition open_session (env : Env) (req : RestoreRequest) : M bool :=
  let upload_id := upload_id_of env req in
  if negb (is_chunk req) || String.eqb (default "" (form_chunk req)) "0" then
    let* total := match form_total_chunks req with
                  | Some s => int s
                  | None => ret 1
                  end in
    modify (with_ops <[upload_id := new_operation env upload_id total]>) >>
    makedirs env >>
    ret true
  else op_in upload_id.

(** The [if is_chunk:] branch. *)
Definition receive_chunk (env : Env) (req : RestoreRequest)
    (upload_id : string) (content : bytes) : M RestoreResponse :=
  let* chunk_number := int (default "" (form_chunk req)) in
  let* op := get_op upload_id in
  write_file (chunk_file (temp_dir op) chunk_number) content >>
  update_op upload_id (λ o, set_chunks_received (chunks_received o + 1) o) >>
  let* op := get_op upload_id in
  if chunks_received op >=? total_chunks op then
    let* combined_file_path := combine_chunks upload_id in
    verify_and_restore env req upload_id combined_file_path
  else
    ret (ChunkReceived upload_id chunk_number
           (chunks_received op) (total_chunks op), 200).

(** The [else] branch: a single file. *)
Definition receive_single (env : Env) (req : RestoreRequest)
    (upload_id : string) (content : bytes) : M RestoreResponse :=
  let* op := get_op upload_id in
  let temp_path := Py.path_join (temp_dir op) "backup.zip" in
  write_file temp_path content >>
  verify_and_restore env req upload_id temp_path.

(** The two [except] blocks of [restore_database]. *)
Definition restore_error (upload_id : string) (e : exn) : M RestoreResponse :=
  match e with
  | BadZipFile =>
      update_op upload_id (set_status failed) >>
      ret (InvalidZipFileProvided upload_id, 400)
  | _ =>
      update_op upload_id (set_status failed) >>
      ret (RestoreFailed e upload_id, 500)
  end.

Definition restore_database (env : Env) (req : RestoreRequest)
    : M RestoreResponse :=
  let upload_id := upload_id_of env req in
  let* known := open_session env req in
  if negb known then ret (UploadSessionNotFound, 404)
  else
    try_except
      match files_backup_file req with
      | None => ret (NoBackupFileProvided, 400)
      | Some (filename, content) =>
          if String.eqb filename "" then ret (NoBackupFileSelected, 400)
          else if is_chunk req then receive_chunk env req upload_id content
          else receive_single env req upload_id content
      end
      (restore_error upload_id).

(** Requests handled one after another: the answers, in order. *)
Fixpoint restore_all (reqs : list (Env * RestoreRequest)) (w : World)
    : list (outcome RestoreResponse) * World :=
  match reqs with
  | [] => ([], w)
  | (env, req) :: rest =>
      let (r, w') := restore_database env req w in
      let (rs, w'') := restore_all rest w' in
      (r :: rs, w'')
  end.

(** [GET /operation/status/<upload_id>]: the record, or 404. *)
Definition operation_status (upload_id : string) : M (option Operation) :=
  gets (λ w, OPERATIONS w !! upload_id).

(** [cleanup_operation_later] once its sleep is over; [r] is what the
    removal of the staging directory does. The [del] comes after the
    removal in the same [try]: when the removal raises, the exception is
    swallowed and the record stays. *)
Definition cleanup_operation_later (r : Removal) (operation_id : string)
    : M unit :=
  try_except
    (let* there := op_in operation_id in
     if there then
       let* op := get_op operation_id in
       (if negb (String.eqb (temp_dir op) "") then rmtree r (temp_dir op)
        else ret tt) >>
       modify (with_ops (delete operation_id))
     else ret tt)
    (λ _, ret tt).

(** [cleanup_file_later] once its sleep is over. *)
Definition cleanup_file_later (file_path : string) : M unit :=
  try_except
    (let* there := path_exists file_path in
     if there then modify (with_fs (delete file_path)) else ret tt)
    (λ _, ret tt).

(** The first path of the list that is not a file, if there is one. *)
Fixpoint first_missing (paths : list string) : M (option string) :=
  match paths with
  | [] => ret None
  | db_path :: rest =>
      let* there := path_exists db_path in
      if there then first_missing rest else ret (Some db_path)
  end.

(** [zf.write(db_path, os.path.basename(db_path))] for each path. *)
Fixpoint read_members (paths : list string) : M (list (string * bytes)) :=
  match paths with
  | [] => ret []
  | db_path :: rest =>
      let* d := read_file db_path in
      let* ms := read_members rest in
      ret ((Py.basename db_path, d) :: ms)
  end.

(** The [try] block that reads the [Range] header: [start], then [end]. *)
Definition parse_range (range_header : string) (file_size : Z) : outcome (Z * Z) :=
  let range_match := Py.split "-" (Py.remove_all "bytes=" range_header) in
  and_then (match range_match !! 0%nat with
            | Some "" => Ret 0
            | Some s => int_value s
            | None => Raise IndexError
            end) (λ start,
  and_then (match range_match !! 1%nat with
            | Some "" => Ret (file_size - 1)
            | Some s => int_value s
            | None => Raise IndexError
            end) (λ end_,
  Ret (start, end_))).

(** [request.args.get('chunk_size', default=1024*1024, type=int)]: the
    default also when the value is not an integer. *)
Definition get_chunk_size (req : BackupRequest) : Z :=
  match args_chunk_size req with
  | Some s => default (1024 * 1024) (Py.int_of_str s)
  | None => 1024 * 1024
  end.

(** Truth value of [range_header]. *)
Definition range_given (req : BackupRequest) : option string :=
  match headers_Range req with
  | Some "" => None
  | other => other
  end.

Definition backup_headers (backup_filename checksum : string)
    (content_length file_size : Z) : list (string * string) :=
  [ ("Content-Disposition", "attachment; filename=" +:+ backup_filename);
    ("Accept-Ranges", "bytes");
    ("Cache-Control", "no-cache");
    ("Content-Length", Py.str_of_int content_length);
    ("X-Checksum", checksum);
    ("X-Total-Size", Py.str_of_int file_size) ].

Definition content_range (start end_ file_size : Z) : string :=
  "bytes " +:+ Py.str_of_int start +:+ "-" +:+ Py.str_of_int end_
    +:+ "/" +:+ Py.str_of_int file_size.

Definition backup_database (env : Env) (req : BackupRequest)
    : M BackupResponse :=
  try_except
    (let* missing := first_missing DATABASE_PATHS in
     match missing with
     | Some db_path => ret (BackupJson (DatabaseFileNotFound db_path) 404)
     | None =>
         let backup_filename := "books_db_backup_" +:+ timestamp env +:+ ".zip" in
         let backup_path := Py.path_join "temp_backups" backup_filename in
         let* members := read_members DATABASE_PATHS in
         write_file backup_path (zip_write members) >>
         let* archive := read_file backup_path in
         let file_size := Z.of_nat (length archive) in
         let* checksum := calculate_file_checksum backup_path in
         let chunk_size := get_chunk_size req in
         let* window :=
           match range_given req with
           | Some range_header =>
               try_except
                 (let* r := lift (parse_range range_header file_size) in
                  ret (Some r))
                 (λ e, match e with
                       | ValueError | IndexError => ret None
                       | _ => raise e
                       end)
           | None => ret (Some (0, file_size - 1))
           end in
         match window with
         | None => ret (BackupJson InvalidRangeHeader 400)
         | Some (start, end0) =>
             if (start >=? file_size)%Z
             then ret (BackupJson RangeNotSatisfiable 416)
             else
               let end_ := if (end0 >=? file_size)%Z then file_size - 1 else end0 in
               let content_length := end_ - start + 1 in
               let headers :=
                 backup_headers backup_filename checksum content_length file_size in
               ret (BackupStream
                      (mkGenerator backup_path start content_length chunk_size)
                      (match range_given req with
                       | Some _ => 206
                       | None => 200
                       end)
                      (match range_given req with
                       | Some _ => headers ++ [("Content-Range",
                                         content_range start end_ file_size)]
                       | None => headers
                       end))
         end
     end)
    (λ e, ret (BackupJson (BackupFailed e) 500)).

(** Running the generator of a streamed response: the blocks it yields
    and the exception that ended it, if any. The cleanup thread is
    started only when the [with] block is left normally. *)
Definition generate (g : Generator) (w : World)
    : (list bytes * option exn) * World :=
  match fs w !! gen_backup_path g with
  | None => (([], Some (FileNotFoundError (gen_backup_path g))), w)
  | Some data =>
      if (gen_start g <? 0)%Z then (([], Some ValueError), w)
      else
        let r := stream_loop data (gen_chunk_size g)
                   (Z.to_nat (gen_start g)) (gen_content_length g) in
        match r.2 with
        | None => (r, emit (EvCleanupFileLater (gen_backup_path g) 600) w)
        | Some _ => (r, w)
        end
  end.

(** What a client receives from [GET /backup]: the response, and for a
    streamed one the bytes of its body, generated right after the
    handler returns. *)
Definition download (env : Env) (req : BackupRequest) (w : World)
    : (outcome BackupResponse * bytes) * World :=
  let (r, w') := backup_database env req w in
  match r with
  | Ret (BackupStream g _ _) =>
      let (out, w'') := generate g w' in ((r, concat out.1), w'')
  | _ => ((r, []), w')
  end.

(** Requests served one after another: the bodies, in order. *)
Fixpoint downloads (reqs : list (Env * BackupRequest)) (w : World)
    : list bytes * World :=
  match reqs with
  | [] => ([], w)
  | (env, req) :: rest =>
      let (r, w') := download env req w in
      let (bs, w'') := downloads rest w' in
      (r.2 :: bs, w'')
  end.

(** The archive [backup_database] builds in a world. *)
Definition archive_of (w : World) : bytes :=
  zip_write (map (λ p, (Py.basename p, default [] (fs w !! p))) DATABASE_PATHS).

Definition databases_exist (w : World) : Prop :=
  Forall (λ p, is_Some (fs w !! p)) DATABASE_PATHS.









(** The copies [backup_current_databases] makes in a world. *)
Definition snapshot_events (env : Env) (w : World) : list Event :=
  flat_map (λ q, match fs w !! q with
                 | Some _ => [EvCopy q (bak_path q (timestamp env))]
                 | None => []
                 end) DATABASE_PATHS.

(** The names [backup_current_databases] may write. *)
Definition snapshot_name (env : Env) (p : string) : Prop :=
  ∃ q, q ∈ DATABASE_PATHS ∧ p = bak_path q (timestamp env).

(** Where [backup_database] writes its archive. *)
Definition backup_file_path (env : Env) : string :=
  Py.path_join "temp_backups" ("books_db_backup_" +:+ timestamp env +:+ ".zip").

(** The world [backup_database] leaves when every database is there. *)
Definition staged (env : Env) (w : World) : World :=
  emit (EvWrite (backup_file_path env))
    (with_fs <[backup_file_path env := archive_of w]> w).

(** The window before the bounds are checked: [None] when the header
    does not parse. *)
Definition resolve (req : BackupRequest) (file_size : Z) : option (Z * Z) :=
  match range_given req with
  | Some h => match parse_range h file_size with
              | Ret r => Some r
              | Raise _ => None
              end
  | None => Some (0, file_size - 1)
  end.

(** The response [backup_database] gives for an archive, as a function of
    the request alone. *)
Definition answer (env : Env) (req : BackupRequest) (archive : bytes)
    : BackupResponse :=
  let file_size := Z.of_nat (length archive) in
  match resolve req file_size with
  | None => BackupJson InvalidRangeHeader 400
  | Some (start, end0) =>
      if (start >=? file_size)%Z then BackupJson RangeNotSatisfiable 416
      else
        let end_ := if (end0 >=? file_size)%Z then file_size - 1 else end0 in
        let headers :=
          backup_headers ("books_db_backup_" +:+ timestamp env +:+ ".zip")
            (md5_hexdigest archive) (end_ - start + 1) file_size in
        BackupStream
          (mkGenerator (backup_file_path env) start (end_ - start + 1)
             (get_chunk_size req))
          (match range_given req with Some _ => 206 | None => 200 end)
          (match range_given req with
           | Some _ => headers ++ [("Content-Range",
                                    content_range start end_ file_size)]
           | None => headers
           end)
  end.

End Backend.

(** What a part of a split download asks for: a Range header that parses
    to the range, and a block size of at least one. *)
Definition asks (L : Z) (part : Env * BackupRequest) (r : Z * Z) : Prop :=
  1 ≤ get_chunk_size part.2 ∧
  ∃ h, headers_Range part.2 = Some h ∧ h ≠ "" ∧ parse_range h L = Ret r.

(** Ranges that follow one another from [a] up to, not including, [L]:
    each starts where the one before ended, none is empty, all are in
    bounds. *)
Inductive tiles : Z → list (Z * Z) → Z → Prop :=
| tiles_done (a : Z) : tiles a [] a
| tiles_next (a e : Z) rs (L : Z) :
    (a ≤ e)%Z → (e < L)%Z → tiles (e + 1) rs L → tiles a ((a, e) :: rs) L.

(** ** The rest of [backup.py]: verification, status, sizes *)

(** The query string of a [GET /backup/verify]. *)
Record VerifyRequest := mkVerifyRequest {
  args_checksum : option string;
  args_filename : option string
}.

(** The JSON bodies of [/backup/verify]. *)
Inductive VerifyBody :=
| MissingChecksumOrFilename
| BackupFileNotFound
| Verified
| NotVerified (expected received : string).

(** One element of the ["databases"] list of [/backup/status]. *)
Record DbInfo := mkDbInfo {
  info_path : string;
  info_exists : bool;
  info_size_bytes : Z;
  info_size_formatted : string
}.

(** The dict [backup_status] fills in its loop, and the one it returns. *)
Record Tally := mkTally {
  databases : list DbInfo;
  total_size_bytes : Z;
  all_files_exist : bool
}.

Record StatusReport := mkStatusReport {
  tally : Tally;
  total_size_formatted : string
}.

(** Truth value of an optional string: there and not empty. *)
Definition truthy (s : option string) : bool :=
  match s with
  | Some (String _ _) => true
  | _ => false
  end.

Definition size_names : list string := ["B"; "KB"; "MB"; "GB"; "TB"].

(** The [while size_bytes >= 1024 and i < len(size_names) - 1] loop of
    [format_size]; [steps] is [len(size_names) - 1 - i], the number of
    units still above. The divisions by 1024 are exact on floats, so the
    unit reached is the one the rationals give. *)
Fixpoint scale_down (steps : nat) (size_bytes : Q) (i : nat) : Q * nat :=
  match steps with
  | O => (size_bytes, i)
  | S k =>
      if Qle_bool 1024 size_bytes
      then scale_down k (size_bytes / 1024) (S i)
      else (size_bytes, i)
  end.

Section Reports.

Variable md5_hexdigest : bytes → string.
(** [werkzeug.utils.secure_filename]. *)
Variable secure_filename : string → string.
(** [f"{x:.2f}"]: a number with two decimals. *)
Variable two_decimals : Q → string.

(** [GET /backup/verify]. A file name whose secure form is empty (['..']
    is one) addresses [temp_backups/] itself, the directory made when the
    routes are set up: it exists, and opening it to compute the digest
    raises [IsADirectoryError], which no [try] catches. *)
Definition verify_backup (req : VerifyRequest) : M (VerifyBody * Z) :=
  if negb (truthy (args_checksum req)) || negb (truthy (args_filename req))
  then ret (MissingChecksumOrFilename, 400)
  else
    let checksum := default "" (args_checksum req) in
    let filename := default "" (args_filename req) in
    let backup_path := Py.path_join "temp_backups" (secure_filename filename) in
    if String.eqb (secure_filename filename) ""
    then raise (IsADirectoryError backup_path)
    else
      let* there := path_exists backup_path in
      if negb there then ret (BackupFileNotFound, 404)
      else
        let* calculated_checksum :=
          calculate_file_checksum md5_hexdigest backup_path in
        if String.eqb calculated_checksum checksum then ret (Verified, 200)
        else ret (NotVerified calculated_checksum checksum, 200).

Definition format_size (size_bytes : Z) : string :=
  if size_bytes =? 0 then "0 B"
  else
    let (x, i) := scale_down (length size_names - 1) (inject_Z size_bytes) 0 in
    two_decimals x +:+ " " +:+ nth i size_names "".

(** One round of the loop of [backup_status]. *)
Definition add_database (w : World) (status : Tally) (db_path : string)
    : Tally :=
  match fs w !! db_path with
  | Some d =>
      let size := Z.of_nat (length d) in
      mkTally (databases status
               ++ [mkDbInfo db_path true size (format_size size)])
        (total_size_bytes status + size) (all_files_exist status)
  | None =>
      mkTally (databases status ++ [mkDbInfo db_path false 0 "0 B"])
        (total_size_bytes status) false
  end.

(** [GET /backup/status]. *)
Definition backup_status : M (StatusReport * Z) :=
  gets (λ w,
    let status := fold_left (add_database w) DATABASE_PATHS
                    (mkTally [] 0 true) in
    (mkStatusReport status (format_size (total_size_bytes status)), 200)).

End Reports.

(** ** The earlier handler ([alpha] tree): the archive is built in memory
    and streamed whole *)

Module Alpha.

(** [memory_file.read(size)] on a [BytesIO]: a negative size reads to the
    end. *)
Definition bytesio_read (data : bytes) (pos : nat) (size : Z) : bytes :=
  if size <? 0 then drop pos data
  else take (Z.to_nat size) (drop pos data).

(** The loop of [generate]: read, and while something came, yield it and
    read again. *)
Equations? generate (memory_file : bytes) (chunk_size : Z) (pos : nat)
    : list bytes by wf (length memory_file - pos)%nat lt :=
  generate memory_file chunk_size pos
    with inspect (bytesio_read memory_file pos chunk_size) := {
    | exist _ [] _ => []
    | exist _ (b :: d) _ =>
        (b :: d) :: generate memory_file chunk_size (pos + length (b :: d)) }.
Proof.
  assert (pos < length memory_file)%nat; [|simpl; lia].
  destruct (decide (pos < length memory_file)%nat) as [|Hge]; [done|].
  unfold bytesio_read in e. rewrite drop_ge in e by lia.
  rewrite take_nil in e. by destruct (chunk_size <? 0).
Qed.

Inductive Response :=
| Json (err : BackupError) (code : Z)
| Stream (memory_file : bytes) (chunk_size : Z)
         (headers : list (string * string)).

Section Handler.

Variable zip_write : list (string * bytes) → bytes.

Definition backup_database (env : Env) (req : BackupRequest) : M Response :=
  try_except
    (let* missing := first_missing DATABASE_PATHS in
     match missing with
     | Some db_path => ret (Json (DatabaseFileNotFound db_path) 404)
     | None =>
         let backup_filename := "books_db_backup_" +:+ timestamp env +:+ ".zip" in
         let* members := read_members DATABASE_PATHS in
         let memory_file := zip_write members in
         let chunk_size := get_chunk_size req in
         ret (Stream memory_file chunk_size
                [ ("Content-Disposition",
                   "attachment; filename=" +:+ backup_filename);
                  ("Transfer-Encoding", "chunked");
                  ("Cache-Control", "no-cache") ])
     end)
    (λ e, ret (Json (BackupFailed e) 500)).

(** The bytes a client receives. *)
Definition download (env : Env) (req : BackupRequest) (w : World) : bytes :=
  match (backup_database env req w).1 with
  | Ret (Stream memory_file chunk_size _) =>
      concat (generate memory_file chunk_size 0)
  | _ => []
  end.

End Handler.

End Alpha.

(** The members [perform_restore] takes from an archive: the databases
    whose base name is a member's name, in the order of
    [DATABASE_PATHS]. *)
Definition restorable (entries : list (string * ZipEntry)) : list string :=
  filter (λ p, Py.basename p ∈ map fst entries) DATABASE_PATHS.

(** [yields m P Q]: from any world, [m] returns a value of [P] or raises
    an exception of [Q]. *)
Definition yields {A} (m : M A) (P : A → Prop) (Q : exn → Prop) : Prop :=
  ∀ w, match (m w).1 with
       | Ret a => P a
       | Raise e => Q e
       end.

(** [keeps_files m]: [m] removes no file. *)
Definition keeps_files {A} (m : M A) : Prop :=
  ∀ w p, is_Some (fs w !! p) → is_Some (fs (m w).2 !! p).

(** The name under which [backup_database] offers its archive. *)
Definition backup_filename (env : Env) : string :=
  "books_db_backup_" +:+ timestamp env +:+ ".zip".

(** The answers of [/restore] once the session is open, each with the
    status code it is sent with. *)
Definition session_answer (r : RestoreResponse) : Prop :=
  match r.1 with
  | NoBackupFileProvided | NoBackupFileSelected
  | ChecksumVerificationFailed _ _ _ | InvalidZipFile _
  | NoValidDatabaseFiles _ => r.2 = 400
  | ChunkReceived _ _ _ _ | RestoreCompleted _ _ => r.2 = 200
  | RestoreFailed _ _ => r.2 = 500
  | UploadSessionNotFound | InvalidZipFileProvided _ => False
  end.

(** The total a request that opens a session announces: [None] when
    [int(total_chunks)] raises, one when the field is not sent. *)
Definition announced_total (req : RestoreRequest) : option Z :=
  match form_total_chunks req with
  | Some s => Py.int_of_str s
  | None => Some 1
  end.

(** A request that opens a session: no chunk field, or chunk ['0']. *)
Definition opens_session (req : RestoreRequest) : bool :=
  negb (is_chunk req) || String.eqb (default "" (form_chunk req)) "0".

(** What a member of an archive holds when it reads whole. *)
Definition member_data (entries : list (string * ZipEntry)) (p : string)
    : option bytes :=
  match getinfo (Py.basename p) entries with
  | Some (EntryData d) => Some d
  | _ => None
  end.

Section Sessions.

Variable md5_hexdigest : bytes → string.
Variable is_zip_bytes : bytes → bool.
Variable zip_read : bytes → option (list (string * ZipEntry)).

(** The [try] block of [restore_database]. *)
Definition session_body (env : Env) (req : RestoreRequest)
    : M RestoreResponse :=
  let upload_id := upload_id_of env req in
  match files_backup_file req with
  | None => ret (NoBackupFileProvided, 400)
  | Some (filename, content) =>
      if String.eqb filename "" then ret (NoBackupFileSelected, 400)
      else if is_chunk req
      then receive_chunk md5_hexdigest is_zip_bytes zip_read env req
             upload_id content
      else receive_single md5_hexdigest is_zip_bytes zip_read env req
             upload_id content
  end.

End Sessions.

(** The header a client sends for the bytes [s] to [e], and for the bytes
    from [s] on. *)
Definition range_header (s e : Z) : string :=
  "bytes=" +:+ Py.str_of_int s +:+ "-" +:+ Py.str_of_int e.

Definition open_range_header (s : Z) : string :=
  "bytes=" +:+ Py.str_of_int s +:+ "-".

(** ** A small instance of the parameters, for running the handlers

    The digest is the content's length in decimal; an archive is a tag
    byte followed by a payload: tag 1 holds [books_data.db], tag 2 holds
    a member the restore does not know, tag 3 holds both databases, tag 4
    holds [books_data.db] whose copy fails half way. *)
Module Toy.

Definition md5_hexdigest (d : bytes) : string :=
  Py.str_of_int (Z.of_nat (length d)).

Definition zip_write (members : list (string * bytes)) : bytes :=
  Byte.x03 :: concat (map snd members).

Definition is_zip_bytes (d : bytes) : bool :=
  match d with
  | Byte.x01 :: _ | Byte.x02 :: _ | Byte.x03 :: _ | Byte.x04 :: _
  | Byte.x05 :: _ => true
  | _ => false
  end.

Definition zip_read (d : bytes) : option (list (string * ZipEntry)) :=
  match d with
  | Byte.x01 :: r => Some [("books_data.db", EntryData r)]
  | Byte.x02 :: r => Some [("notes.txt", EntryData r)]
  | Byte.x03 :: r => Some [("books_data.db", EntryData r);
                           ("books_static.db", EntryData r)]
  | Byte.x04 :: r => Some [("books_data.db", EntryTruncated r)]
  | _ => None
  end.

Definition env0 : Env := mkEnv "u-0001" 100 200 "20240101_120000" None.

(** The same surroundings, with a file in the way of the staging
    directory of upload [u1]. *)
Definition env_blocked : Env :=
  mkEnv "u-0001" 100 200 "20240101_120000"
    (Some (FileExistsError "temp_uploads/u1")).

Definition two_databases : World :=
  mkWorld (<["database/books_data.db" := [Byte.x0a; Byte.x0b; Byte.x0c]]>
            (<["database/books_static.db" := [Byte.x0d; Byte.x0e]]> ∅)) ∅ [].

(** Both databases, and an upload [u1] of two chunks whose first chunk
    has arrived. *)
Definition half_uploaded : World :=
  mkWorld (<["temp_uploads/u1/chunk_0" := [Byte.x02]]> (fs two_databases))
    (<["u1" := mkOperation "restore" uploading 100 1 2 "temp_uploads/u1"
                 None None None]> ∅) [].

(** Both databases, and an upload [u1] that has completed. *)
Definition restored : World :=
  mkWorld (fs two_databases)
    (<["u1" := mkOperation "restore" completed 100 0 1 "temp_uploads/u1"
                 (Some 200) (Some ["database/books_data.db"]) None]> ∅) [].

(** One file holding an archive [content], under upload id [u1]. *)
Definition single_upload (checksum : option string) (content : bytes)
    : RestoreRequest :=
  mkRestoreRequest None (Some "u1") None checksum (Some ("backup.zip", content)).

(** Chunk [j] of upload [u1], announced as one of [total]. *)
Definition chunk_upload (j total : Z) (checksum : option string)
    (content : bytes) : RestoreRequest :=
  mkRestoreRequest (Some (Py.str_of_int j)) (Some "u1")
    (Some (Py.str_of_int total)) checksum (Some ("part", content)).

Definition secure_filename (s : string) : string := s.

(** Two decimals of a number that is not negative, an exact tie going to
    the even neighbour, as ['%.2f'] rounds a float that holds the number
    exactly. *)
Definition two_decimals (x : Q) : string :=
  let f := Qfloor (x * 100)%Q in
  let twice := Qfloor (x * 200)%Q - 2 * f in
  let tie := Qeq_bool (x * 200)%Q (inject_Z (2 * f + 1)) in
  let h := if twice =? 0 then f
           else if tie then (if Z.even f then f else f + 1)
           else f + 1 in
  let r := h mod 100 in
  Py.str_of_int (h / 100) +:+ "." +:+
  (if r <? 10 then "0" +:+ Py.str_of_int r else Py.str_of_int r).

(** A further tag: tag 6 holds [books_data.db] and a [books_static.db]
    that cannot be read. *)
Definition is_zip_bytes_more (d : bytes) : bool :=
  match d with
  | Byte.x06 :: _ => true
  | _ => is_zip_bytes d
  end.

Definition zip_read_more (d : bytes) : option (list (string * ZipEntry)) :=
  match d with
  | Byte.x06 :: r => Some [("books_data.db", EntryData r);
                           ("books_static.db", EntryUnreadable)]
  | _ => zip_read d
  end.

(** Both databases, and a single file [content] saved for upload [u1]. *)
Definition uploaded (content : bytes) : World :=
  mkWorld (<["temp_uploads/u1/backup.zip" := content]> (fs two_databases))
    (<["u1" := new_operation env0 "u1" 1]> ∅) [].

(** A [secure_filename] that empties the name of the parent directory,
    as the library does. *)
Definition secure_no_parent (s : string) : string :=
  if String.eqb s ".." then "" else s.

Definition verify_backup := verify_backup md5_hexdigest secure_filename.
Definition format_size := format_size two_decimals.
Definition backup_status := backup_status two_decimals.

Definition backup_database := backup_database md5_hexdigest zip_write.
Definition download := download md5_hexdigest zip_write.
Definition downloads := downloads md5_hexdigest zip_write.
Definition restore_database :=
  restore_database md5_hexdigest is_zip_bytes zip_read.
Definition restore_all := restore_all md5_hexdigest is_zip_bytes zip_read.
Definition perform_restore := perform_restore is_zip_bytes zip_read.

End Toy.

(** ** Checks of the string and path functions *)

Example str_of_int_ex : Py.str_of_int (-507) = "-507" /\ Py.str_of_int 0 = "0".
Proof. split; reflexivity. Qed.

Example int_of_str_ex :
  Py.int_of_str " +1_000 " = Some 1000 /\ Py.int_of_str "-07" = Some (-7) /\
  Py.int_of_str "1__0" = None /\ Py.int_of_str "" = None /\
  Py.int_of_str "12a" = None /\ Py.int_of_str "_1" = None /\
  Py.int_of_str "-" = None.
Proof. repeat split; reflexivity. Qed.

Example split_ex :
  Py.split "-" (Py.remove_all "bytes=" "bytes=500-") = ["500"; ""] /\
  Py.split "-" "5" = ["5"] /\ Py.split "-" "" = [""].
Proof. repeat split; reflexivity. Qed.

Example path_ex :
  Py.path_join "temp_uploads" "abc" = "temp_uploads/abc" /\
  Py.path_join "temp_uploads" "/etc" = "/etc" /\
  Py.path_join "temp_uploads/abc/" "chunk_0" = "temp_uploads/abc/chunk_0" /\
  Py.basename "database/books_data.db" = "books_data.db".
Proof. repeat split; reflexivity. Qed.

Example stream_loop_ex :
  stream_loop [Byte.x01; Byte.x02; Byte.x03; Byte.x04; Byte.x05] 2 1 3
  = ([[Byte.x02; Byte.x03]; [Byte.x04]], None).
Proof. vm_compute. reflexivity. Qed.

Example toy_full_download :
  (Toy.download Toy.env0 (mkBackupRequest None None) Toy.two_databases).1.2
  = [Byte.x03; Byte.x0a; Byte.x0b; Byte.x0c; Byte.x0d; Byte.x0e].
Proof. vm_compute. reflexivity. Qed.

Example toy_range_download :
  (Toy.download Toy.env0 (mkBackupRequest (Some "2") (Some "bytes=1-3"))
     Toy.two_databases).1
  = (Ret (BackupStream
            (mkGenerator "temp_backups/books_db_backup_20240101_120000.zip" 1 3 2)
            206
            [("Content-Disposition",
              "attachment; filename=books_db_backup_20240101_120000.zip");
             ("Accept-Ranges", "bytes"); ("Cache-Control", "no-cache");
             ("Content-Length", "3"); ("X-Checksum", "6");
             ("X-Total-Size", "6"); ("Content-Range", "bytes 1-3/6")]),
     [Byte.x0a; Byte.x0b; Byte.x0c]).
Proof. vm_compute. reflexivity. Qed.

(** [int()] skips tabs and spaces, not the separators 0x1c to 0x1f. *)
Example int_of_str_separator :
  Py.int_of_str (String (Ascii.ascii_of_nat 28) "2") = None /\
  Py.int_of_str (String (Ascii.ascii_of_nat 9) "2 ") = Some 2.
Proof. split; reflexivity. Qed.

Example format_size_ex :
  Toy.format_size 0 = "0 B" /\ Toy.format_size 1023 = "1023.00 B" /\
  Toy.format_size 1024 = "1.00 KB" /\ Toy.format_size 1152 = "1.12 KB" /\
  Toy.format_size 1536 = "1.50 KB" /\ Toy.format_size 1162 = "1.13 KB" /\
  Toy.format_size 1048576 = "1.00 MB".
Proof. repeat split; vm_compute; reflexivity. Qed.

(** * Properties *)

(** ** The streaming loop *)

Lemma stream_loop_body data cs pos remaining :
  stream_loop data cs pos remaining =
  if (0 <? remaining)%Z then
    match file_read data pos (Z.min cs remaining) with
    | None => ([], Some ValueError)
    | Some [] => ([], None)
    | Some (b :: d) =>
        let rest := stream_loop data cs (pos + length (b :: d))%nat
                      (remaining - Z.of_nat (length (b :: d))) in
        ((b :: d) :: rest.1, rest.2)
    end
  else ([], None).
Proof.
  funelim (stream_loop data cs pos remaining);
    repeat match goal with E : _ = _ |- _ => rewrite E end; reflexivity.
Qed.

(** With a block size of at least one the loop ends normally and has
    yielded the window, cut at the end of the file. *)
Lemma stream_loop_positive data cs :
  1 ≤ cs → ∀ n pos remaining, Z.to_nat remaining = n →
  (stream_loop data cs pos remaining).2 = None ∧
  concat (stream_loop data cs pos remaining).1
  = take (Z.to_nat remaining) (drop pos data).
Proof.
  intros Hcs n. induction (lt_wf n) as [n _ IH].
  intros pos remaining Hn. rewrite stream_loop_body.
  destruct (0 <? remaining) eqn:Hrem.
  2:{ apply Z.ltb_ge in Hrem. replace (Z.to_nat remaining) with 0%nat by lia.
      by rewrite take_0. }
  apply Z.ltb_lt in Hrem. unfold file_read.
  destruct (_ <? -1) eqn:H1; [apply Z.ltb_lt in H1; lia|].
  destruct (_ =? -1) eqn:H2; [apply Z.eqb_eq in H2; lia|].
  set (k := Z.to_nat (cs `min` remaining)).
  destruct (take k (drop pos data)) as [|b d] eqn:Hblock.
  - simpl. split; [done|].
    assert (drop pos data = []) as ->.
    { destruct (drop pos data); [done|]. subst k.
      destruct (Z.to_nat (cs `min` remaining)) eqn:Hk; [lia|done]. }
    by rewrite take_nil.
  - cbn zeta. assert (Hlen : (length (b :: d) ≤ k)%nat).
    { rewrite <- Hblock, length_take. lia. }
    assert (Hk : (k ≤ Z.to_nat remaining)%nat) by (subst k; lia).
    destruct (IH (Z.to_nat (remaining - Z.of_nat (length (b :: d)))))
      with (pos := (pos + length (b :: d))%nat)
           (remaining := remaining - Z.of_nat (length (b :: d))) as [E1 E2].
    { simpl in *. lia. } { done. }
    split; [done|]. cbn [fst concat]. rewrite E2.
    rewrite <- Hblock in *. clear E1 E2 IH.
    rewrite <- drop_drop. rewrite length_take in *.
    set (X := drop pos data) in *.
    destruct (decide (k ≤ length X)%nat).
    + rewrite Nat.min_l by done.
      replace (Z.to_nat (remaining - Z.of_nat k))
        with (Z.to_nat remaining - k)%nat by lia.
      replace (Z.to_nat remaining)
        with (k + (Z.to_nat remaining - k))%nat at 2 by lia.
      by rewrite take_take_drop.
    + rewrite Nat.min_r by lia.
      rewrite drop_all, take_nil, app_nil_r.
      rewrite !take_ge; [done|lia..].
Qed.

(** A block size of zero: the first read returns nothing and the loop
    breaks. *)
Lemma stream_loop_zero data pos remaining :
  stream_loop data 0 pos remaining = ([], None).
Proof.
  rewrite stream_loop_body. destruct (0 <? remaining) eqn:Hrem; [|done].
  apply Z.ltb_lt in Hrem. unfold file_read.
  replace (0 `min` remaining) with 0 by lia. by rewrite take_0.
Qed.

(** A block size below -1: the first read raises. *)
Lemma stream_loop_below data cs pos remaining :
  cs < -1 → 0 < remaining →
  stream_loop data cs pos remaining = ([], Some ValueError).
Proof.
  intros Hcs Hrem. rewrite stream_loop_body.
  pose proof Hrem as Hrem'. apply Z.ltb_lt in Hrem' as ->. unfold file_read.
  replace (cs `min` remaining) with cs by lia.
  by apply Z.ltb_lt in Hcs as ->.
Qed.

Lemma stream_loop_at_end data pos remaining :
  (length data ≤ pos)%nat →
  stream_loop data (-1) pos remaining = ([], None).
Proof.
  intros Hpos. rewrite stream_loop_body.
  destruct (0 <? remaining) eqn:Hrem; [|done].
  apply Z.ltb_lt in Hrem. unfold file_read.
  replace (Z.min (-1) remaining) with (-1) by lia.
  change (-1 <? -1) with false. change (-1 =? -1) with true. cbv iota.
  rewrite drop_ge; [reflexivity|lia].
Qed.

(** A block size of -1: one read takes everything up to the end of the
    file, whatever the window. *)
Lemma stream_loop_minus_one data pos remaining :
  0 < remaining →
  (stream_loop data (-1) pos remaining).2 = None ∧
  concat (stream_loop data (-1) pos remaining).1 = drop pos data.
Proof.
  intros Hrem. rewrite stream_loop_body.
  pose proof Hrem as Hrem'. apply Z.ltb_lt in Hrem' as ->. unfold file_read.
  replace (Z.min (-1) remaining) with (-1) by lia.
  change (-1 <? -1) with false. change (-1 =? -1) with true. cbv iota.
  destruct (drop pos data) as [|b d] eqn:Hd; [done|].
  cbn zeta. rewrite stream_loop_at_end.
  - cbn. by rewrite app_nil_r.
  - rewrite <- Hd, length_drop. lia.
Qed.

(** ** Integers read from strings *)

Lemma split_parts_no_sep sep s p :
  In p (Py.split sep s) → Py.contains sep p = false.
Proof.
  revert p. induction s as [|c r IH]; intros p; cbn.
  - by intros [<-|[]].
  - destruct (Ascii.eqb c sep) eqn:Hc.
    + intros [<-|Hin]; [done|by apply IH].
    + destruct (Py.split sep r) as [|w ws] eqn:Hs.
      * intros [<-|[]]. cbn. rewrite Ascii.eqb_sym, Hc. done.
      * intros [<-|Hin]; [|apply IH; by right].
        cbn. rewrite Ascii.eqb_sym, Hc. cbn. apply IH. by left.
Qed.

Lemma lstrip_contains c s :
  Py.contains c s = false → Py.contains c (Py.lstrip s) = false.
Proof.
  induction s as [|a r IH]; [done|]. cbn.
  intros [Ha Hr]%orb_false_iff.
  destruct (Py.is_space a); [by apply IH|]. cbn. by rewrite Ha, Hr.
Qed.

Lemma rstrip_contains c s :
  Py.contains c s = false → Py.contains c (Py.rstrip s) = false.
Proof.
  induction s as [|a r IH]; [done|]. cbn.
  intros [Ha Hr]%orb_false_iff. specialize (IH Hr).
  destruct (Py.rstrip r) as [|a' r'].
  - destruct (Py.is_space a); [done|]. cbn. by rewrite Ha.
  - cbn in *. by rewrite Ha, IH.
Qed.

Lemma int_of_digits_nonneg s z : Py.int_of_digits s = Some z → 0 ≤ z.
Proof.
  unfold Py.int_of_digits. destruct (Py.ungroup s false); [|done].
  destruct (NilZero.uint_of_string _) as [d|]; [|done].
  intros [= <-]. unfold Z.of_uint. lia.
Qed.

(** A string without a minus sign never reads as a negative number. *)
Lemma int_of_str_nonneg s z :
  Py.contains "-" s = false → Py.int_of_str s = Some z → 0 ≤ z.
Proof.
  intros Hs. unfold Py.int_of_str, Py.strip.
  pose proof (rstrip_contains _ _ (lstrip_contains _ _ Hs)) as Hc.
  destruct (Py.rstrip (Py.lstrip s)) as [|c r]; [done|].
  change (Ascii.eqb "-" c || Py.contains "-" r = false) in Hc.
  apply orb_false_iff in Hc as [Hc _].
  rewrite Ascii.eqb_sym in Hc. rewrite Hc.
  destruct (Ascii.eqb c "+"); apply int_of_digits_nonneg.
Qed.

Lemma parse_range_raises h L e :
  parse_range h L = Raise e → e = ValueError ∨ e = IndexError.
Proof.
  unfold parse_range, and_then, int_value.
  repeat case_match; intros Hr; simplify_eq; auto.
Qed.

(** The start of a parsed range is never negative: the parts of the
    header are cut at the minus signs. *)
Lemma parse_range_start_nonneg h L s e :
  parse_range h L = Ret (s, e) → 0 ≤ s.
Proof.
  unfold parse_range, and_then.
  destruct (Py.split "-" (Py.remove_all "bytes=" h) !! 0%nat) as [p|] eqn:Hp;
    [|done].
  assert (Py.contains "-" p = false) as Hno.
  { apply (split_parts_no_sep _ (Py.remove_all "bytes=" h)).
    apply list_elem_of_In. by eapply list_elem_of_lookup_2. }
  assert (∀ z, int_value p = Ret z → 0 ≤ z) as Hint.
  { intros z. unfold int_value.
    destruct (Py.int_of_str p) eqn:Hi; [|done].
    intros [= <-]. by eapply int_of_str_nonneg. }
  destruct p.
  - repeat case_match; intros Hr; simplify_eq; lia.
  - destruct (int_value _) eqn:Hi; [|done].
    specialize (Hint _ eq_refl).
    repeat case_match; intros Hr; simplify_eq; lia.
Qed.

(** ** The download handler *)

Section BackupFacts.

Variable md5_hexdigest : bytes → string.
Variable zip_write : list (string * bytes) → bytes.

Local Abbreviation run_backup := (backup_database md5_hexdigest zip_write).
Local Abbreviation run_download := (download md5_hexdigest zip_write).
Local Abbreviation run_downloads := (downloads md5_hexdigest zip_write).
Local Abbreviation archive := (archive_of zip_write).
Local Abbreviation stage := (staged zip_write).
Local Abbreviation reply := (answer md5_hexdigest).

Lemma databases_exist_lookup w :
  databases_exist w →
  ∃ d1 d2, fs w !! "database/books_data.db" = Some d1 ∧
           fs w !! "database/books_static.db" = Some d2.
Proof.
  unfold databases_exist, DATABASE_PATHS. intros H.
  inversion H as [|? ? [d1 H1] H']; subst.
  inversion H' as [|? ? [d2 H2] _]; subst. eauto.
Qed.

(** When both databases are there the handler writes the archive and
    answers from the request alone. *)
Lemma backup_database_run env req w :
  databases_exist w →
  run_backup env req w = (Ret (reply env req (archive w)), stage env w).
Proof.
  intros (d1 & d2 & H1 & H2)%databases_exist_lookup.
  cbv [backup_database try_except bind first_missing DATABASE_PATHS
    path_exists gets ret read_members read_file write_file modify
    calculate_file_checksum lift raise].
  rewrite H1, H2. cbn [fs with_fs emit]. rewrite H1, H2. cbn [fs with_fs emit].
  rewrite lookup_insert_eq. cbn [fs with_fs emit]. rewrite lookup_insert_eq.
  unfold answer, resolve, staged, archive_of,
    backup_file_path, DATABASE_PATHS.
  cbn [map]. rewrite H1, H2. cbn [default from_option]. unfold id.
  destruct (range_given req) as [h|]; [|by repeat case_match].
  destruct (parse_range h _) as [[s e]|e] eqn:Hp.
  - by repeat case_match.
  - by destruct (parse_range_raises _ _ _ Hp) as [-> | ->].
Qed.

Lemma backup_file_path_not_database env p :
  p ∈ DATABASE_PATHS → backup_file_path env ≠ p.
Proof.
  unfold DATABASE_PATHS, backup_file_path.
  intros Hp. cbn. set_unfold in Hp. destruct Hp as [->|[->|[]]]; discriminate.
Qed.

Lemma staged_databases env w p :
  p ∈ DATABASE_PATHS → fs (stage env w) !! p = fs w !! p.
Proof.
  intros Hp. unfold staged. cbn [fs emit with_fs].
  apply lookup_insert_ne. by apply backup_file_path_not_database.
Qed.

Lemma archive_of_ext w w' :
  (∀ p, p ∈ DATABASE_PATHS → fs w' !! p = fs w !! p) →
  archive w' = archive w.
Proof.
  intros H. unfold archive_of. f_equal.
  apply map_ext_in. intros p Hp%list_elem_of_In. by rewrite H.
Qed.

Lemma databases_exist_ext w w' :
  (∀ p, p ∈ DATABASE_PATHS → fs w' !! p = fs w !! p) →
  databases_exist w → databases_exist w'.
Proof.
  intros H. unfold databases_exist. rewrite !Forall_forall.
  intros Hw p Hp. rewrite H by done. by apply Hw.
Qed.

(** The window that reaches the generator. *)
Lemma answer_stream env req (zipped : bytes) g code hd :
  reply env req zipped = BackupStream g code hd →
  let L := Z.of_nat (length zipped) in
  gen_backup_path g = backup_file_path env ∧
  gen_chunk_size g = get_chunk_size req ∧
  0 ≤ gen_start g < L ∧
  gen_content_length g ≤ L - gen_start g ∧
  In ("Content-Length", Py.str_of_int (gen_content_length g)) hd ∧
  ∃ e0, resolve req L = Some (gen_start g, e0) ∧
        gen_content_length g
        = (if e0 >=? L then L - 1 else e0) - gen_start g + 1.
Proof.
  intros H L. unfold answer in H. fold L in H.
  destruct (resolve req L) as [[s e0]|] eqn:Hres; [|done].
  destruct (s >=? L) eqn:Hs; [done|].
  rewrite Z.geb_leb in Hs. apply Z.leb_gt in Hs.
  assert (0 ≤ s) as Hs0.
  { unfold resolve in Hres. destruct (range_given req) as [h|].
    - destruct (parse_range h L) as [[s' e']|] eqn:Hp; [|done].
      injection Hres as -> ->. by eapply parse_range_start_nonneg.
    - injection Hres as <- _. lia. }
  injection H as <- <- <-. cbn [gen_backup_path gen_chunk_size gen_start
    gen_content_length].
  repeat split; try done.
  - destruct (e0 >=? L) eqn:He; [lia|].
    rewrite Z.geb_leb in He. apply Z.leb_gt in He. lia.
  - unfold backup_headers. destruct (range_given req); cbn; auto 10.
  - eauto.
Qed.

(** The body a download carries when both databases are there. *)
Lemma download_run env req w :
  databases_exist w →
  (run_download env req w).1.1 = Ret (reply env req (archive w)) ∧
  (run_download env req w).1.2
  = match reply env req (archive w) with
    | BackupStream g _ _ =>
        concat (stream_loop (archive w) (gen_chunk_size g)
                  (Z.to_nat (gen_start g)) (gen_content_length g)).1
    | BackupJson _ _ => []
    end ∧
  (∀ p, p ∈ DATABASE_PATHS → fs (run_download env req w).2 !! p = fs w !! p).
Proof.
  intros Hw. unfold download. rewrite backup_database_run by done.
  destruct (reply env req (archive w)) as [err code|g code hd] eqn:Ha.
  - cbn. split_and!; try done. intros p Hp. by apply staged_databases.
  - apply answer_stream in Ha as (Hpath & _ & [Hs _] & _).
    unfold generate. rewrite Hpath.
    assert (fs (stage env w) !! backup_file_path env = Some (archive w))
      as -> by apply lookup_insert_eq.
    apply Z.ltb_ge in Hs as ->.
    destruct (stream_loop _ _ _ _) as [blocks [e|]]; cbn;
      (split_and!; [done|done|intros p Hp; by apply staged_databases]).
Qed.

End BackupFacts.

Section BackupClaims.

Variable md5_hexdigest : bytes → string.
Variable zip_write : list (string * bytes) → bytes.

Local Abbreviation run_backup := (backup_database md5_hexdigest zip_write).
Local Abbreviation run_download := (download md5_hexdigest zip_write).
Local Abbreviation run_downloads := (downloads md5_hexdigest zip_write).
Local Abbreviation archive := (archive_of zip_write).
Local Abbreviation reply := (answer md5_hexdigest).

Lemma range_given_header req h :
  headers_Range req = Some h → h ≠ "" → range_given req = Some h.
Proof. unfold range_given. intros ->. by destruct h. Qed.




Lemma downloads_tiles w0 a parts rs :
  let A := archive w0 in
  databases_exist w0 → 0 ≤ a →
  tiles a rs (Z.of_nat (length A)) →
  ∀ w, (∀ p, p ∈ DATABASE_PATHS → fs w !! p = fs w0 !! p) →
  Forall2 (asks (Z.of_nat (length A))) parts rs →
  concat (run_downloads parts w).1 = drop (Z.to_nat a) A.
Proof.
  intros A Hw0 Ha Ht. revert parts Ha.
  remember (Z.of_nat (length A)) as L eqn:HL.
  induction Ht as [a|a e rs L Hae HeL Ht IH]; intros parts Ha w Hfs Hall.
  - inversion Hall; subst. cbn. by rewrite drop_ge by lia.
  - inversion Hall as [|[env req] r parts' rs' Hask Hrest]; subst.
    destruct Hask as (Hcs & h & Hh & Hne & Hp). cbn [snd] in *.
    cbn [downloads].
    assert (databases_exist w) as Hw by by eapply databases_exist_ext.
    pose proof (archive_of_ext zip_write _ _ Hfs) as HA. fold A in HA.
    destruct (download_run md5_hexdigest zip_write env req w Hw)
      as (_ & H2 & Hkeep).
    destruct (run_download env req w) as [[r body] w1]. cbn [fst snd] in *.
    specialize (IH eq_refl parts' ltac:(lia) w1).
    destruct (run_downloads parts' w1) as [bs w2] eqn:Hds.
    cbn [fst snd concat] in *.
    rewrite IH; [|intros p Hp'; rewrite Hkeep by done; by apply Hfs|done].
    rewrite H2, HA. unfold answer, resolve.
    rewrite (range_given_header _ _ Hh Hne), Hp. cbn iota beta.
    assert ((a >=? Z.of_nat (length A)) = false) as ->
      by (rewrite Z.geb_leb; apply Z.leb_gt; lia).
    assert ((e >=? Z.of_nat (length A)) = false) as ->
      by (rewrite Z.geb_leb; apply Z.leb_gt; lia).
    cbn zeta. cbn [gen_chunk_size gen_start gen_content_length].
    destruct (stream_loop_positive A _ Hcs _ (Z.to_nat a) (e - a + 1) eq_refl)
      as [_ ->].
    replace (Z.to_nat (e + 1)) with (Z.to_nat a + Z.to_nat (e - a + 1))%nat by lia.
    rewrite <- drop_drop. apply take_drop.
Qed.

(** C8. Range requests whose ranges follow one another from 0 to [L],
    served one after another with block sizes of at least one, carry
    bodies whose concatenation is the body of one full download. *)
Theorem ranges_concatenate_to_full env0 req0 parts rs w :
  databases_exist w →
  headers_Range req0 = None → 1 ≤ get_chunk_size req0 →
  Forall2 (asks (Z.of_nat (length (archive w)))) parts rs →
  tiles 0 rs (Z.of_nat (length (archive w))) →
  concat (run_downloads parts w).1 = (run_download env0 req0 w).1.2.
Proof.
  intros Hw Hno Hcs Hall Ht.
  rewrite (downloads_tiles w 0 parts rs) by done.
  destruct (download_run md5_hexdigest zip_write env0 req0 w Hw) as (_ & -> & _).
  unfold answer, resolve, range_given. rewrite Hno.
  set (L := Z.of_nat (length (archive w))).
  destruct (0 >=? L) eqn:HL.
  - apply Z.geb_le in HL.
    assert (archive w = []) as -> by (apply nil_length_inv; unfold L in HL; lia).
    done.
  - rewrite Z.geb_leb in HL. apply Z.leb_gt in HL.
    assert ((L - 1 >=? L) = false) as ->
      by (rewrite Z.geb_leb; apply Z.leb_gt; lia).
    cbn zeta. cbn [gen_chunk_size gen_start gen_content_length].
    destruct (stream_loop_positive (archive w) _ Hcs _ (Z.to_nat 0)
                (L - 1 - 0 + 1) eq_refl) as [_ ->].
    change (Z.to_nat 0) with 0%nat. rewrite drop_0.
    rewrite take_ge; [done|unfold L; lia].
Qed.

End BackupClaims.

(** *** Downloads on the small instance *)

Lemma two_databases_exist : databases_exist Toy.two_databases.
Proof. repeat constructor; vm_compute; eauto. Qed.



Example start_beyond_length_416 :
  (Toy.download Toy.env0 (mkBackupRequest None (Some "bytes=6-")) Toy.two_databases).1
  = (Ret (BackupJson RangeNotSatisfiable 416), []).
Proof. vm_compute. reflexivity. Qed.



Lemma ranges_concatenate_to_full_witness :
  let parts := [(Toy.env0, mkBackupRequest None (Some "bytes=0-1"));
                (Toy.env0, mkBackupRequest (Some "3") (Some "bytes=2-5"))] in
  let full := mkBackupRequest None None in
  databases_exist Toy.two_databases ∧
  tiles 0 [(0, 1); (2, 5)] 6 ∧
  concat (Toy.downloads parts Toy.two_databases).1
  = (Toy.download Toy.env0 full Toy.two_databases).1.2.
Proof.
  intros parts full. split; [apply two_databases_exist|].
  assert (tiles 0 [(0, 1); (2, 5)] 6) as Ht.
  { apply tiles_next; [lia|lia|]. apply (tiles_next 2 5 [] 6); [lia|lia|].
    apply tiles_done. }
  split; [exact Ht|].
  apply (ranges_concatenate_to_full Toy.md5_hexdigest Toy.zip_write Toy.env0
           full parts [(0, 1); (2, 5)] Toy.two_databases two_databases_exist).
  - reflexivity.
  - vm_compute. discriminate.
  - repeat constructor; try (vm_compute; discriminate);
      eexists; (split; [reflexivity|]); (split; [discriminate|]);
      vm_compute; reflexivity.
  - exact Ht.
Defined.

(** C8 as stated fails for a block size of -1: each range request then
    streams from its start to the end of the archive, so the two parts
    that cover the six bytes carry ten, and their concatenation is not the
    full download. *)
Lemma negative_chunk_size_ranges_overrun :
  let parts := [(Toy.env0, mkBackupRequest (Some "-1") (Some "bytes=0-1"));
                (Toy.env0, mkBackupRequest (Some "-1") (Some "bytes=2-5"))] in
  let full := mkBackupRequest (Some "-1") None in
  tiles 0 [(0, 1); (2, 5)] 6 ∧
  parse_range "bytes=0-1" 6 = Ret (0, 1) ∧
  parse_range "bytes=2-5" 6 = Ret (2, 5) ∧
  (Toy.download Toy.env0 full Toy.two_databases).1.2
  = [Byte.x03; Byte.x0a; Byte.x0b; Byte.x0c; Byte.x0d; Byte.x0e] ∧
  concat (Toy.downloads parts Toy.two_databases).1
  = [Byte.x03; Byte.x0a; Byte.x0b; Byte.x0c; Byte.x0d; Byte.x0e;
     Byte.x0b; Byte.x0c; Byte.x0d; Byte.x0e] ∧
  concat (Toy.downloads parts Toy.two_databases).1
  ≠ (Toy.download Toy.env0 full Toy.two_databases).1.2.
Proof.
  intros parts full. split.
  { apply tiles_next; [lia..|]. apply tiles_next; [lia..|]. apply tiles_done. }
  split_and!; try (vm_compute; reflexivity).
  vm_compute. discriminate.
Qed.

(** ** Footprints *)

Section Footprints.

Context {A B : Type}.
Variables (W K : string → Prop) (E : Event → Prop).

Lemma touches_pure (a : outcome A) : touches (lift a) W K E.
Proof. intros w. cbn. split_and!; try done. exists []. by rewrite app_nil_r. Qed.

Lemma touches_ret (a : A) : touches (ret a) W K E.
Proof. apply (touches_pure (Ret a)). Qed.

Lemma touches_raise e : touches (raise e : M A) W K E.
Proof. apply (touches_pure (Raise e)). Qed.

Lemma touches_gets (f : World → A) : touches (gets f) W K E.
Proof. intros w. cbn. split_and!; try done. exists []. by rewrite app_nil_r. Qed.

Lemma touches_bind (m : M A) (k : A → M B) :
  touches m W K E → (∀ a, touches (k a) W K E) → touches (bind m k) W K E.
Proof.
  intros Hm Hk w. unfold bind. specialize (Hm w).
  destruct (m w) as [[a|e] w1]; cbn [snd] in *; [|done].
  specialize (Hk a w1).
  destruct Hm as (F1 & O1 & S1 & tr1 & T1 & E1).
  destruct Hk as (F2 & O2 & S2 & tr2 & T2 & E2).
  split_and!.
  - intros p Hp. by rewrite F2, F1.
  - intros k' Hk'. by rewrite O2, O1.
  - intros k' Hk'. by apply S2, S1.
  - exists (tr1 ++ tr2). rewrite T2, T1, app_assoc. split; [done|].
    by apply Forall_app.
Qed.

Lemma touches_try (m : M A) (h : exn → M A) :
  touches m W K E → (∀ e, touches (h e) W K E) → touches (try_except m h) W K E.
Proof.
  intros Hm Hh w. unfold try_except. specialize (Hm w).
  destruct (m w) as [[a|e] w1]; cbn [snd] in *; [done|].
  specialize (Hh e w1).
  destruct Hm as (F1 & O1 & S1 & tr1 & T1 & E1).
  destruct Hh as (F2 & O2 & S2 & tr2 & T2 & E2).
  split_and!.
  - intros p Hp. by rewrite F2, F1.
  - intros k' Hk'. by rewrite O2, O1.
  - intros k' Hk'. by apply S2, S1.
  - exists (tr1 ++ tr2). rewrite T2, T1, app_assoc. split; [done|].
    by apply Forall_app.
Qed.

End Footprints.

Section FootprintsOfSteps.

Variables (W K : string → Prop) (E : Event → Prop).

Lemma touches_for_each {A} (l : list A) (body : A → M unit) :
  (∀ x, x ∈ l → touches (body x) W K E) → touches (for_each l body) W K E.
Proof.
  induction l as [|x l IH]; intros H; cbn.
  - apply touches_ret.
  - apply touches_bind; [apply H; by left|].
    intros _. apply IH. intros y Hy. apply H. by right.
Qed.

Lemma touches_read_file p : touches (read_file p) W K E.
Proof.
  intros w. unfold read_file. destruct (fs w !! p); cbn;
    (split_and!; try done; exists []; by rewrite app_nil_r).
Qed.

Lemma touches_get_op k : touches (get_op k) W K E.
Proof.
  intros w. unfold get_op. destruct (OPERATIONS w !! k); cbn;
    (split_and!; try done; exists []; by rewrite app_nil_r).
Qed.

Lemma touches_emit e : E e → touches (modify (emit e)) W K E.
Proof.
  intros He w. cbn. split_and!; try done. exists [e]. split; [done|].
  by constructor.
Qed.

Lemma touches_write_file p d :
  W p → E (EvWrite p) → touches (write_file p d) W K E.
Proof.
  intros Hp He w. cbn. split_and!; try done.
  - intros q Hq. apply lookup_insert_ne. by intros ->.
  - exists [EvWrite p]. split; [done|]. by constructor.
Qed.

Lemma touches_append_file p d : W p → touches (append_file p d) W K E.
Proof.
  intros Hp w. cbn. split_and!; try done.
  - intros q Hq. apply lookup_insert_ne. by intros ->.
  - exists []. by rewrite app_nil_r.
Qed.

Lemma touches_copy2 src dst :
  W dst → E (EvCopy src dst) → touches (copy2 src dst) W K E.
Proof.
  intros Hp He. apply touches_bind; [apply touches_read_file|].
  intros d w. cbn. split_and!; try done.
  - intros q Hq. apply lookup_insert_ne. by intros ->.
  - exists [EvCopy src dst]. split; [done|]. by constructor.
Qed.

Lemma touches_put_op k o : K k → touches (modify (with_ops <[k := o]>)) W K E.
Proof.
  intros Hk w. cbn. split_and!; try done.
  - intros k' Hk'. apply lookup_insert_ne. by intros ->.
  - intros k' Hs. destruct (decide (k = k')) as [->|].
    + rewrite lookup_insert_eq. eauto.
    + by rewrite lookup_insert_ne.
  - exists []. by rewrite app_nil_r.
Qed.

Lemma touches_update_op k f : K k → touches (update_op k f) W K E.
Proof.
  intros Hk. apply touches_bind; [apply touches_get_op|].
  intros o. by apply touches_put_op.
Qed.

End FootprintsOfSteps.

(** A footprint can always be widened. *)
Lemma touches_weaken {A} (m : M A) (W W' K K' : string → Prop)
    (E E' : Event → Prop) :
  touches m W K E →
  (∀ p, W p → W' p) → (∀ k, K k → K' k) → (∀ e, E e → E' e) →
  touches m W' K' E'.
Proof.
  intros Hm HW HK HE w. destruct (Hm w) as (F & O & S & tr & T & Et).
  split_and!; [naive_solver..|].
  exists tr. split; [done|]. eapply Forall_impl; eauto.
Qed.

(** ** The restore engine *)

Ltac touch_step :=
  first
    [ apply touches_ret | apply touches_raise | apply touches_pure
    | apply touches_gets | apply touches_read_file | apply touches_get_op
    | apply touches_update_op | apply touches_put_op
    | apply touches_write_file | apply touches_append_file
    | apply touches_copy2 | apply touches_emit
    | apply touches_for_each; intros ? ?
    | apply touches_bind; [|intros ?]
    | apply touches_try; [|intros ?]
    | match goal with
      | |- touches (if ?b then _ else _) _ _ _ => destruct b
      | |- touches (match ?x with _ => _ end) _ _ _ => destruct x
      end ].

Ltac touch := repeat touch_step.

Lemma bak_path_not_database ts q p :
  q ∈ DATABASE_PATHS → p ∈ DATABASE_PATHS → bak_path q ts ≠ p.
Proof.
  unfold DATABASE_PATHS, bak_path. intros Hq Hp. set_unfold in Hq. set_unfold in Hp.
  destruct Hq as [->|[->|[]]]; destruct Hp as [->|[->|[]]]; cbn; discriminate.
Qed.

Lemma bak_path_inj ts q q' :
  q ∈ DATABASE_PATHS → q' ∈ DATABASE_PATHS →
  bak_path q ts = bak_path q' ts → q = q'.
Proof.
  unfold DATABASE_PATHS, bak_path. intros Hq Hq'.
  set_unfold in Hq. set_unfold in Hq'.
  destruct Hq as [->|[->|[]]]; destruct Hq' as [->|[->|[]]]; cbn;
    first [done | discriminate].
Qed.

Section RestoreEngine.

Variable is_zip_bytes : bytes → bool.
Variable zip_read : bytes → option (list (string * ZipEntry)).

Local Abbreviation run_restore := (perform_restore is_zip_bytes zip_read).
Local Abbreviation finish := (extract_and_finish zip_read).

(** The snapshot: it always returns, copies every database that is
    there, and writes nothing but the [.bak] names. *)
Lemma backup_current_databases_run env w :
  ∃ w', backup_current_databases env w = (Ret true, w') ∧
    OPERATIONS w' = OPERATIONS w ∧
    trace w' = trace w ++ snapshot_events env w ∧
    (∀ q d, q ∈ DATABASE_PATHS → fs w !! q = Some d →
            fs w' !! bak_path q (timestamp env) = Some d) ∧
    (∀ p, ¬ snapshot_name env p → fs w' !! p = fs w !! p).
Proof.
  set (ts := timestamp env).
  assert (N12 : bak_path "database/books_data.db" ts ≠ "database/books_static.db")
    by (apply bak_path_not_database; repeat constructor).
  assert (B12 : bak_path "database/books_data.db" ts
                ≠ bak_path "database/books_static.db" ts)
    by (intros H%bak_path_inj; [done|repeat constructor..]).
  assert (S1 : snapshot_name env (bak_path "database/books_data.db" ts))
    by (eexists; split; [|done]; repeat constructor).
  assert (S2 : snapshot_name env (bak_path "database/books_static.db" ts))
    by (eexists; split; [|done]; repeat constructor).
  unfold backup_current_databases, snapshot_events, DATABASE_PATHS.
  fold ts. cbn [for_each flat_map].
  cbv [bind path_exists gets ret copy2 read_file modify].
  destruct (fs w !! "database/books_data.db") as [d1|] eqn:H1;
    cbn [fs with_fs emit]; rewrite ?H1; cbn [fs with_fs emit];
    rewrite ?lookup_insert_ne by done;
    destruct (fs w !! "database/books_static.db") as [d2|] eqn:H2;
    cbn [fs with_fs emit]; rewrite ?lookup_insert_ne by done; rewrite ?H2;
    cbn [fs with_fs emit].
  all: eexists; split; [reflexivity|];
    cbn [fs OPERATIONS trace emit with_fs app].
  all: split; [done|]; split; [by rewrite <- ?app_assoc, ?app_nil_r|].
  all: split;
    [ intros q d Hq Hd; set_unfold in Hq;
      destruct Hq as [->|[->|[]]]; simplify_eq;
      rewrite ?lookup_insert_eq, ?lookup_insert_ne by done;
      rewrite ?lookup_insert_eq; done
    | intros p Hp;
      rewrite ?lookup_insert_ne by (intros <-; done); done ].
Qed.

Lemma extract_member_touches entries base_name db_path W K E :
  W db_path → E (EvWrite db_path) →
  touches (extract_member entries base_name db_path) W K E.
Proof. intros. unfold extract_member. touch; done. Qed.

Lemma extract_wanted_touches entries paths restored K :
  touches (extract_wanted entries paths restored) (.∈ paths) K
    (λ e, ∃ p, e = EvWrite p ∧ p ∈ paths).
Proof.
  revert restored. induction paths as [|p paths IH]; intros restored; cbn.
  - apply touches_ret.
  - assert (∀ r, touches (extract_wanted entries paths r) (.∈ p :: paths) K
              (λ e, ∃ p0, e = EvWrite p0 ∧ p0 ∈ p :: paths)) as IH'.
    { intros r. eapply touches_weaken; [apply IH|..]; try done.
      - intros q Hq. by right.
      - intros e (q & -> & Hq). exists q. split; [done|by right]. }
    case_bool_decide; [|apply IH'].
    apply touches_bind; [|intros _; apply IH'].
    apply extract_member_touches; [by left|]. eexists. split; [done|by left].
Qed.

(** After the snapshot, the engine writes database files and nothing
    else. *)
Lemma extract_and_finish_touches env zip_path operation_id :
  touches (finish env zip_path operation_id)
    (.∈ DATABASE_PATHS) (.= operation_id)
    (λ e, ∀ src dst, e ≠ EvCopy src dst).
Proof.
  unfold extract_and_finish, ZipFile_open.
  apply touches_bind; [touch|intros entries].
  apply touches_bind.
  { eapply touches_weaken; [apply extract_wanted_touches|..]; try done.
    by intros e (p & -> & _). }
  intros restored. destruct restored; touch; done.
Qed.

Lemma restore_failed_touches operation_id e W E :
  touches (restore_failed operation_id e) W (.= operation_id) E.
Proof. unfold restore_failed. touch; done. Qed.





Lemma database_not_snapshot_name env p :
  p ∈ DATABASE_PATHS → ¬ snapshot_name env p.
Proof.
  intros Hp (q & Hq & ->). exact (bak_path_not_database _ q _ Hq Hp eq_refl).
Qed.

Lemma extract_wanted_none entries paths restored w :
  (∀ p, p ∈ paths → Py.basename p ∉ map fst entries) →
  extract_wanted entries paths restored w = (Ret restored, w).
Proof.
  induction paths as [|p paths IH]; intros H; [done|]. cbn.
  rewrite bool_decide_eq_false_2 by (apply H; by left).
  apply IH. intros q Hq. apply H. by right.
Qed.

(** C5. A restore from a structurally valid archive none of whose
    members bears the base name of a database: the answer is the
    nothing-to-restore error (400), the operation is marked failed, and
    each database holds the bytes it held before. *)
Theorem nothing_to_restore env zip_path operation_id w op d entries :
  OPERATIONS w !! operation_id = Some op →
  fs w !! zip_path = Some d →
  is_zip_bytes d = true →
  zip_read d = Some entries →
  (∀ p, p ∈ DATABASE_PATHS → Py.basename p ∉ map fst entries) →
  ¬ snapshot_name env zip_path →
  (run_restore env zip_path operation_id w).1
  = Ret (NoValidDatabaseFiles operation_id, 400) ∧
  OPERATIONS (run_restore env zip_path operation_id w).2 !! operation_id
  = Some (set_status failed op) ∧
  (∀ p, p ∈ DATABASE_PATHS →
        fs (run_restore env zip_path operation_id w).2 !! p = fs w !! p).
Proof.
  intros Hop Hzip Hvalid Hread Hnone Hname.
  cbv [perform_restore bind try_except modify update_op get_op gets
       is_zipfile ret].
  cbn [fs OPERATIONS trace emit with_fs with_ops]. rewrite Hop.
  cbn [fs OPERATIONS trace emit with_fs with_ops]. rewrite Hzip, Hvalid.
  cbn [negb]. set (w1 := with_ops _ (emit _ w)).
  assert (Hfs1 : fs w1 = fs w) by done.
  assert (Hop1 : OPERATIONS w1 !! operation_id = Some (set_status restoring op))
    by apply lookup_insert_eq.
  destruct (backup_current_databases_run env w1)
    as (w2 & -> & Hops & _ & _ & Hkeep).
  cbv [extract_and_finish ZipFile_open bind read_file].
  rewrite Hkeep, Hfs1, Hzip, Hread by done.
  cbv [ret]. rewrite extract_wanted_none by done.
  cbv [bind update_op get_op modify ret]. rewrite Hops, Hop1.
  cbn [fst snd fs OPERATIONS with_ops].
  split_and!; [done|by rewrite lookup_insert_eq|].
  intros p Hp. rewrite Hkeep, Hfs1; [done|by apply database_not_snapshot_name].
Qed.

End RestoreEngine.

(** ** Decimal strings and staging paths *)

Lemma string_of_uint_digits d :
  forallb Py.is_digit (list_ascii_of_string (NilEmpty.string_of_uint d)) = true.
Proof. induction d; cbn; try done; by rewrite IHd. Qed.

Lemma string_of_uint_nonempty d :
  d ≠ Nil → NilEmpty.string_of_uint d ≠ "".
Proof. by destruct d. Qed.

Lemma to_uint_not_nil p : Pos.to_uint p ≠ Nil.
Proof.
  intros H. pose proof (DecimalPos.Unsigned.of_to p) as Hp.
  rewrite H in Hp. discriminate.
Qed.

Lemma digit_not_space c : Py.is_digit c = true → Py.is_space c = false.
Proof.
  unfold Py.is_digit, Py.is_space. cbn zeta.
  intros [H1 H2]%andb_prop.
  apply Nat.leb_le in H1. apply Nat.leb_le in H2.
  destruct (nat_of_ascii c <=? 13)%nat eqn:Ha; [apply Nat.leb_le in Ha; lia|].
  destruct (nat_of_ascii c =? 32)%nat eqn:Hb; [apply Nat.eqb_eq in Hb; lia|].
  destruct (nat_of_ascii c <=? 31)%nat eqn:Hc; [apply Nat.leb_le in Hc; lia|].
  by rewrite !andb_false_r.
Qed.

Lemma digits_no_space s :
  forallb Py.is_digit (list_ascii_of_string s) = true →
  forallb (λ c, negb (Py.is_space c)) (list_ascii_of_string s) = true.
Proof.
  induction s as [|c r IH]; [done|]. cbn. intros [Hc Hr]%andb_prop.
  by rewrite (digit_not_space c Hc), IH.
Qed.

Lemma lstrip_no_space s :
  forallb (λ c, negb (Py.is_space c)) (list_ascii_of_string s) = true →
  Py.lstrip s = s.
Proof.
  destruct s as [|c r]; [done|]. cbn. intros [Hc _]%andb_prop.
  by destruct (Py.is_space c).
Qed.

Lemma rstrip_no_space s :
  forallb (λ c, negb (Py.is_space c)) (list_ascii_of_string s) = true →
  Py.rstrip s = s.
Proof.
  induction s as [|c r IH]; [done|]. cbn. intros [Hc Hr]%andb_prop.
  rewrite (IH Hr). destruct r; [|done]. by destruct (Py.is_space c).
Qed.

Lemma ungroup_digits s :
  forallb Py.is_digit (list_ascii_of_string s) = true →
  Py.ungroup s true = Some s.
Proof.
  induction s as [|c r IH]; [done|]. cbn. intros [Hc Hr]%andb_prop.
  rewrite (IH Hr). destruct (Ascii.eqb_spec c "_") as [->|]; done.
Qed.

Lemma ungroup_number s :
  s ≠ "" → forallb Py.is_digit (list_ascii_of_string s) = true →
  Py.ungroup s false = Some s.
Proof.
  destruct s as [|c r]; [done|]. cbn. intros _ [Hc Hr]%andb_prop.
  rewrite (ungroup_digits r Hr). destruct (Ascii.eqb_spec c "_") as [->|]; done.
Qed.

Lemma int_of_digits_uint d :
  d ≠ Nil →
  Py.int_of_digits (NilEmpty.string_of_uint d) = Some (Z.of_uint d).
Proof.
  intros Hd. unfold Py.int_of_digits.
  rewrite ungroup_number
    by auto using string_of_uint_nonempty, string_of_uint_digits.
  pose proof (NilZero.usu d Hd) as Hu.
  assert (NilZero.string_of_uint d = NilEmpty.string_of_uint d) as E
    by by destruct d.
  rewrite E in Hu. by rewrite Hu.
Qed.

Lemma to_int_cases z :
  (∃ d, Z.to_int z = Pos d ∧ d ≠ Nil ∧ z = Z.of_uint d) ∨
  (∃ d, Z.to_int z = Neg d ∧ d ≠ Nil ∧ z = - Z.of_uint d).
Proof.
  pose proof (DecimalZ.of_to z) as Hz.
  destruct z as [|p|p]; cbn in *.
  - left. by eexists.
  - left. eexists. split; [done|]. split; [apply to_uint_not_nil|done].
  - right. eexists. split; [done|]. split; [apply to_uint_not_nil|done].
Qed.

(** [str(n)] written out for the two signs. *)
Lemma str_of_int_cases z :
  (∃ d, Py.str_of_int z = NilEmpty.string_of_uint d ∧ d ≠ Nil ∧
        z = Z.of_uint d) ∨
  (∃ d, Py.str_of_int z = String "-" (NilEmpty.string_of_uint d) ∧ d ≠ Nil ∧
        z = - Z.of_uint d).
Proof.
  unfold Py.str_of_int.
  destruct (to_int_cases z) as [(d & -> & Hd & Hz)|(d & -> & Hd & Hz)];
    [left|right]; exists d; (split; [by destruct d|done]).
Qed.

Lemma digit_head s c r :
  forallb Py.is_digit (list_ascii_of_string s) = true → s = String c r →
  Ascii.eqb c "-" = false ∧ Ascii.eqb c "+" = false.
Proof.
  intros H ->. cbn in H. apply andb_prop in H as [Hc _].
  split; [destruct (Ascii.eqb_spec c "-") as [->|]
         |destruct (Ascii.eqb_spec c "+") as [->|]]; done.
Qed.

(** Reading back what [str] printed. *)
Lemma int_of_str_of_int z : Py.int_of_str (Py.str_of_int z) = Some z.
Proof.
  unfold Py.int_of_str, Py.strip.
  destruct (str_of_int_cases z) as [(d & -> & Hd & ->)|(d & -> & Hd & ->)].
  - pose proof (string_of_uint_digits d) as Hdig.
    rewrite lstrip_no_space, rstrip_no_space by by apply digits_no_space.
    destruct (NilEmpty.string_of_uint d) as [|c r] eqn:Hs;
      [by apply string_of_uint_nonempty in Hs|].
    destruct (digit_head _ c r Hdig eq_refl) as [-> ->].
    rewrite <- Hs. by apply int_of_digits_uint.
  - pose proof (digits_no_space _ (string_of_uint_digits d)) as Hns.
    rewrite lstrip_no_space, rstrip_no_space by (cbn; by rewrite Hns).
    cbv beta iota. rewrite Ascii.eqb_refl.
    by rewrite int_of_digits_uint.
Qed.


(** *** Last characters *)

Lemma last_char_none s : Py.last_char s = None → s = "".
Proof. destruct s as [|c r]; [done|]. cbn. by destruct (Py.last_char r). Qed.

Lemma last_char_app a b :
  b ≠ "" → Py.last_char (a +:+ b) = Py.last_char b.
Proof.
  intros Hb. induction a as [|c a IH]; [done|].
  change (Py.last_char (String c a +:+ b))
    with (match Py.last_char (a +:+ b) with
          | Some x => Some x
          | None => Some c
          end).
  rewrite IH.
  destruct (Py.last_char b) eqn:E; [done|]. by apply last_char_none in E.
Qed.

Lemma last_char_path_join a b :
  b ≠ "" → Py.last_char (Py.path_join a b) = Py.last_char b.
Proof.
  intros Hb. unfold Py.path_join.
  destruct (Py.startswith "/" b); [done|].
  destruct (_ || _).
  - by apply last_char_app.
  - rewrite last_char_app; [by apply (last_char_app "/")|].
    by destruct b.
Qed.



Lemma last_char_bak_path q ts : Py.last_char (bak_path q ts) = Some "k"%char.
Proof.
  unfold bak_path.
  rewrite (last_char_app q) by done.
  rewrite (last_char_app ".") by by destruct ts.
  by rewrite (last_char_app ts).
Qed.

Lemma last_char_database p :
  p ∈ DATABASE_PATHS → Py.last_char p = Some "b"%char.
Proof.
  unfold DATABASE_PATHS. intros Hp. set_unfold in Hp.
  by destruct Hp as [->|[->|[]]].
Qed.

(** A name inside a staging directory is neither a database nor one of
    its [.bak] copies when its last character tells it apart. *)
Lemma staged_name_apart env dir name c p :
  name ≠ "" → Py.last_char name = Some c →
(c ≠ "b"%char) → (c ≠ "k"%char) →
  p = Py.path_join dir name →
  (p ∉ DATABASE_PATHS) ∧ ¬ snapshot_name env p.
Proof.
  intros Hn Hc Hb Hk ->. split.
  - intros Hin%last_char_database.
    rewrite last_char_path_join, Hc in Hin by done. congruence.
  - intros (q & _ & Hq). apply (f_equal Py.last_char) in Hq.
    rewrite last_char_path_join, Hc, last_char_bak_path in Hq by done.
    congruence.
Qed.







Lemma single_apart env dir :
  (Py.path_join dir "backup.zip" ∉ DATABASE_PATHS) ∧
  ¬ snapshot_name env (Py.path_join dir "backup.zip").
Proof. by apply (staged_name_apart env dir "backup.zip" "p"%char). Qed.

(** ** The delayed removal of an upload *)

(** The cleanup never raises. It does nothing for an id that is not in
    the table; otherwise it removes what the removal removes and then,
    unless the removal raised, the record. *)
Lemma cleanup_operation_later_run r id w :
  cleanup_operation_later r id w
  = (Ret (),
     match OPERATIONS w !! id with
     | None => w
     | Some op =>
         if String.eqb (temp_dir op) "" then with_ops (delete id) w
         else
           let w1 := with_fs (filter (λ kv, removed r (temp_dir op) kv.1 = false))
                       w in
           match removal_error r (temp_dir op) with
           | Some _ => w1
           | None => with_ops (delete id) w1
           end
     end).
Proof.
  cbv [cleanup_operation_later try_except bind op_in gets get_op rmtree
       modify raise ret].
  destruct (OPERATIONS w !! id) as [op|] eqn:Hop; [|done].
  cbn [OPERATIONS]. rewrite Hop.
  destruct (String.eqb (temp_dir op) ""); cbn [negb]; [done|].
  by destruct (removal_error r (temp_dir op)).
Qed.

(** ** The upload handler *)

Section Upload.

Variable md5_hexdigest : bytes → string.
Variable zip_write : list (string * bytes) → bytes.
Variable is_zip_bytes : bytes → bool.
Variable zip_read : bytes → option (list (string * ZipEntry)).

Local Abbreviation run_restore := (perform_restore is_zip_bytes zip_read).
Local Abbreviation gate :=
  (verify_and_restore md5_hexdigest is_zip_bytes zip_read).
Local Abbreviation take_chunk :=
  (receive_chunk md5_hexdigest is_zip_bytes zip_read).
Local Abbreviation take_single :=
  (receive_single md5_hexdigest is_zip_bytes zip_read).
Local Abbreviation handle :=
  (restore_database md5_hexdigest is_zip_bytes zip_read).
Local Abbreviation handle_all :=
  (restore_all md5_hexdigest is_zip_bytes zip_read).

(** *** Footprints of the handler's parts *)

Lemma backup_current_databases_touches env K :
  touches (backup_current_databases env) (snapshot_name env) K
    (λ e, ∀ zp id, e ≠ EvPerformRestore zp id).
Proof.
  unfold backup_current_databases.
  apply touches_bind; [|intros; apply touches_ret].
  apply touches_for_each. intros q Hq. unfold path_exists. touch; try done.
  by exists q.
Qed.

Lemma perform_restore_touches env zip_path operation_id :
  touches (run_restore env zip_path operation_id)
    (λ p, p ∈ DATABASE_PATHS ∨ snapshot_name env p) (.= operation_id)
    (λ _, True).
Proof.
  unfold perform_restore, is_zipfile.
  apply touches_bind; [by apply touches_emit|intros _].
  apply touches_try;
    [|intros e; eapply touches_weaken;
      [apply (restore_failed_touches operation_id e (λ _, False) (λ _, True))
      |done..]].
  apply touches_bind; [by apply touches_update_op|intros _].
  apply touches_bind; [apply touches_gets|intros ok].
  destruct (negb ok); [touch; done|].
  apply touches_bind.
  - eapply touches_weaken; [apply backup_current_databases_touches|..];
      [by right|done|done].
  - intros _. eapply touches_weaken; [apply extract_and_finish_touches|..];
      [by left|done|done].
Qed.

Lemma gate_touches env req upload_id file_path :
  touches (gate env req upload_id file_path)
    (λ p, p ∈ DATABASE_PATHS ∨ snapshot_name env p) (.= upload_id)
    (λ _, True).
Proof.
  unfold verify_and_restore, calculate_file_checksum.
  destruct (form_checksum req) as [c|]; [|apply perform_restore_touches].
  destruct (negb _); [|apply perform_restore_touches].
  apply touches_bind; [touch|intros calculated].
  destruct (negb _); [touch; done|apply perform_restore_touches].
Qed.

Lemma restore_error_touches upload_id e W E :
  touches (restore_error upload_id e) W (.= upload_id) E.
Proof. unfold restore_error. destruct e; touch; done. Qed.

Lemma combine_chunks_touches upload_id K :
  touches (combine_chunks upload_id) (λ _, True) K
    (λ e, ∀ zp id, e ≠ EvPerformRestore zp id).
Proof. unfold combine_chunks. touch; done. Qed.

(** A request reads and writes the record under its own upload id and no
    other, and never takes a record out of the table. *)
Lemma restore_database_touches env req :
  touches (handle env req) (λ _, True) (.= upload_id_of env req) (λ _, True).
Proof.
  unfold restore_database.
  apply touches_bind.
  { unfold open_session, int, op_in, makedirs. touch; done. }
  intros known. destruct (negb known); [apply touches_ret|].
  apply touches_try; [|intros e; apply restore_error_touches].
  destruct (files_backup_file req) as [[filename content]|]; [|apply touches_ret].
  destruct (String.eqb filename ""); [apply touches_ret|].
  destruct (is_chunk req).
  - unfold receive_chunk, int.
    apply touches_bind; [touch|intros n].
    apply touches_bind; [touch|intros op].
    apply touches_bind; [by apply touches_write_file|intros _].
    apply touches_bind; [by apply touches_update_op|intros _].
    apply touches_bind; [touch|intros op'].
    destruct (_ >=? _); [|apply touches_ret].
    apply touches_bind.
    + eapply touches_weaken; [apply combine_chunks_touches|done..].
    + intros path. eapply touches_weaken; [apply gate_touches|done..].
  - unfold receive_single.
    apply touches_bind; [touch|intros op].
    apply touches_bind; [by apply touches_write_file|intros _].
    eapply touches_weaken; [apply gate_touches|done..].
Qed.

Lemma backup_database_touches env req :
  touches (backup_database md5_hexdigest zip_write env req)
    (λ _, True) (λ _, False) (λ _, True).
Proof.
  unfold backup_database, calculate_file_checksum.
  apply touches_try; [|intros e; apply touches_ret].
  apply touches_bind.
  { generalize DATABASE_PATHS. intros l.
    induction l; cbn; unfold path_exists; touch; done. }
  intros [p|]; [apply touches_ret|].
  apply touches_bind.
  { generalize DATABASE_PATHS. intros l. induction l; cbn; touch; done. }
  intros members. touch; done.
Qed.

(** C3, as the code has it. A [/restore] request leaves every record
    filed under another upload id as it was, and no request handler takes
    a record out of the table: a download, with its body streamed, and
    the status query leave the whole table as it was. The cleanup that runs after the
    delay never raises; it takes the record out of the table, whole, and
    touches no other record; but when the removal of the staging
    directory raises, the record stays and the table is as it was. *)
Theorem records_of_other_uploads_kept env req w id :
  (id ≠ upload_id_of env req →
   OPERATIONS (handle env req w).2 !! id = OPERATIONS w !! id) ∧
  (is_Some (OPERATIONS w !! id) →
   is_Some (OPERATIONS (handle env req w).2 !! id)) ∧
  (∀ env' req',
     OPERATIONS (backup_database md5_hexdigest zip_write env' req' w).2
     = OPERATIONS w ∧
     OPERATIONS (download md5_hexdigest zip_write env' req' w).2
     = OPERATIONS w) ∧
  (operation_status id w).2 = w ∧
  (∀ r : Removal,
     let raised := match OPERATIONS w !! id with
                   | Some op =>
                       if String.eqb (temp_dir op) "" then None
                       else removal_error r (temp_dir op)
                   | None => None
                   end in
     (cleanup_operation_later r id w).1 = Ret () ∧
     OPERATIONS (cleanup_operation_later r id w).2
     = match raised with
       | None => delete id (OPERATIONS w)
       | Some _ => OPERATIONS w
       end).
Proof.
  destruct (restore_database_touches env req w) as (_ & O & S & _).
  split_and!.
  - intros Hid. by apply O.
  - apply S.
  - intros env' req'.
    assert (OPERATIONS (backup_database md5_hexdigest zip_write env' req' w).2
            = OPERATIONS w) as Hb.
    { apply map_eq. intros k.
      destruct (backup_database_touches env' req' w) as (_ & O' & _).
      apply O'. by intros []. }
    split; [done|]. unfold download.
    destruct (backup_database md5_hexdigest zip_write env' req' w)
      as [[[err code|g code hd]|e] w1]; cbn [snd] in *; [done| |done].
    rewrite <- Hb. unfold generate.
    destruct (fs w1 !! gen_backup_path g); [|done].
    destruct (gen_start g <? 0); [done|].
    by destruct (stream_loop _ _ _ _).2.
  - done.
  - intros r raised. subst raised. rewrite cleanup_operation_later_run.
    cbn [fst snd]. split; [done|].
    destruct (OPERATIONS w !! id) as [op|] eqn:Hop; [|by rewrite delete_id].
    destruct (String.eqb (temp_dir op) ""); [done|].
    by destruct (removal_error r (temp_dir op)).
Qed.

End Upload.

(** ** Assembly and the checksum gate *)







Section Gate.

Variable md5_hexdigest : bytes → string.
Variable is_zip_bytes : bytes → bool.
Variable zip_read : bytes → option (list (string * ZipEntry)).

Local Abbreviation run_restore := (perform_restore is_zip_bytes zip_read).
Local Abbreviation gate :=
  (verify_and_restore md5_hexdigest is_zip_bytes zip_read).
Local Abbreviation handle :=
  (restore_database md5_hexdigest is_zip_bytes zip_read).










End Gate.

(** ** Chunked uploads *)

Section Chunks.

Variable md5_hexdigest : bytes → string.
Variable is_zip_bytes : bytes → bool.
Variable zip_read : bytes → option (list (string * ZipEntry)).

Local Abbreviation gate :=
  (verify_and_restore md5_hexdigest is_zip_bytes zip_read).
Local Abbreviation handle :=
  (restore_database md5_hexdigest is_zip_bytes zip_read).
Local Abbreviation handle_all :=
  (restore_all md5_hexdigest is_zip_bytes zip_read).



Lemma after_assembly_touches env req uid :
  touches (try_except (bind (combine_chunks uid) (gate env req uid))
             (restore_error uid))
    (λ _, True) (.= uid) (λ _, True).
Proof.
  apply touches_try; [|intros e; apply restore_error_touches].
  apply touches_bind.
  - eapply touches_weaken; [apply combine_chunks_touches|done..].
  - intros p. eapply touches_weaken; [apply gate_touches|done..].
Qed.














End Chunks.

(** ** Uploads and restores on the small instance *)

Example restore_trace :
  (Toy.restore_database Toy.env0 (Toy.single_upload None [Byte.x01; Byte.x07])
     Toy.two_databases).1
  = Ret (RestoreCompleted ["database/books_data.db"] "u1", 200) ∧
  trace (Toy.restore_database Toy.env0 (Toy.single_upload None [Byte.x01; Byte.x07])
           Toy.two_databases).2
  = [ EvWrite "temp_uploads/u1/backup.zip";
      EvPerformRestore "temp_uploads/u1/backup.zip" "u1";
      EvCopy "database/books_data.db"
        "database/books_data.db.20240101_120000.bak";
      EvCopy "database/books_static.db"
        "database/books_static.db.20240101_120000.bak";
      EvWrite "database/books_data.db";
      EvCleanupOperationLater "u1" 3600 ].
Proof. split; vm_compute; reflexivity. Qed.

Lemma nothing_to_restore_witness :
  let w := (Toy.restore_database Toy.env0
              (Toy.single_upload (Some "zz") [Byte.x02; Byte.x07])
              Toy.two_databases).2 in
  let zip_path := "temp_uploads/u1/backup.zip" in
  fs w !! zip_path = Some [Byte.x02; Byte.x07] ∧
  (Toy.perform_restore Toy.env0 zip_path "u1" w).1
  = Ret (NoValidDatabaseFiles "u1", 400) ∧
  status <$> OPERATIONS (Toy.perform_restore Toy.env0 zip_path "u1" w).2 !! "u1"
  = Some failed ∧
  (∀ p, p ∈ DATABASE_PATHS →
        fs (Toy.perform_restore Toy.env0 zip_path "u1" w).2 !! p = fs w !! p).
Proof.
  intros w zip_path.
  assert (fs w !! zip_path = Some [Byte.x02; Byte.x07]) as Hfile
    by (vm_compute; reflexivity).
  split; [exact Hfile|].
  destruct (nothing_to_restore Toy.is_zip_bytes Toy.zip_read Toy.env0
              zip_path "u1" w
              (mkOperation "restore" failed 100 0 1 "temp_uploads/u1"
                 None None None)
              [Byte.x02; Byte.x07] [("notes.txt", EntryData [Byte.x07])])
    as (H1 & H2 & H3).
  - vm_compute. reflexivity.
  - exact Hfile.
  - reflexivity.
  - reflexivity.
  - intros p Hp. set_unfold in Hp.
    destruct Hp as [->|[->|[]]]; vm_compute;
      intros H; set_unfold in H; destruct H as [H|[]]; discriminate.
  - intros (q & Hq & E). set_unfold in Hq.
    destruct Hq as [->|[->|[]]]; vm_compute in E; discriminate.
  - split; [exact H1|]. split; [|exact H3].
    unfold Toy.perform_restore. by rewrite H2.
Defined.




(** C3 as stated fails: a later request that reuses the upload id of a
    completed operation, here one without a file, puts a fresh record in
    its place. *)
Lemma completed_record_replaced :
  let req := mkRestoreRequest None (Some "u1") None None None in
  status <$> OPERATIONS Toy.restored !! "u1" = Some completed ∧
  (Toy.restore_database Toy.env0 req Toy.restored).1
  = Ret (NoBackupFileProvided, 400) ∧
  OPERATIONS (Toy.restore_database Toy.env0 req Toy.restored).2 !! "u1"
  = Some (new_operation Toy.env0 "u1" 1) ∧
  OPERATIONS (Toy.restore_database Toy.env0 req Toy.restored).2 !! "u1"
  ≠ OPERATIONS Toy.restored !! "u1".
Proof.
  intros req. split_and!; try (vm_compute; reflexivity).
  vm_compute. discriminate.
Qed.


(** The count made up by a duplicate: chunk 1 of three delivered twice,
    chunk 2 never. The third request begins the assembly and fails on
    the chunk file that is not there. *)
Example duplicate_makes_up_the_count :
  (Toy.restore_all
     [(Toy.env0, Toy.chunk_upload 0 3 None [Byte.x03]);
      (Toy.env0, Toy.chunk_upload 1 3 None [Byte.x0a]);
      (Toy.env0, Toy.chunk_upload 1 3 None [Byte.x0a])]
     Toy.two_databases).1
  = [Ret (ChunkReceived "u1" 0 1 3, 200);
     Ret (ChunkReceived "u1" 1 2 3, 200);
     Ret (RestoreFailed (FileNotFoundError "temp_uploads/u1/chunk_2") "u1", 500)].
Proof. vm_compute. reflexivity. Qed.





(** The staging directory cannot be made: the record is stored, the
    exception leaves the handler, and nothing is saved. *)
Example staging_directory_blocked :
  let req := Toy.single_upload None [Byte.x01; Byte.x07] in
  let out := Toy.restore_database Toy.env_blocked req Toy.two_databases in
  out.1 = Raise (FileExistsError "temp_uploads/u1") ∧
  OPERATIONS out.2 !! "u1" = Some (new_operation Toy.env_blocked "u1" 1) ∧
  fs out.2 = fs Toy.two_databases.
Proof. intros req out. split_and!; vm_compute; reflexivity. Qed.

(** ** More on the download handler *)

(** With a block size of at least one, no block the loop yields is empty
    or longer than the block size. *)
Lemma stream_loop_blocks data cs :
  1 ≤ cs → ∀ n pos remaining, Z.to_nat remaining = n →
  Forall (λ b, b ≠ [] ∧ Z.of_nat (length b) ≤ cs)
    (stream_loop data cs pos remaining).1.
Proof.
  intros Hcs n. induction (lt_wf n) as [n _ IH].
  intros pos remaining Hn. rewrite stream_loop_body.
  destruct (0 <? remaining) eqn:Hrem; [|by constructor].
  apply Z.ltb_lt in Hrem. unfold file_read.
  destruct (_ <? -1) eqn:H1; [apply Z.ltb_lt in H1; lia|].
  destruct (_ =? -1) eqn:H2; [apply Z.eqb_eq in H2; lia|].
  set (k := Z.to_nat (cs `min` remaining)).
  destruct (take k (drop pos data)) as [|b d] eqn:Hblock; [by constructor|].
  cbn zeta. cbn [fst]. constructor.
  - split; [done|]. rewrite <- Hblock, length_take. subst k. lia.
  - apply (IH (Z.to_nat (remaining - Z.of_nat (length (b :: d))))); [|done].
    simpl. lia.
Qed.

(** A block size of -1 or more never makes the loop raise. *)
Lemma stream_loop_ends data cs pos remaining :
  -1 ≤ cs → (stream_loop data cs pos remaining).2 = None.
Proof.
  intros Hcs.
  destruct (decide (1 ≤ cs)) as [H1|H1].
  { by destruct (stream_loop_positive data cs H1 _ pos remaining eq_refl). }
  destruct (decide (cs = 0)) as [->|H0]; [by rewrite stream_loop_zero|].
  assert (cs = -1) as -> by lia.
  destruct (decide (0 < remaining)) as [Hr|Hr].
  { by destruct (stream_loop_minus_one data pos remaining Hr). }
  rewrite stream_loop_body.
  by replace (0 <? remaining) with false by (symmetry; apply Z.ltb_ge; lia).
Qed.

(** An empty window yields nothing, whatever the block size. *)
Lemma stream_loop_empty_window data cs pos remaining :
  remaining ≤ 0 → stream_loop data cs pos remaining = ([], None).
Proof.
  intros Hr. rewrite stream_loop_body.
  by replace (0 <? remaining) with false by (symmetry; apply Z.ltb_ge; lia).
Qed.

(** *** Range headers *)

Lemma remove_from_no_head c pat s :
  Py.contains c s = false →
  Py.remove_from (String c pat) s 0 = s.
Proof.
  induction s as [|a r IH]; [done|]. cbn [Py.contains Py.remove_from].
  intros [Ha Hr]%orb_false_iff. cbn [Py.startswith]. rewrite Ha. cbn.
  by rewrite IH.
Qed.

Lemma contains_app c a b :
  Py.contains c (a +:+ b) = Py.contains c a || Py.contains c b.
Proof.
  induction a as [|x a IH]; [done|].
  change (String x a +:+ b) with (String x (a +:+ b)).
  cbn [Py.contains]. by rewrite IH, orb_assoc.
Qed.

Lemma contains_digits c s :
  Py.is_digit c = false →
  forallb Py.is_digit (list_ascii_of_string s) = true →
  Py.contains c s = false.
Proof.
  intros Hc. induction s as [|a r IH]; [done|]. cbn.
  intros [Ha Hr]%andb_true_iff. rewrite IH by done.
  destruct (Ascii.eqb_spec c a) as [->|]; [congruence|done].
Qed.

Lemma split_no_sep sep s :
  Py.contains sep s = false → Py.split sep s = [s].
Proof.
  induction s as [|a r IH]; [done|]. cbn.
  intros [Ha Hr]%orb_false_iff. rewrite Ascii.eqb_sym, Ha. by rewrite IH.
Qed.

Lemma split_app sep a b :
  Py.contains sep a = false →
  Py.split sep (a +:+ String sep b) = a :: Py.split sep b.
Proof.
  induction a as [|x a IH].
  - intros _. change ("" +:+ String sep b) with (String sep b).
    cbn [Py.split]. by rewrite Ascii.eqb_refl.
  - change (String x a +:+ String sep b) with (String x (a +:+ String sep b)).
    cbn [Py.contains Py.split].
    intros [Ha Hr]%orb_false_iff. rewrite Ascii.eqb_sym, Ha. by rewrite IH.
Qed.

(** [str(n)] of a natural number: decimal digits, at least one. *)
Lemma str_of_int_digits z :
  0 ≤ z →
  Py.str_of_int z ≠ "" ∧
  forallb Py.is_digit (list_ascii_of_string (Py.str_of_int z)) = true.
Proof.
  intros Hz.
  destruct (str_of_int_cases z) as [(d & -> & Hd & _)|(d & Hs & Hd & Hzd)].
  - split; [by apply string_of_uint_nonempty|apply string_of_uint_digits].
  - assert (z = 0) as -> by (unfold Z.of_uint in Hzd; lia). done.
Qed.

Lemma int_value_str_of_int z : int_value (Py.str_of_int z) = Ret z.
Proof. unfold int_value. by rewrite int_of_str_of_int. Qed.

(** What is left of a header [bytes=<s>-<rest>] once it is cut. *)
Lemma range_header_parts s rest :
  0 ≤ s → Py.contains "b" rest = false →
  Py.split "-" (Py.remove_all "bytes=" ("bytes=" +:+ Py.str_of_int s +:+ "-" +:+ rest))
  = Py.str_of_int s :: Py.split "-" rest.
Proof.
  intros Hs Hrest. destruct (str_of_int_digits s Hs) as [_ Hd].
  unfold Py.remove_all.
  change (Py.remove_from "bytes=" ("bytes=" +:+ Py.str_of_int s +:+ "-" +:+ rest) 0)
    with (Py.remove_from "bytes=" (Py.str_of_int s +:+ "-" +:+ rest) 0).
  rewrite remove_from_no_head.
  - apply split_app. by apply contains_digits.
  - rewrite contains_app. rewrite (contains_digits "b") by done. done.
Qed.

Lemma parse_range_closed s e L :
  0 ≤ s → 0 ≤ e → parse_range (range_header s e) L = Ret (s, e).
Proof.
  intros Hs He. destruct (str_of_int_digits s Hs) as [Hns _].
  destruct (str_of_int_digits e He) as [Hne Hde].
  unfold parse_range, range_header. rewrite range_header_parts.
  2:{ done. } 2:{ by apply contains_digits. }
  rewrite split_no_sep by (by apply contains_digits).
  cbn [lookup list_lookup]. 
  destruct (Py.str_of_int s) as [|c r] eqn:Es; [done|]. rewrite <- Es.
  rewrite int_value_str_of_int. cbn [and_then].
  destruct (Py.str_of_int e) as [|c' r'] eqn:Ee; [done|]. rewrite <- Ee.
  by rewrite int_value_str_of_int.
Qed.

Lemma parse_range_open s L :
  0 ≤ s → parse_range (open_range_header s) L = Ret (s, L - 1).
Proof.
  intros Hs. destruct (str_of_int_digits s Hs) as [Hns _].
  unfold parse_range, open_range_header.
  pose proof (range_header_parts s "" Hs eq_refl) as H.
  change ("-" +:+ "") with "-" in H.
  rewrite H. cbn [Py.split lookup list_lookup].
  destruct (Py.str_of_int s) as [|c r] eqn:Es; [done|]. rewrite <- Es.
  by rewrite int_value_str_of_int.
Qed.

Section Downloads.

Variable md5_hexdigest : bytes → string.
Variable zip_write : list (string * bytes) → bytes.

Local Abbreviation run_backup := (backup_database md5_hexdigest zip_write).
Local Abbreviation run_download := (download md5_hexdigest zip_write).
Local Abbreviation archive := (archive_of zip_write).
Local Abbreviation stage := (staged zip_write).
Local Abbreviation reply := (answer md5_hexdigest).

Lemma databases_exist_dec w : Decision (databases_exist w).
Proof. unfold databases_exist. apply _. Defined.

(** A database that is not there: the first such path is named in a 404
    and nothing has been written. *)
Lemma backup_database_missing env req w :
  ¬ databases_exist w →
  ∃ pre p post, DATABASE_PATHS = pre ++ p :: post ∧
    Forall (λ q, is_Some (fs w !! q)) pre ∧ fs w !! p = None ∧
    run_backup env req w = (Ret (BackupJson (DatabaseFileNotFound p) 404), w).
Proof.
  intros Hno.
  cbv [backup_database try_except bind first_missing DATABASE_PATHS
    path_exists gets ret].
  destruct (fs w !! "database/books_data.db") as [d1|] eqn:H1.
  - destruct (fs w !! "database/books_static.db") as [d2|] eqn:H2.
    + destruct Hno. unfold databases_exist, DATABASE_PATHS.
      repeat constructor; eauto.
    + exists ["database/books_data.db"], "database/books_static.db", [].
      split_and!; try done. repeat constructor; eauto.
  - exists [], "database/books_data.db", ["database/books_static.db"].
    split_and!; try done.
Qed.

Lemma answer_not_404 env req zipped p code :
  reply env req zipped ≠ BackupJson (DatabaseFileNotFound p) code.
Proof. unfold answer. by repeat case_match. Qed.

(** The answer to a request whose Range header parses and starts inside
    the archive. *)
Lemma answer_range env req (zipped : bytes) h s e :
  let L := Z.of_nat (length zipped) in
  let e' := if e >=? L then L - 1 else e in
  range_given req = Some h → parse_range h L = Ret (s, e) → s < L →
  reply env req zipped
  = BackupStream
      (mkGenerator (backup_file_path env) s (e' - s + 1) (get_chunk_size req))
      206
      (backup_headers (backup_filename env) (md5_hexdigest zipped)
         (e' - s + 1) L
       ++ [("Content-Range", content_range s e' L)]).
Proof.
  intros L e' Hg Hp Hs. unfold answer, resolve. fold L. rewrite Hg, Hp.
  assert ((s >=? L) = false) as -> by (rewrite Z.geb_leb; by apply Z.leb_gt).
  done.
Qed.

(** The world a download leaves when both databases are there: the
    archive is staged, and its removal is scheduled when the generator
    has run to its end. *)
Lemma download_world env req w :
  databases_exist w →
  (run_download env req w).2
  = match reply env req (archive w) with
    | BackupStream g _ _ =>
        match (stream_loop (archive w) (gen_chunk_size g)
                 (Z.to_nat (gen_start g)) (gen_content_length g)).2 with
        | None => emit (EvCleanupFileLater (backup_file_path env) 600)
                    (stage env w)
        | Some _ => stage env w
        end
    | BackupJson _ _ => stage env w
    end.
Proof.
  intros Hw. unfold download. rewrite backup_database_run by done.
  destruct (reply env req (archive w)) as [err code|g code hd] eqn:Ha; [done|].
  apply answer_stream in Ha as (Hpath & _ & [Hs _] & _).
  unfold generate. rewrite Hpath.
  assert (fs (stage env w) !! backup_file_path env = Some (archive w))
    as -> by apply lookup_insert_eq.
  apply Z.ltb_ge in Hs as ->.
  by destruct (stream_loop _ _ _ _) as [blocks [e|]].
Qed.

Lemma download_stages env req w :
  databases_exist w →
  fs (run_download env req w).2 = <[backup_file_path env := archive w]> (fs w).
Proof.
  intros Hw. rewrite download_world by done.
  destruct (reply env req (archive w)) as [err code|g code hd]; [done|].
  by destruct (stream_loop _ _ _ _).2.
Qed.

Lemma backup_database_footprint env req :
  touches (run_backup env req)
    (.= backup_file_path env) (λ _, False) (.= EvWrite (backup_file_path env)).
Proof.
  unfold backup_database, calculate_file_checksum.
  apply touches_try; [|intros e; apply touches_ret].
  apply touches_bind.
  { generalize DATABASE_PATHS. intros l.
    induction l; cbn; unfold path_exists; touch; done. }
  intros [p|]; [apply touches_ret|].
  apply touches_bind.
  { generalize DATABASE_PATHS. intros l. induction l; cbn; touch; done. }
  intros members. touch; done.
Qed.

Lemma generate_world g w :
  fs (generate g w).2 = fs w ∧ OPERATIONS (generate g w).2 = OPERATIONS w.
Proof. unfold generate. by repeat case_match. Qed.

(** Whatever the world and the request, a download changes no file but
    the archive it stages, and no record. *)
Lemma download_footprint env req w :
  (∀ p, p ≠ backup_file_path env → fs (run_download env req w).2 !! p = fs w !! p) ∧
  OPERATIONS (run_download env req w).2 = OPERATIONS w.
Proof.
  destruct (backup_database_footprint env req w) as (F & O & _).
  assert (OPERATIONS (run_backup env req w).2 = OPERATIONS w) as O'.
  { apply map_eq. intros k. apply O. by intros []. }
  unfold download. destruct (run_backup env req w) as [r w1]. cbn [snd] in *.
  destruct r as [[err code|g code hd]|e]; cbn [snd]; try done.
  destruct (generate_world g w1) as [G1 G2].
  destruct (generate g w1) as [out w2]. cbn [snd] in *.
  rewrite G1, G2. done.
Qed.

Lemma cleanup_file_later_run p w :
  cleanup_file_later p w = (Ret (), with_fs (delete p) w).
Proof.
  cbv [cleanup_file_later try_except bind path_exists gets modify ret].
  destruct (fs w !! p) eqn:Hp; [done|].
  f_equal. destruct w as [f o t]. unfold with_fs. cbn in *.
  by rewrite delete_id.
Qed.

(** X1. [/backup] answers 404 exactly when a database file is missing;
    the 404 names the first missing path in the order of
    [DATABASE_PATHS], and nothing has been written or recorded by then. *)
Theorem missing_database_not_found env req w :
  (databases_exist w ↔
   ∀ p code, (run_backup env req w).1
             ≠ Ret (BackupJson (DatabaseFileNotFound p) code)) ∧
  (¬ databases_exist w →
   ∃ pre p post, DATABASE_PATHS = pre ++ p :: post ∧
     Forall (λ q, is_Some (fs w !! q)) pre ∧ fs w !! p = None ∧
     run_backup env req w
     = (Ret (BackupJson (DatabaseFileNotFound p) 404), w)).
Proof.
  split; [|apply backup_database_missing].
  split.
  - intros Hw p code. rewrite backup_database_run by done. cbn [fst].
    intros [= H]. by apply answer_not_404 in H.
  - intros H. destruct (databases_exist_dec w) as [|Hno]; [done|].
    destruct (backup_database_missing env req w Hno) as (? & p & ? & _ & _ & _ & E).
    destruct (H p 404). by rewrite E.
Qed.

(** X2. With a block size of at least one, the generator of a download
    yields no empty block and no block longer than the block size. *)
Theorem blocks_within_chunk_size g w :
  1 ≤ gen_chunk_size g →
  Forall (λ b, b ≠ [] ∧ Z.of_nat (length b) ≤ gen_chunk_size g)
    (generate g w).1.1.
Proof.
  intros Hcs. unfold generate.
  destruct (fs w !! gen_backup_path g) as [data|]; [|by constructor].
  destruct (gen_start g <? 0); [by constructor|].
  pose proof (stream_loop_blocks data _ Hcs _ (Z.to_nat (gen_start g))
                (gen_content_length g) eq_refl) as H.
  by destruct (stream_loop _ _ _ _) as [blocks [e|]].
Qed.

(** X3. Reading back the header a client writes for the bytes [s] to [e]
    gives [s] and [e]; the open form [bytes=<s>-] gives [s] and the last
    byte of the file. *)
Theorem range_header_round_trip s e L :
  0 ≤ s → 0 ≤ e →
  parse_range (range_header s e) L = Ret (s, e) ∧
  parse_range (open_range_header s) L = Ret (s, L - 1).
Proof.
  intros Hs He. split; [by apply parse_range_closed|by apply parse_range_open].
Qed.

Lemma range_header_given req h :
  headers_Range req = Some h → Py.startswith "bytes=" h = true →
  range_given req = Some h.
Proof. unfold range_given. intros -> Hh. by destruct h. Qed.

Lemma in_content_range name sum n L cr :
  In ("Content-Range", cr)
     (backup_headers name sum n L ++ [("Content-Range", cr)]) ∧
  In ("Content-Length", Py.str_of_int n)
     (backup_headers name sum n L ++ [("Content-Range", cr)]).
Proof.
  split; apply in_or_app; [right; by left|left].
  unfold backup_headers. cbn. auto 10.
Qed.

(** X4. A request for the bytes [s] to [e] of the archive, both inside
    it and in order: the answer is a 206 whose Content-Range reads
    [bytes s-e/L], whose Content-Length is [e - s + 1], and whose body,
    for a block size of at least one, is exactly those bytes. *)
Theorem range_inside_archive env req w s e :
  databases_exist w →
  headers_Range req = Some (range_header s e) →
  0 ≤ s → s ≤ e → e < Z.of_nat (length (archive w)) →
  let L := Z.of_nat (length (archive w)) in
  ∃ hd,
    (run_download env req w).1.1
    = Ret (BackupStream
             (mkGenerator (backup_file_path env) s (e - s + 1)
                (get_chunk_size req)) 206 hd) ∧
    In ("Content-Range", content_range s e L) hd ∧
    In ("Content-Length", Py.str_of_int (e - s + 1)) hd ∧
    (1 ≤ get_chunk_size req →
     (run_download env req w).1.2
     = take (Z.to_nat (e - s + 1)) (drop (Z.to_nat s) (archive w))).
Proof.
  intros Hw Hh Hs Hse He L.
  pose proof (range_header_given _ _ Hh eq_refl) as Hg.
  pose proof (parse_range_closed s e L Hs ltac:(lia)) as Hp.
  destruct (download_run md5_hexdigest zip_write env req w Hw) as (H1 & H2 & _).
  rewrite H1, H2.
  rewrite (answer_range env req (archive w) _ s e Hg Hp) by (fold L; lia).
  fold L. assert ((e >=? L) = false) as ->
    by (rewrite Z.geb_leb; apply Z.leb_gt; lia).
  eexists. split; [reflexivity|].
  split; [apply in_content_range|]. split; [apply in_content_range|].
  intros Hcs. cbn [gen_chunk_size gen_start gen_content_length].
  by destruct (stream_loop_positive (archive w) _ Hcs _ (Z.to_nat s)
                 (e - s + 1) eq_refl) as [_ ->].
Qed.

(** X5. A range whose end lies before its start is not refused: the
    answer is a 206 with an empty body, whatever the block size, and a
    Content-Length of [e - s + 1], which is zero or negative. *)
Theorem reversed_range_empty env req w s e :
  databases_exist w →
  headers_Range req = Some (range_header s e) →
  0 ≤ e → e < s → s < Z.of_nat (length (archive w)) →
  ∃ g hd,
    (run_download env req w).1 = (Ret (BackupStream g 206 hd), []) ∧
    gen_content_length g = e - s + 1 ∧
    In ("Content-Length", Py.str_of_int (e - s + 1)) hd.
Proof.
  intros Hw Hh He Hes Hs. set (L := Z.of_nat (length (archive w))) in *.
  pose proof (range_header_given _ _ Hh eq_refl) as Hg.
  pose proof (parse_range_closed s e L ltac:(lia) He) as Hp.
  destruct (download_run md5_hexdigest zip_write env req w Hw) as (H1 & H2 & _).
  destruct (run_download env req w) as [[r body] w']. cbn [fst snd] in *.
  subst r body.
  rewrite (answer_range env req (archive w) _ s e Hg Hp) by (fold L; lia).
  fold L. assert ((e >=? L) = false) as ->
    by (rewrite Z.geb_leb; apply Z.leb_gt; lia).
  eexists _, _. split.
  { cbn [gen_chunk_size gen_start gen_content_length].
    rewrite stream_loop_empty_window by lia. reflexivity. }
  split; [done|apply in_content_range].
Qed.

(** X6. A download that stopped after [s] bytes is completed by a second
    request with the header [bytes=<s>-]: the second answer is a 206 for
    the bytes from [s] to the end, and the bytes already received followed
    by its body are the archive. *)
Theorem resumed_download_completes env1 env2 req1 req2 w s :
  databases_exist w →
  headers_Range req1 = None →
  headers_Range req2 = Some (open_range_header s) →
  1 ≤ get_chunk_size req1 → 1 ≤ get_chunk_size req2 →
  0 ≤ s → s < Z.of_nat (length (archive w)) →
  let L := Z.of_nat (length (archive w)) in
  let first := run_download env1 req1 w in
  let second := run_download env2 req2 first.2 in
  first.1.2 = archive w ∧
  (∃ g hd, second.1.1 = Ret (BackupStream g 206 hd) ∧
           In ("Content-Range", content_range s (L - 1) L) hd) ∧
  take (Z.to_nat s) first.1.2 ++ second.1.2 = archive w.
Proof.
  intros Hw Hr1 Hr2 Hc1 Hc2 Hs0 Hs L first second.
  destruct (download_run md5_hexdigest zip_write env1 req1 w Hw)
    as (A1 & A2 & A3).
  fold first in A1, A2, A3.
  assert (Hw' : databases_exist first.2) by (by eapply databases_exist_ext).
  assert (Harch : archive first.2 = archive w) by (by apply archive_of_ext).
  destruct (download_run md5_hexdigest zip_write env2 req2 first.2 Hw')
    as (B1 & B2 & _).
  fold second in B1, B2. rewrite Harch in B1, B2.
  assert (first.1.2 = archive w) as E1.
  { rewrite A2. unfold answer, resolve, range_given. rewrite Hr1. fold L.
    destruct (0 >=? L) eqn:H0; [rewrite Z.geb_leb in H0; apply Z.leb_le in H0; lia|].
    destruct (L - 1 >=? L) eqn:H1; [rewrite Z.geb_leb in H1; apply Z.leb_le in H1; lia|].
    cbn [gen_chunk_size gen_start gen_content_length].
    destruct (stream_loop_positive (archive w) _ Hc1 _ (Z.to_nat 0)
                (L - 1 - 0 + 1) eq_refl) as [_ ->].
    rewrite drop_0. apply take_ge. lia. }
  pose proof (range_header_given _ _ Hr2 eq_refl) as Hg.
  pose proof (parse_range_open s L Hs0) as Hp.
  rewrite (answer_range env2 req2 (archive w) _ s (L - 1) Hg Hp) in B1, B2
    by (fold L; lia).
  fold L in B1, B2.
  assert ((L - 1 >=? L) = false) as HL
    by (rewrite Z.geb_leb; apply Z.leb_gt; lia).
  rewrite HL in B1, B2.
  split; [done|]. split.
  { eexists _, _. split; [exact B1|apply in_content_range]. }
  rewrite B2, E1. cbn [gen_chunk_size gen_start gen_content_length].
  destruct (stream_loop_positive (archive w) _ Hc2 _ (Z.to_nat s)
              (L - 1 - s + 1) eq_refl) as [_ ->].
  rewrite (take_ge (drop _ _)) by (rewrite length_drop; lia).
  apply take_drop.
Qed.

(** X7. When the archive has been staged, its removal after 600 seconds
    is scheduled exactly when a body was streamed to its end: not after a
    400 or 416 answer, and not when a block size below -1 makes the first
    read raise. In those cases the archive stays in [temp_backups]. *)
Theorem cleanup_only_after_full_stream env req w :
  databases_exist w →
  let w' := (run_download env req w).2 in
  let path := backup_file_path env in
  fs w' = <[path := archive w]> (fs w) ∧
  (∀ err code,
     (run_download env req w).1.1 = Ret (BackupJson err code) →
     trace w' = trace w ++ [EvWrite path]) ∧
  (∀ g code hd,
     (run_download env req w).1.1 = Ret (BackupStream g code hd) →
     (-1 ≤ get_chunk_size req ∨ gen_content_length g ≤ 0 →
      trace w' = trace w ++ [EvWrite path; EvCleanupFileLater path 600]) ∧
     (get_chunk_size req < -1 → 0 < gen_content_length g →
      trace w' = trace w ++ [EvWrite path])).
Proof.
  intros Hw w' path.
  destruct (download_run md5_hexdigest zip_write env req w Hw) as (H1 & _ & _).
  pose proof (download_world env req w Hw) as HW. fold w' in HW.
  rewrite H1. clearbody w'. subst w'.
  destruct (reply env req (archive w)) as [err code|g code hd] eqn:Ha.
  - split_and!; [done| |by intros ? ? ? [=]].
    intros ? ? _. unfold staged. cbn. done.
  - pose proof Ha as Hb.
    apply answer_stream in Hb as (_ & Hcs & _).
    split_and!.
    + by destruct (stream_loop _ _ _ _).2.
    + by intros ? ? [=].
    + intros g' code' hd' [= <- <- <-]. rewrite Hcs. split.
      * intros [Hc|Hn].
        -- rewrite stream_loop_ends by done. unfold staged. cbn.
           by rewrite <- app_assoc.
        -- rewrite stream_loop_empty_window by done. unfold staged. cbn.
           by rewrite <- app_assoc.
      * intros Hc Hn. rewrite stream_loop_below by done. done.
Qed.

(** X8. Whatever the world and the request, a download changes no file
    other than the archive it stages and no record of the operation
    table; and once the scheduled removal has run, a download that found
    no file under its archive's name has left the files as they were. *)
Theorem download_leaves_no_residue env req w :
  let path := backup_file_path env in
  (∀ p, p ≠ path → fs (run_download env req w).2 !! p = fs w !! p) ∧
  OPERATIONS (run_download env req w).2 = OPERATIONS w ∧
  (fs w !! path = None →
   fs (cleanup_file_later path (run_download env req w).2).2 = fs w).
Proof.
  intros path. destruct (download_footprint env req w) as [F O].
  split_and!; [done..|].
  intros Hnone. rewrite cleanup_file_later_run. cbn [snd fs with_fs].
  apply map_eq. intros p. destruct (decide (p = path)) as [->|Hp].
  - by rewrite lookup_delete_eq.
  - rewrite lookup_delete_ne by done. by apply F.
Qed.

End Downloads.

(** *** More downloads on the small instance *)

Lemma blocks_within_chunk_size_witness :
  let g := mkGenerator "database/books_data.db" 0 3 2 in
  1 ≤ gen_chunk_size g ∧
  Forall (λ b, b ≠ [] ∧ Z.of_nat (length b) ≤ gen_chunk_size g)
    (generate g Toy.two_databases).1.1.
Proof.
  intros g. split; [cbn; lia|].
  apply (blocks_within_chunk_size g Toy.two_databases). cbn. lia.
Defined.

Lemma range_header_round_trip_witness :
  0 ≤ 2 ∧ 0 ≤ 5 ∧
  parse_range (range_header 2 5) 6 = Ret (2, 5) ∧
  parse_range (open_range_header 2) 6 = Ret (2, 6 - 1).
Proof.
  split; [lia|]. split; [lia|].
  apply (range_header_round_trip 2 5 6); lia.
Defined.

Lemma range_inside_archive_witness :
  let req := mkBackupRequest (Some "2") (Some (range_header 1 3)) in
  let w := Toy.two_databases in
  databases_exist w ∧
  ∃ hd,
    (Toy.download Toy.env0 req w).1.1
    = Ret (BackupStream
             (mkGenerator (backup_file_path Toy.env0) 1 (3 - 1 + 1)
                (get_chunk_size req)) 206 hd) ∧
    In ("Content-Range",
        content_range 1 3 (Z.of_nat (length (archive_of Toy.zip_write w)))) hd ∧
    In ("Content-Length", Py.str_of_int (3 - 1 + 1)) hd ∧
    (1 ≤ get_chunk_size req →
     (Toy.download Toy.env0 req w).1.2
     = take (Z.to_nat (3 - 1 + 1))
         (drop (Z.to_nat 1) (archive_of Toy.zip_write w))).
Proof.
  intros req w. split; [apply two_databases_exist|].
  apply (range_inside_archive Toy.md5_hexdigest Toy.zip_write Toy.env0 req w
           1 3 two_databases_exist).
  - reflexivity.
  - lia.
  - lia.
  - vm_compute. reflexivity.
Defined.

Lemma reversed_range_empty_witness :
  let req := mkBackupRequest None (Some (range_header 3 1)) in
  let w := Toy.two_databases in
  databases_exist w ∧
  ∃ g hd,
    (Toy.download Toy.env0 req w).1 = (Ret (BackupStream g 206 hd), []) ∧
    gen_content_length g = 1 - 3 + 1 ∧
    In ("Content-Length", Py.str_of_int (1 - 3 + 1)) hd.
Proof.
  intros req w. split; [apply two_databases_exist|].
  apply (reversed_range_empty Toy.md5_hexdigest Toy.zip_write Toy.env0 req w
           3 1 two_databases_exist).
  - reflexivity.
  - lia.
  - lia.
  - vm_compute. reflexivity.
Defined.

Lemma resumed_download_completes_witness :
  let req1 := mkBackupRequest None None in
  let req2 := mkBackupRequest (Some "4") (Some (open_range_header 2)) in
  let w := Toy.two_databases in
  let first := Toy.download Toy.env0 req1 w in
  let second := Toy.download Toy.env0 req2 first.2 in
  databases_exist w ∧
  first.1.2 = archive_of Toy.zip_write w ∧
  take (Z.to_nat 2) first.1.2 ++ second.1.2 = archive_of Toy.zip_write w.
Proof.
  intros req1 req2 w first second. split; [apply two_databases_exist|].
  pose proof (resumed_download_completes Toy.md5_hexdigest Toy.zip_write
                Toy.env0 Toy.env0 req1 req2 w 2 two_databases_exist
                eq_refl eq_refl) as H.
  destruct H as (H1 & _ & H3).
  - vm_compute. discriminate.
  - vm_compute. discriminate.
  - lia.
  - vm_compute. reflexivity.
  - split; [exact H1|exact H3].
Defined.

Lemma cleanup_only_after_full_stream_witness :
  let req := mkBackupRequest None (Some "bytes=abc") in
  let w := Toy.two_databases in
  let path := backup_file_path Toy.env0 in
  databases_exist w ∧
  (Toy.download Toy.env0 req w).1.1 = Ret (BackupJson InvalidRangeHeader 400) ∧
  fs (Toy.download Toy.env0 req w).2 !! path
  = Some (archive_of Toy.zip_write w) ∧
  trace (Toy.download Toy.env0 req w).2 = trace w ++ [EvWrite path].
Proof.
  intros req w path. split; [apply two_databases_exist|].
  assert ((Toy.download Toy.env0 req w).1.1
          = Ret (BackupJson InvalidRangeHeader 400)) as Hr
    by (vm_compute; reflexivity).
  split; [exact Hr|].
  destruct (cleanup_only_after_full_stream Toy.md5_hexdigest Toy.zip_write
              Toy.env0 req w two_databases_exist) as (Hfs & Herr & _).
  split.
  - unfold Toy.download. rewrite Hfs. apply lookup_insert_eq.
  - exact (Herr _ _ Hr).
Defined.

(** ** Answers and exceptions *)

Section Yields.

Context {A B : Type}.

Lemma yields_ret (a : A) (P : A → Prop) Q : P a → yields (ret a) P Q.
Proof. by intros H w. Qed.

Lemma yields_raise e (P : A → Prop) (Q : exn → Prop) :
  Q e → yields (raise e : M A) P Q.
Proof. by intros H w. Qed.

Lemma yields_gets (f : World → A) Q : yields (gets f) (λ _, True) Q.
Proof. by intros w. Qed.

Lemma yields_bind (m : M A) (k : A → M B) P Q :
  yields m (λ _, True) Q → (∀ a, yields (k a) P Q) → yields (bind m k) P Q.
Proof.
  intros Hm Hk w. unfold bind. specialize (Hm w).
  destruct (m w) as [[a|e] w1]; cbn [fst] in *; [apply Hk|done].
Qed.

Lemma yields_try (m : M A) (h : exn → M A) P Q Q' :
  yields m P Q' → (∀ e, Q' e → yields (h e) P Q) → yields (try_except m h) P Q.
Proof.
  intros Hm Hh w. unfold try_except. specialize (Hm w).
  destruct (m w) as [[a|e] w1]; cbn [fst] in *; [done|by apply Hh].
Qed.

Lemma yields_weaken (m : M A) (P P' : A → Prop) (Q Q' : exn → Prop) :
  yields m P Q → (∀ a, P a → P' a) → (∀ e, Q e → Q' e) → yields m P' Q'.
Proof.
  intros Hm HP HQ w. specialize (Hm w). destruct (m w).1; auto.
Qed.

End Yields.

Lemma yields_modify f Q : yields (modify f) (λ _, True) Q.
Proof. by intros w. Qed.

Lemma yields_read_file p (Q : exn → Prop) :
  Q (FileNotFoundError p) → yields (read_file p) (λ _, True) Q.
Proof. intros H w. unfold read_file. by destruct (fs w !! p). Qed.

Lemma yields_get_op k (Q : exn → Prop) :
  Q (KeyError k) → yields (get_op k) (λ _, True) Q.
Proof. intros H w. unfold get_op. by destruct (OPERATIONS w !! k). Qed.

Lemma yields_update_op k f (Q : exn → Prop) :
  Q (KeyError k) → yields (update_op k f) (λ _, True) Q.
Proof.
  intros H. apply yields_bind; [by apply yields_get_op|].
  intros o. apply yields_modify.
Qed.

Lemma yields_int s (Q : exn → Prop) :
  Q ValueError → yields (int s) (λ _, True) Q.
Proof. intros H w. unfold int, lift, int_value. by destruct (Py.int_of_str s). Qed.

Lemma yields_for_each {X} (l : list X) (body : X → M unit) Q :
  (∀ x, yields (body x) (λ _, True) Q) →
  yields (for_each l body) (λ _, True) Q.
Proof.
  intros H. induction l as [|x l IH]; cbn; [by apply yields_ret|].
  apply yields_bind; [apply H|]. intros _. apply IH.
Qed.

Ltac yield_step :=
  lazymatch goal with
  | |- yields (ret _) _ _ => apply yields_ret
  | |- yields (raise _) _ _ => apply yields_raise
  | |- yields (gets _) _ _ => apply yields_gets
  | |- yields (modify _) _ _ => apply yields_modify
  | |- yields (write_file _ _) _ _ => apply yields_modify
  | |- yields (append_file _ _) _ _ => apply yields_modify
  | |- yields (read_file _) _ _ => apply yields_read_file
  | |- yields (get_op _) _ _ => apply yields_get_op
  | |- yields (update_op _ _) _ _ => apply yields_update_op
  | |- yields (int _) _ _ => apply yields_int
  | |- yields (for_each _ _) _ _ => apply yields_for_each; intros ?
  | |- yields (bind _ _) _ _ => apply yields_bind; [|intros ?]
  | |- yields (if ?b then _ else _) _ _ => destruct b
  | |- yields (match ?x with _ => _ end) _ _ => destruct x
  end.

Ltac yield := repeat yield_step.

(** ** Files are never removed by a handler *)

Section KeepsFiles.

Context {A B : Type}.

Lemma keeps_files_bind (m : M A) (k : A → M B) :
  keeps_files m → (∀ a, keeps_files (k a)) → keeps_files (bind m k).
Proof.
  intros Hm Hk w p Hp. unfold bind. specialize (Hm w p Hp).
  destruct (m w) as [[a|e] w1]; cbn [snd] in *; [by apply Hk|done].
Qed.

Lemma keeps_files_try (m : M A) (h : exn → M A) :
  keeps_files m → (∀ e, keeps_files (h e)) → keeps_files (try_except m h).
Proof.
  intros Hm Hh w p Hp. unfold try_except. specialize (Hm w p Hp).
  destruct (m w) as [[a|e] w1]; cbn [snd] in *; [done|by apply Hh].
Qed.

End KeepsFiles.

Lemma keeps_files_ret {A} (a : A) : keeps_files (ret a).
Proof. by intros w p. Qed.

Lemma keeps_files_raise {A} e : keeps_files (raise e : M A).
Proof. by intros w p. Qed.

Lemma keeps_files_lift {A} (o : outcome A) : keeps_files (lift o).
Proof. by intros w p. Qed.

Lemma keeps_files_gets {A} (f : World → A) : keeps_files (gets f).
Proof. by intros w p. Qed.

Lemma keeps_files_read_file q : keeps_files (read_file q).
Proof. intros w p. unfold read_file. by destruct (fs w !! q). Qed.

Lemma keeps_files_get_op k : keeps_files (get_op k).
Proof. intros w p. unfold get_op. by destruct (OPERATIONS w !! k). Qed.

Lemma keeps_files_with_ops f : keeps_files (modify (with_ops f)).
Proof. by intros w p. Qed.

Lemma keeps_files_emit e : keeps_files (modify (emit e)).
Proof. by intros w p. Qed.

Lemma keeps_files_update_op k f : keeps_files (update_op k f).
Proof.
  apply keeps_files_bind; [apply keeps_files_get_op|].
  intros o. apply keeps_files_with_ops.
Qed.

Lemma keeps_files_write_file q d : keeps_files (write_file q d).
Proof.
  intros w p Hp. cbn. destruct (decide (q = p)) as [->|].
  - rewrite lookup_insert_eq. eauto.
  - by rewrite lookup_insert_ne.
Qed.

Lemma keeps_files_append_file q d : keeps_files (append_file q d).
Proof.
  intros w p Hp. cbn. destruct (decide (q = p)) as [->|].
  - rewrite lookup_insert_eq. eauto.
  - by rewrite lookup_insert_ne.
Qed.

Lemma keeps_files_copy2 src dst : keeps_files (copy2 src dst).
Proof.
  apply keeps_files_bind; [apply keeps_files_read_file|].
  intros d w p Hp. cbn. destruct (decide (dst = p)) as [->|].
  - rewrite lookup_insert_eq. eauto.
  - by rewrite lookup_insert_ne.
Qed.

Lemma keeps_files_for_each {X} (l : list X) (body : X → M unit) :
  (∀ x, keeps_files (body x)) → keeps_files (for_each l body).
Proof.
  intros H. induction l as [|x l IH]; cbn; [apply keeps_files_ret|].
  apply keeps_files_bind; [apply H|]. intros _. apply IH.
Qed.

Ltac keep_step :=
  lazymatch goal with
  | |- keeps_files (ret _) => apply keeps_files_ret
  | |- keeps_files (raise _) => apply keeps_files_raise
  | |- keeps_files (lift _) => apply keeps_files_lift
  | |- keeps_files (gets _) => apply keeps_files_gets
  | |- keeps_files (read_file _) => apply keeps_files_read_file
  | |- keeps_files (get_op _) => apply keeps_files_get_op
  | |- keeps_files (update_op _ _) => apply keeps_files_update_op
  | |- keeps_files (modify (with_ops _)) => apply keeps_files_with_ops
  | |- keeps_files (modify (emit _)) => apply keeps_files_emit
  | |- keeps_files (write_file _ _) => apply keeps_files_write_file
  | |- keeps_files (append_file _ _) => apply keeps_files_append_file
  | |- keeps_files (copy2 _ _) => apply keeps_files_copy2
  | |- keeps_files (for_each _ _) => apply keeps_files_for_each; intros ?
  | |- keeps_files (bind _ _) => apply keeps_files_bind; [|intros ?]
  | |- keeps_files (try_except _ _) => apply keeps_files_try; [|intros ?]
  | |- keeps_files (if ?b then _ else _) => destruct b
  | |- keeps_files (match ?x with _ => _ end) => destruct x
  end.

Ltac keep := repeat keep_step.

(** ** More on the restore engine and the upload handler *)

Lemma getinfo_None name entries :
  getinfo name entries = None ↔ name ∉ map fst entries.
Proof.
  induction entries as [|[n e] r IH]; cbn.
  - split; [intros _; apply not_elem_of_nil|done].
  - rewrite not_elem_of_cons, <- IH.
    destruct (getinfo name r); [split; [done|by intros [_ [=]]]|].
    destruct (String.eqb_spec n name) as [->|Hn].
    + split; [done|]. by intros [H _].
    + split; [|done]. intros _. split; [by intros ->|done].
Qed.

Lemma extract_wanted_keeps entries paths restored :
  keeps_files (extract_wanted entries paths restored).
Proof.
  revert restored. induction paths as [|p paths IH]; intros restored; cbn.
  - apply keeps_files_ret.
  - case_bool_decide; [|apply IH].
    apply keeps_files_bind; [unfold extract_member; keep|intros _; apply IH].
Qed.

(** The extraction loop on members that all read whole: every database
    with a member of its base name is overwritten with that member, in
    the order of the list. *)
Lemma extract_wanted_data entries paths :
  NoDup paths →
  (∀ p, p ∈ paths → Py.basename p ∈ map fst entries →
        is_Some (member_data entries p)) →
  ∀ restored w,
  let wanted := filter (λ p, Py.basename p ∈ map fst entries) paths in
  ∃ w', extract_wanted entries paths restored w = (Ret (restored ++ wanted), w') ∧
    OPERATIONS w' = OPERATIONS w ∧
    trace w' = trace w ++ map EvWrite wanted ∧
    (∀ p, p ∈ wanted → fs w' !! p = member_data entries p) ∧
    (∀ p, p ∉ wanted → fs w' !! p = fs w !! p).
Proof.
  induction paths as [|p paths IH]; intros Hnd Hdata restored w; cbn zeta.
  - exists w. cbn. rewrite !app_nil_r. split_and!; try done.
    intros p Hp. by apply elem_of_nil in Hp.
  - apply NoDup_cons in Hnd as [Hp Hnd].
    assert (Hdata' : ∀ q, q ∈ paths → Py.basename q ∈ map fst entries →
                          is_Some (member_data entries q)).
    { intros q Hq. apply Hdata. by right. }
    cbn [extract_wanted]. rewrite filter_cons.
    case_bool_decide as Hin.
    + rewrite decide_True by done.
      destruct (Hdata p ltac:(by left) Hin) as [d Hd].
      unfold member_data in Hd. unfold extract_member.
      destruct (getinfo (Py.basename p) entries) as [[d'| |d']|] eqn:E;
        try done.
      injection Hd as ->.
      cbv [bind write_file modify]. cbn [fst snd].
      destruct (IH Hnd Hdata' (restored ++ [p])
                  (emit (EvWrite p) (with_fs <[p := d]> w)))
        as (w' & -> & HO & HT & HF & HK).
      exists w'. rewrite <- app_assoc. split_and!; try done.
      * rewrite HT. cbn. by rewrite <- app_assoc.
      * intros q [->|Hq]%elem_of_cons.
        -- rewrite HK.
           ++ cbn. rewrite lookup_insert_eq. unfold member_data.
              by rewrite E.
           ++ intros Hq%list_elem_of_filter. by destruct Hq.
        -- by apply HF.
      * intros q Hq. apply not_elem_of_cons in Hq as [Hqp Hq].
        rewrite HK by done. cbn. by rewrite lookup_insert_ne.
    + rewrite decide_False by done. by apply IH.
Qed.

Lemma NoDup_DATABASE_PATHS : NoDup DATABASE_PATHS.
Proof.
  unfold DATABASE_PATHS. apply NoDup_cons. split; [|apply NoDup_singleton].
  intros H%list_elem_of_singleton. discriminate.
Qed.

Section RestoreMore.

Variable md5_hexdigest : bytes → string.
Variable is_zip_bytes : bytes → bool.
Variable zip_read : bytes → option (list (string * ZipEntry)).

Local Abbreviation run_restore := (perform_restore is_zip_bytes zip_read).
Local Abbreviation finish := (extract_and_finish zip_read).
Local Abbreviation gate :=
  (verify_and_restore md5_hexdigest is_zip_bytes zip_read).
Local Abbreviation handle :=
  (restore_database md5_hexdigest is_zip_bytes zip_read).

(** The engine up to the point where the archive is opened. *)
Lemma perform_restore_opens env zip_path operation_id w op d :
  OPERATIONS w !! operation_id = Some op →
  fs w !! zip_path = Some d → is_zip_bytes d = true →
  ¬ snapshot_name env zip_path →
  ∃ w2,
    run_restore env zip_path operation_id w
    = try_except (finish env zip_path operation_id)
        (restore_failed operation_id) w2 ∧
    OPERATIONS w2 = <[operation_id := set_status restoring op]> (OPERATIONS w) ∧
    trace w2 = trace w ++ EvPerformRestore zip_path operation_id
                 :: snapshot_events env w ∧
    fs w2 !! zip_path = Some d ∧
    (∀ q old, q ∈ DATABASE_PATHS → fs w !! q = Some old →
              fs w2 !! bak_path q (timestamp env) = Some old) ∧
    (∀ p, ¬ snapshot_name env p → fs w2 !! p = fs w !! p).
Proof.
  intros Hop Hzip Hvalid Hname.
  cbv [perform_restore bind try_except modify update_op get_op gets
       is_zipfile ret].
  cbn [fs OPERATIONS trace emit with_fs with_ops]. rewrite Hop.
  cbn [fs OPERATIONS trace emit with_fs with_ops]. rewrite Hzip, Hvalid.
  cbn [negb]. set (w1 := with_ops _ (emit _ w)).
  assert (Hfs1 : fs w1 = fs w) by done.
  destruct (backup_current_databases_run env w1)
    as (w2 & -> & Hops & Htr & Hbak & Hkeep).
  exists w2. split_and!.
  - done.
  - by rewrite Hops.
  - rewrite Htr. unfold w1, snapshot_events. cbn [trace fs emit with_ops].
    by rewrite <- app_assoc.
  - by rewrite Hkeep, Hfs1.
  - intros q old Hq Hold. apply Hbak; [done|by rewrite Hfs1].
  - intros p Hp. by rewrite Hkeep, Hfs1.
Qed.

(** X9. A file that [is_zipfile] does not accept (or that is not there):
    the answer is the invalid-zip error (400), the operation is marked
    failed, and nothing else happens: no snapshot is made and no file
    changes. *)
Theorem not_a_zip_rejected env zip_path operation_id w op :
  OPERATIONS w !! operation_id = Some op →
  (∀ d, fs w !! zip_path = Some d → is_zip_bytes d = false) →
  let r := run_restore env zip_path operation_id w in
  r.1 = Ret (InvalidZipFile operation_id, 400) ∧
  OPERATIONS r.2 = <[operation_id := set_status failed op]> (OPERATIONS w) ∧
  fs r.2 = fs w ∧
  trace r.2 = trace w ++ [EvPerformRestore zip_path operation_id].
Proof.
  intros Hop Hzip.
  cbv [perform_restore bind try_except modify update_op get_op gets
       is_zipfile ret].
  cbn [fs OPERATIONS trace emit with_fs with_ops]. rewrite Hop.
  cbn [fs OPERATIONS trace emit with_fs with_ops].
  assert (match fs w !! zip_path with
          | Some d => is_zip_bytes d
          | None => false
          end = false) as ->.
  { destruct (fs w !! zip_path); [by apply Hzip|done]. }
  cbn [negb fs OPERATIONS trace emit with_fs with_ops].
  rewrite lookup_insert_eq. cbn. split_and!; try done.
  by rewrite insert_insert_eq.
Qed.

(** X10. A restore from an archive whose wanted members all read whole:
    the answer lists the restored databases in the order of
    [DATABASE_PATHS]; each of them holds the bytes of the last member of
    its base name; the other databases are as they were; the [.bak]
    copies hold the old bytes; the record is completed, stamped, and lists
    the restored files; and the removal of the upload is scheduled for an
    hour later. *)
Theorem restore_completes env zip_path operation_id w op d entries :
  OPERATIONS w !! operation_id = Some op →
  fs w !! zip_path = Some d → is_zip_bytes d = true →
  zip_read d = Some entries →
  (zip_path ∉ DATABASE_PATHS) → ¬ snapshot_name env zip_path →
  (∀ p, p ∈ restorable entries → is_Some (member_data entries p)) →
  restorable entries ≠ [] →
  let r := run_restore env zip_path operation_id w in
  r.1 = Ret (RestoreCompleted (restorable entries) operation_id, 200) ∧
  OPERATIONS r.2 !! operation_id
  = Some (set_restored_files (restorable entries)
            (set_completed_at (time_completed env)
               (set_status completed op))) ∧
  (∀ p, p ∈ restorable entries → fs r.2 !! p = member_data entries p) ∧
  (∀ p, p ∈ DATABASE_PATHS → p ∉ restorable entries →
        fs r.2 !! p = fs w !! p) ∧
  (∀ q old, q ∈ DATABASE_PATHS → fs w !! q = Some old →
            fs r.2 !! bak_path q (timestamp env) = Some old) ∧
  trace r.2
  = trace w ++ EvPerformRestore zip_path operation_id
      :: snapshot_events env w ++ map EvWrite (restorable entries)
      ++ [EvCleanupOperationLater operation_id 3600].
Proof.
  intros Hop Hzip Hvalid Hread Hnotdb Hname Hdata Hsome r. subst r.
  destruct (perform_restore_opens env zip_path operation_id w op d
              Hop Hzip Hvalid Hname)
    as (w2 & -> & Hops & Htr & Hzip2 & Hbak & Hkeep).
  destruct (extract_wanted_data entries DATABASE_PATHS NoDup_DATABASE_PATHS)
    with (restored := @nil string) (w := w2)
    as (w3 & Hrun & HO & HT & HF & HK).
  { intros p Hp Hin. apply Hdata. unfold restorable.
    by apply list_elem_of_filter. }
  fold (restorable entries) in Hrun, HT, HF, HK. cbn [app] in Hrun.
  cbv [try_except extract_and_finish ZipFile_open bind read_file].
  rewrite Hzip2, Hread. cbv [ret]. rewrite Hrun.
  destruct (restorable entries) as [|p0 l] eqn:Hrest; [done|].
  rewrite <- Hrest in *.
  cbv [bind update_op get_op modify ret].
  cbn [fst snd fs OPERATIONS trace with_ops emit].
  rewrite HO, Hops, lookup_insert_eq.
  cbn [fst snd fs OPERATIONS trace with_ops emit].
  rewrite lookup_insert_eq. cbn [fst snd fs OPERATIONS trace with_ops emit].
  rewrite lookup_insert_eq. cbn [fst snd fs OPERATIONS trace with_ops emit].
  rewrite lookup_insert_eq.
  split_and!; try done.
  - intros p Hp Hnot. rewrite HK by done. apply Hkeep.
    by apply database_not_snapshot_name.
  - intros q old Hq Hold. rewrite HK; [by apply Hbak|].
    intros Hin. apply list_elem_of_filter in Hin as [_ Hin].
    exact (bak_path_not_database _ q _ Hq Hin eq_refl).
  - rewrite HT, Htr. rewrite <- !app_assoc. cbn. by rewrite <- !app_assoc.
Qed.

End RestoreMore.

Lemma basename_books_data : Py.basename "database/books_data.db" = "books_data.db".
Proof. reflexivity. Qed.

Lemma basename_books_static :
  Py.basename "database/books_static.db" = "books_static.db".
Proof. reflexivity. Qed.

Section RestoreFailures.

Variable md5_hexdigest : bytes → string.
Variable zip_write : list (string * bytes) → bytes.
Variable is_zip_bytes : bytes → bool.
Variable zip_read : bytes → option (list (string * ZipEntry)).

Local Abbreviation run_restore := (perform_restore is_zip_bytes zip_read).
Local Abbreviation finish := (extract_and_finish zip_read).
Local Abbreviation gate :=
  (verify_and_restore md5_hexdigest is_zip_bytes zip_read).
Local Abbreviation handle :=
  (restore_database md5_hexdigest is_zip_bytes zip_read).
Local Abbreviation body :=
  (session_body md5_hexdigest is_zip_bytes zip_read).

(** X11. No rollback. When the first database is extracted and the
    member for the second cannot be read, the answer is a 500 and the
    record is marked failed with the error, but the first database keeps
    its new content; the second is as it was, or holds the part that was
    copied before the failure. The old bytes of both are in the [.bak]
    copies. *)
Theorem failed_restore_not_rolled_back env zip_path operation_id w op d
    entries d1 e2 :
  OPERATIONS w !! operation_id = Some op →
  fs w !! zip_path = Some d → is_zip_bytes d = true →
  zip_read d = Some entries →
  (zip_path ∉ DATABASE_PATHS) → ¬ snapshot_name env zip_path →
  getinfo "books_data.db" entries = Some (EntryData d1) →
  getinfo "books_static.db" entries = Some e2 →
  (∀ d2, e2 ≠ EntryData d2) →
  let r := run_restore env zip_path operation_id w in
  r.1 = Ret (RestoreFailed BadZipFile operation_id, 500) ∧
  OPERATIONS r.2 !! operation_id
  = Some (set_error BadZipFile (set_status failed op)) ∧
  fs r.2 !! "database/books_data.db" = Some d1 ∧
  fs r.2 !! "database/books_static.db"
  = match e2 with
    | EntryTruncated d2 => Some d2
    | _ => fs w !! "database/books_static.db"
    end ∧
  (∀ q old, q ∈ DATABASE_PATHS → fs w !! q = Some old →
            fs r.2 !! bak_path q (timestamp env) = Some old).
Proof.
  intros Hop Hzip Hvalid Hread Hnotdb Hname H1 H2 Hbad r. subst r.
  destruct (perform_restore_opens is_zip_bytes zip_read env zip_path
              operation_id w op d Hop Hzip Hvalid Hname)
    as (w2 & -> & Hops & Htr & Hzip2 & Hbak & Hkeep).
  assert (Hin1 : "books_data.db" ∈ map fst entries).
  { destruct (decide ("books_data.db" ∈ map fst entries)) as [|Hn]; [done|].
    apply getinfo_None in Hn. congruence. }
  assert (Hin2 : "books_static.db" ∈ map fst entries).
  { destruct (decide ("books_static.db" ∈ map fst entries)) as [|Hn]; [done|].
    apply getinfo_None in Hn. congruence. }
  assert (B1 : ∀ q, q ∈ DATABASE_PATHS →
            bak_path q (timestamp env) ≠ "database/books_data.db").
  { intros q Hq. apply bak_path_not_database; [done|repeat constructor]. }
  assert (B2 : ∀ q, q ∈ DATABASE_PATHS →
            bak_path q (timestamp env) ≠ "database/books_static.db").
  { intros q Hq. apply bak_path_not_database; [done|repeat constructor]. }
  assert (K2 : fs w2 !! "database/books_static.db"
               = fs w !! "database/books_static.db").
  { apply Hkeep, database_not_snapshot_name. repeat constructor. }
  cbv [try_except extract_and_finish ZipFile_open bind read_file].
  rewrite Hzip2, Hread. cbv [ret].
  unfold DATABASE_PATHS. cbn [extract_wanted].
  rewrite basename_books_data, basename_books_static.
  rewrite !bool_decide_eq_true_2 by done.
  unfold extract_member. rewrite H1, H2.
  cbv [bind write_file modify raise restore_failed update_op get_op ret].
  destruct e2 as [d2| |d2]; [by destruct (Hbad d2)| |];
    cbn [fst snd fs OPERATIONS trace with_ops with_fs emit];
    rewrite Hops, lookup_insert_eq;
    cbn [fst snd fs OPERATIONS trace with_ops with_fs emit];
    rewrite lookup_insert_eq;
    cbn [fst snd fs OPERATIONS trace with_ops with_fs emit];
    rewrite ?lookup_insert_eq.
  - split_and!; try done.
    + by rewrite lookup_insert_ne.
    + intros q old Hq Hold. rewrite lookup_insert_ne by (intros E; by eapply B1).
      by apply Hbak.
  - split_and!; try done.
    + rewrite lookup_insert_ne by done. by rewrite lookup_insert_eq.
    + intros q old Hq Hold.
      rewrite !lookup_insert_ne by (intros E; first [by eapply B1|by eapply B2]).
      by apply Hbak.
Qed.

(** X12. An archive that [is_zipfile] accepts and [ZipFile] cannot open:
    the engine's own handler answers, with a 500 and the error in the
    record; the snapshot has been made and no database has changed. *)
Theorem unreadable_archive_fails env zip_path operation_id w op d :
  OPERATIONS w !! operation_id = Some op →
  fs w !! zip_path = Some d → is_zip_bytes d = true →
  zip_read d = None →
  ¬ snapshot_name env zip_path →
  let r := run_restore env zip_path operation_id w in
  r.1 = Ret (RestoreFailed BadZipFile operation_id, 500) ∧
  OPERATIONS r.2 !! operation_id
  = Some (set_error BadZipFile (set_status failed op)) ∧
  (∀ p, p ∈ DATABASE_PATHS → fs r.2 !! p = fs w !! p) ∧
  (∀ q old, q ∈ DATABASE_PATHS → fs w !! q = Some old →
            fs r.2 !! bak_path q (timestamp env) = Some old) ∧
  trace r.2 = trace w ++ EvPerformRestore zip_path operation_id
                :: snapshot_events env w.
Proof.
  intros Hop Hzip Hvalid Hread Hname r. subst r.
  destruct (perform_restore_opens is_zip_bytes zip_read env zip_path
              operation_id w op d Hop Hzip Hvalid Hname)
    as (w2 & -> & Hops & Htr & Hzip2 & Hbak & Hkeep).
  cbv [try_except extract_and_finish ZipFile_open bind read_file].
  rewrite Hzip2, Hread.
  cbv [bind raise restore_failed update_op get_op modify ret].
  cbn [fst snd fs OPERATIONS trace with_ops with_fs emit].
  rewrite Hops, lookup_insert_eq.
  cbn [fst snd fs OPERATIONS trace with_ops with_fs emit].
  rewrite lookup_insert_eq.
  cbn [fst snd fs OPERATIONS trace with_ops with_fs emit].
  rewrite ?lookup_insert_eq.
  split_and!; try done.
  intros p Hp. by apply Hkeep, database_not_snapshot_name.
Qed.

(** *** What the upload handler can answer *)

Lemma restore_database_body env req :
  handle env req
  = bind (open_session env req) (λ known,
      if negb known then ret (UploadSessionNotFound, 404)
      else try_except (body env req) (restore_error (upload_id_of env req))).
Proof. reflexivity. Qed.

Lemma extract_wanted_yields entries paths restored :
  yields (extract_wanted entries paths restored) (λ _, True) (λ _, True).
Proof.
  revert restored. induction paths as [|p paths IH]; intros restored; cbn.
  - by apply yields_ret.
  - case_bool_decide; [|apply IH].
    apply yields_bind; [|intros _; apply IH].
    unfold extract_member. yield; done.
Qed.

Lemma perform_restore_yields env zip_path operation_id :
  yields (run_restore env zip_path operation_id) session_answer
    (λ e, e ≠ BadZipFile).
Proof.
  unfold perform_restore.
  apply yields_bind; [apply yields_modify|intros _].
  apply yields_try with (Q' := λ _, True).
  - apply yields_bind; [by apply yields_update_op|intros _].
    apply yields_bind; [apply yields_gets|intros ok].
    destruct (negb ok).
    { apply yields_bind; [by apply yields_update_op|intros _].
      by apply yields_ret. }
    apply yields_bind.
    { unfold backup_current_databases.
      apply yields_bind; [|intros _; by apply yields_ret].
      apply yields_for_each. intros q. unfold path_exists, copy2.
      yield; done. }
    intros _. unfold extract_and_finish, ZipFile_open.
    apply yields_bind; [yield; done|intros entries].
    apply yields_bind; [apply extract_wanted_yields|intros restored].
    destruct restored; yield; done.
  - intros e _. unfold restore_failed. yield; done.
Qed.

Lemma gate_yields env req upload_id file_path :
  yields (gate env req upload_id file_path) session_answer
    (λ e, e ≠ BadZipFile).
Proof.
  unfold verify_and_restore, calculate_file_checksum.
  destruct (form_checksum req) as [c|]; [|apply perform_restore_yields].
  destruct (negb _); [|apply perform_restore_yields].
  apply yields_bind; [yield; done|intros calculated].
  destruct (negb _); [yield; done|apply perform_restore_yields].
Qed.

Lemma session_body_yields env req :
  yields (body env req) session_answer (λ e, e ≠ BadZipFile).
Proof.
  unfold session_body.
  destruct (files_backup_file req) as [[filename content]|];
    [|by apply yields_ret].
  destruct (String.eqb filename ""); [by apply yields_ret|].
  destruct (is_chunk req).
  - unfold receive_chunk.
    apply yields_bind; [by apply yields_int|intros n].
    apply yields_bind; [by apply yields_get_op|intros op].
    apply yields_bind; [apply yields_modify|intros _].
    apply yields_bind; [by apply yields_update_op|intros _].
    apply yields_bind; [by apply yields_get_op|intros op'].
    destruct (_ >=? _); [|by apply yields_ret].
    apply yields_bind; [|intros path; apply gate_yields].
    unfold combine_chunks.
    apply yields_bind; [by apply yields_get_op|intros op''].
    apply yields_bind; [apply yields_modify|intros _].
    apply yields_bind; [|intros _; by apply yields_ret].
    apply yields_for_each. intros i. unfold append_file. yield; done.
  - unfold receive_single.
    apply yields_bind; [by apply yields_get_op|intros op].
    apply yields_bind; [apply yields_modify|intros _].
    apply gate_yields.
Qed.

Lemma restore_database_yields env req :
  yields (handle env req)
    (λ r, r = (UploadSessionNotFound, 404) ∨ session_answer r) (λ _, True).
Proof.
  rewrite restore_database_body.
  apply yields_bind.
  { unfold open_session, op_in, makedirs. yield; done. }
  intros known. destruct (negb known); [apply yields_ret; by left|].
  apply yields_try with (Q' := λ e, e ≠ BadZipFile).
  - eapply yields_weaken; [apply session_body_yields|by right|done].
  - intros e He. unfold restore_error.
    destruct e; try done; yield; try done; by right.
Qed.

(** X13. The answers of [/restore]: the session error with a 404, or
    one of the answers that follow an open session, each with its own
    status code. The answer of the [except zipfile.BadZipFile] block is
    never among them: the engine handles that error itself. *)
Theorem restore_never_invalid_zip_provided env req w r :
  (handle env req w).1 = Ret r →
  (r = (UploadSessionNotFound, 404) ∨ session_answer r) ∧
  ∀ upload_id, r.1 ≠ InvalidZipFileProvided upload_id.
Proof.
  intros Hr. pose proof (restore_database_yields env req w) as H.
  rewrite Hr in H. split; [done|].
  intros upload_id E. destruct H as [->|H]; [done|].
  unfold session_answer in H. by rewrite E in H.
Qed.

(** *** What escapes the upload handler *)

Lemma session_body_touches env req :
  touches (body env req) (λ _, True) (.= upload_id_of env req) (λ _, True).
Proof.
  unfold session_body.
  destruct (files_backup_file req) as [[filename content]|]; [|apply touches_ret].
  destruct (String.eqb filename ""); [apply touches_ret|].
  destruct (is_chunk req).
  - unfold receive_chunk, int.
    apply touches_bind; [touch|intros n].
    apply touches_bind; [touch|intros op].
    apply touches_bind; [by apply touches_write_file|intros _].
    apply touches_bind; [by apply touches_update_op|intros _].
    apply touches_bind; [touch|intros op'].
    destruct (_ >=? _); [|apply touches_ret].
    apply touches_bind.
    + eapply touches_weaken; [apply combine_chunks_touches|done..].
    + intros path. eapply touches_weaken; [apply gate_touches|done..].
  - unfold receive_single.
    apply touches_bind; [touch|intros op].
    apply touches_bind; [by apply touches_write_file|intros _].
    eapply touches_weaken; [apply gate_touches|done..].
Qed.

(** Once the session is open the handler returns an answer. *)
Lemma open_session_answers env req w0 :
  is_Some (OPERATIONS w0 !! upload_id_of env req) →
  ∃ r, (try_except (body env req) (restore_error (upload_id_of env req)) w0).1
       = Ret r.
Proof.
  intros Hop. unfold try_except.
  destruct (session_body_touches env req w0) as (_ & _ & S & _).
  specialize (S _ Hop).
  destruct (body env req w0) as [[r|e] w1]; cbn [snd] in S; [by exists r|].
  destruct S as [op1 Hop1].
  unfold restore_error.
  destruct e; cbv [bind update_op get_op modify ret]; rewrite Hop1; eauto.
Qed.

Lemma open_session_cases env req w :
  let uid := upload_id_of env req in
  open_session env req w
  = if opens_session req then
      match announced_total req with
      | None => (Raise ValueError, w)
      | Some total =>
          let w0 := with_ops <[uid := new_operation env uid total]> w in
          match makedirs_raises env with
          | Some e => (Raise e, w0)
          | None => (Ret true, w0)
          end
      end
    else (Ret (match OPERATIONS w !! uid with
               | Some _ => true
               | None => false
               end), w).
Proof.
  unfold open_session, opens_session, announced_total, makedirs.
  destruct (negb (is_chunk req) || _); [|done].
  destruct (form_total_chunks req) as [s|].
  - cbv [bind int lift int_value modify ret raise].
    destruct (Py.int_of_str s); [|done].
    by destruct (makedirs_raises env).
  - cbv [bind modify ret raise]. by destruct (makedirs_raises env).
Qed.

(** X14. What escapes [/restore]. An exception leaves the handler only
    from the block before the [try], on a request that opens a session:
    the [ValueError] of [int(total_chunks)], with the world as it was, or
    what [os.makedirs] raises for the staging directory, with the new
    record already in the table. Every other request gets an answer. *)
Theorem restore_raises_only_before_try env req w e :
  let uid := upload_id_of env req in
  ((handle env req w).1 = Raise e ↔
   opens_session req = true ∧
   (announced_total req = None ∧ e = ValueError ∨
    is_Some (announced_total req) ∧ makedirs_raises env = Some e)) ∧
  ((handle env req w).1 = Raise e →
   (handle env req w).2
   = match announced_total req with
     | None => w
     | Some total => with_ops <[uid := new_operation env uid total]> w
     end).
Proof.
  intros uid. rewrite restore_database_body. unfold bind.
  rewrite open_session_cases. fold uid.
  destruct (opens_session req) eqn:Ho.
  - destruct (announced_total req) as [total|] eqn:Ht.
    + cbn zeta. destruct (makedirs_raises env) as [e0|] eqn:Hm.
      * cbn [fst snd]. split; [|done]. split.
        -- intros [= <-]. split; [done|]. right. eauto.
        -- intros [_ [[? _]|[_ [= <-]]]]; done.
      * cbn [negb].
        destruct (open_session_answers env req
                    (with_ops <[uid := new_operation env uid total]> w))
          as [r Hr].
        { cbn. fold uid. rewrite lookup_insert_eq. eauto. }
        fold uid in Hr. rewrite Hr. split; [|done]. split; [done|].
        intros [_ [[? _]|[_ ?]]]; done.
    + cbn [fst snd]. split; [|done]. split.
      * intros [= <-]. split; [done|]. by left.
      * intros [_ [[_ ->]|[[? ?] _]]]; done.
  - destruct (OPERATIONS w !! uid) as [op|] eqn:Hop.
    + cbn [negb]. destruct (open_session_answers env req w) as [r Hr];
        [fold uid; by rewrite Hop|].
      fold uid in Hr. rewrite Hr. split; [|done]. split; [done|].
      by intros [? _].
    + cbn [negb fst snd ret]. split; [|done]. split; [done|]. by intros [? _].
Qed.

(** X15. The session error: [/restore] answers 404 exactly when the
    request carries a chunk field other than ['0'] and its upload id is
    not in the table; nothing is written or recorded then. *)
Theorem unknown_session_not_found env req w :
  ((handle env req w).1 = Ret (UploadSessionNotFound, 404) ↔
   opens_session req = false ∧ OPERATIONS w !! upload_id_of env req = None) ∧
  ((handle env req w).1 = Ret (UploadSessionNotFound, 404) →
   (handle env req w).2 = w).
Proof.
  assert (Hbody : ∀ w0,
            (try_except (body env req) (restore_error (upload_id_of env req))
               w0).1 ≠ Ret (UploadSessionNotFound, 404)).
  { intros w0 E.
    assert (yields (try_except (body env req)
                      (restore_error (upload_id_of env req)))
              session_answer (λ _, True)) as Y.
    { apply yields_try with (Q' := λ e, e ≠ BadZipFile).
      - apply session_body_yields.
      - intros e He. unfold restore_error.
        destruct e; try done; yield; done. }
    specialize (Y w0). by rewrite E in Y. }
  rewrite restore_database_body. unfold bind.
  rewrite open_session_cases.
  destruct (opens_session req) eqn:Ho.
  - destruct (announced_total req) as [total|].
    + cbn zeta. destruct (makedirs_raises env) as [e0|].
      * cbn [fst snd]. split; [|done]. split; [done|]. by intros [? _].
      * cbn [negb]. split; [|by intros ?%Hbody].
        split; [by intros ?%Hbody|]. by intros [? _].
    + cbn [fst snd]. split; [|done]. split; [done|]. by intros [? _].
  - destruct (OPERATIONS w !! upload_id_of env req) as [op|] eqn:Hop.
    + cbn [negb]. split; [|by intros ?%Hbody]. split; [by intros ?%Hbody|].
      by intros [_ ?].
    + cbn [negb fst snd ret]. done.
Qed.

(** X16. A chunk field that is not an integer, on a session that is
    open: the answer is a 500 carrying the [ValueError], the session is
    marked failed, and nothing is saved. *)
Theorem bad_chunk_number_fails env req w op k filename content :
  form_chunk req = Some k → k ≠ "0" → Py.int_of_str k = None →
  OPERATIONS w !! upload_id_of env req = Some op →
  files_backup_file req = Some (filename, content) → filename ≠ "" →
  handle env req w
  = (Ret (RestoreFailed ValueError (upload_id_of env req), 500),
     with_ops <[upload_id_of env req := set_status failed op]> w).
Proof.
  intros Hk Hk0 Hint Hop Hfile Hname.
  assert (Hopen : open_session env req w = (Ret true, w)).
  { unfold open_session, is_chunk. rewrite Hk.
    change (default "" (Some k)) with k.
    apply String.eqb_neq in Hk0 as ->. cbn [negb orb].
    cbv [op_in gets]. by rewrite Hop. }
  unfold restore_database. unfold bind at 1. rewrite Hopen.
  cbn [negb]. rewrite Hfile. apply String.eqb_neq in Hname as ->.
  unfold is_chunk. rewrite Hk. unfold receive_chunk. rewrite Hk.
  change (default "" (Some k)) with k.
  cbv [try_except bind int lift int_value restore_error update_op get_op
       modify ret].
  by rewrite Hint, Hop.
Qed.

(** X17. No handler removes a file: after a [/restore] request, a
    restore, or a download with its generator run, every file that was
    there is still there. Chunks, assembled archives, [.bak] copies and
    staged downloads stay until the scheduled removals run. *)
Theorem handlers_remove_no_file env req breq zip_path operation_id w p :
  is_Some (fs w !! p) →
  is_Some (fs (handle env req w).2 !! p) ∧
  is_Some (fs (run_restore env zip_path operation_id w).2 !! p) ∧
  is_Some (fs (download md5_hexdigest zip_write env breq w).2 !! p).
Proof.
  assert (K1 : ∀ zp id, keeps_files (run_restore env zp id)).
  { intros zp id. unfold perform_restore, is_zipfile.
    apply keeps_files_bind; [apply keeps_files_emit|intros _].
    apply keeps_files_try; [|intros e; unfold restore_failed; keep].
    apply keeps_files_bind; [keep|intros _].
    apply keeps_files_bind; [keep|intros ok].
    destruct (negb ok); [keep|].
    apply keeps_files_bind.
    { unfold backup_current_databases, path_exists. keep. }
    intros _. unfold extract_and_finish, ZipFile_open.
    apply keeps_files_bind; [keep|intros entries].
    apply keeps_files_bind; [apply extract_wanted_keeps|intros restored].
    destruct restored; keep. }
  assert (K2 : ∀ path, keeps_files (gate env req (upload_id_of env req) path)).
  { intros path. unfold verify_and_restore, calculate_file_checksum.
    destruct (form_checksum req) as [c|]; [|apply K1].
    destruct (negb _); [|apply K1].
    apply keeps_files_bind; [keep|intros calculated].
    destruct (negb _); [keep|apply K1]. }
  assert (K3 : keeps_files (handle env req)).
  { unfold restore_database.
    apply keeps_files_bind.
    { unfold open_session, int, op_in, makedirs. keep. }
    intros known. destruct (negb known); [keep|].
    apply keeps_files_try; [|intros e; unfold restore_error; destruct e; keep].
    destruct (files_backup_file req) as [[filename content]|]; [|keep].
    destruct (String.eqb filename ""); [keep|].
    destruct (is_chunk req).
    - unfold receive_chunk, int.
      apply keeps_files_bind; [keep|intros n].
      apply keeps_files_bind; [keep|intros op].
      apply keeps_files_bind; [keep|intros _].
      apply keeps_files_bind; [keep|intros _].
      apply keeps_files_bind; [keep|intros op'].
      destruct (_ >=? _); [|keep].
      apply keeps_files_bind; [unfold combine_chunks; keep|apply K2].
    - unfold receive_single.
      apply keeps_files_bind; [keep|intros op].
      apply keeps_files_bind; [keep|intros _]. apply K2. }
  assert (K4 : keeps_files (backup_database md5_hexdigest zip_write env breq)).
  { unfold backup_database, calculate_file_checksum.
    apply keeps_files_try; [|intros e; keep].
    apply keeps_files_bind.
    { generalize DATABASE_PATHS. intros l.
      induction l; cbn; unfold path_exists; keep; done. }
    intros [q|]; [keep|].
    apply keeps_files_bind.
    { generalize DATABASE_PATHS. intros l. induction l; cbn; keep; done. }
    intros members. keep. }
  intros Hp. split_and!; [by apply K3|by apply K1|].
  specialize (K4 w p Hp). unfold download.
  destruct (backup_database _ _ env breq w) as [r w1]. cbn [snd] in K4.
  destruct r as [[err code|g code hd]|e]; cbn [snd]; try done.
  destruct (generate_world g w1) as [G _].
  destruct (generate g w1) as [out w2]. cbn [snd] in *. by rewrite G.
Qed.

End RestoreFailures.

(** *** More restores on the small instance *)

Lemma toy_upload_path_apart :
  ("temp_uploads/u1/backup.zip" ∉ DATABASE_PATHS) ∧
  ¬ snapshot_name Toy.env0 "temp_uploads/u1/backup.zip".
Proof. exact (single_apart Toy.env0 "temp_uploads/u1"). Qed.

Lemma not_a_zip_rejected_witness :
  let w := Toy.uploaded [Byte.x09] in
  let r := Toy.perform_restore Toy.env0 "temp_uploads/u1/backup.zip" "u1" w in
  OPERATIONS w !! "u1" = Some (new_operation Toy.env0 "u1" 1) ∧
  r.1 = Ret (InvalidZipFile "u1", 400) ∧
  fs r.2 = fs w ∧
  trace r.2 = trace w ++ [EvPerformRestore "temp_uploads/u1/backup.zip" "u1"].
Proof.
  intros w r.
  assert (Hop : OPERATIONS w !! "u1" = Some (new_operation Toy.env0 "u1" 1))
    by (vm_compute; reflexivity).
  split; [exact Hop|].
  destruct (not_a_zip_rejected Toy.is_zip_bytes Toy.zip_read Toy.env0
              "temp_uploads/u1/backup.zip" "u1" w _ Hop) as (H1 & _ & H3 & H4).
  - intros d Hd. vm_compute in Hd. injection Hd as <-. reflexivity.
  - split; [exact H1|]. split; [exact H3|exact H4].
Defined.

Lemma restore_completes_witness :
  let w := Toy.uploaded [Byte.x03; Byte.x07] in
  let r := Toy.perform_restore Toy.env0 "temp_uploads/u1/backup.zip" "u1" w in
  let entries := [("books_data.db", EntryData [Byte.x07]);
                  ("books_static.db", EntryData [Byte.x07])] in
  restorable entries = DATABASE_PATHS ∧
  r.1 = Ret (RestoreCompleted (restorable entries) "u1", 200) ∧
  (∀ p, p ∈ restorable entries → fs r.2 !! p = member_data entries p) ∧
  (∀ q old, q ∈ DATABASE_PATHS → fs w !! q = Some old →
            fs r.2 !! bak_path q (timestamp Toy.env0) = Some old).
Proof.
  intros w r entries.
  assert (Hrest : restorable entries = DATABASE_PATHS)
    by (vm_compute; reflexivity).
  split; [exact Hrest|].
  destruct (restore_completes Toy.is_zip_bytes Toy.zip_read Toy.env0
              "temp_uploads/u1/backup.zip" "u1" w
              (new_operation Toy.env0 "u1" 1) [Byte.x03; Byte.x07] entries)
    as (H1 & _ & H3 & _ & H5 & _).
  - vm_compute; reflexivity.
  - vm_compute; reflexivity.
  - reflexivity.
  - reflexivity.
  - exact (proj1 toy_upload_path_apart).
  - exact (proj2 toy_upload_path_apart).
  - rewrite Hrest. unfold DATABASE_PATHS. intros p Hp.
    apply elem_of_cons in Hp as [->|Hp]; [by eexists|].
    apply list_elem_of_singleton in Hp as ->. by eexists.
  - rewrite Hrest. discriminate.
  - split; [exact H1|]. split; [exact H3|exact H5].
Defined.

Lemma failed_restore_not_rolled_back_witness :
  let w := Toy.uploaded [Byte.x06; Byte.x07] in
  let r := perform_restore Toy.is_zip_bytes_more Toy.zip_read_more Toy.env0
             "temp_uploads/u1/backup.zip" "u1" w in
  r.1 = Ret (RestoreFailed BadZipFile "u1", 500) ∧
  fs r.2 !! "database/books_data.db" = Some [Byte.x07] ∧
  fs r.2 !! "database/books_static.db" = fs w !! "database/books_static.db" ∧
  fs r.2 !! bak_path "database/books_data.db" (timestamp Toy.env0)
  = Some [Byte.x0a; Byte.x0b; Byte.x0c].
Proof.
  intros w r.
  destruct (failed_restore_not_rolled_back Toy.is_zip_bytes_more
              Toy.zip_read_more Toy.env0
              "temp_uploads/u1/backup.zip" "u1" w
              (new_operation Toy.env0 "u1" 1) [Byte.x06; Byte.x07]
              [("books_data.db", EntryData [Byte.x07]);
               ("books_static.db", EntryUnreadable)]
              [Byte.x07] EntryUnreadable)
    as (H1 & _ & H3 & H4 & H5).
  - vm_compute; reflexivity.
  - vm_compute; reflexivity.
  - reflexivity.
  - reflexivity.
  - exact (proj1 toy_upload_path_apart).
  - exact (proj2 toy_upload_path_apart).
  - reflexivity.
  - reflexivity.
  - discriminate.
  - split; [exact H1|]. split; [exact H3|]. split; [exact H4|].
    apply H5; [repeat constructor|vm_compute; reflexivity].
Defined.

Lemma unreadable_archive_fails_witness :
  let w := Toy.uploaded [Byte.x05; Byte.x07] in
  let r := Toy.perform_restore Toy.env0 "temp_uploads/u1/backup.zip" "u1" w in
  Toy.is_zip_bytes [Byte.x05; Byte.x07] = true ∧
  Toy.zip_read [Byte.x05; Byte.x07] = None ∧
  r.1 = Ret (RestoreFailed BadZipFile "u1", 500) ∧
  (∀ p, p ∈ DATABASE_PATHS → fs r.2 !! p = fs w !! p).
Proof.
  intros w r. split; [reflexivity|]. split; [reflexivity|].
  destruct (unreadable_archive_fails Toy.is_zip_bytes Toy.zip_read Toy.env0
              "temp_uploads/u1/backup.zip" "u1" w
              (new_operation Toy.env0 "u1" 1) [Byte.x05; Byte.x07])
    as (H1 & _ & H3 & _).
  - vm_compute; reflexivity.
  - vm_compute; reflexivity.
  - reflexivity.
  - reflexivity.
  - exact (proj2 toy_upload_path_apart).
  - split; [exact H1|exact H3].
Defined.

Lemma restore_never_invalid_zip_provided_witness :
  let req := Toy.single_upload None [Byte.x05; Byte.x07] in
  (Toy.restore_database Toy.env0 req Toy.two_databases).1
  = Ret (RestoreFailed BadZipFile "u1", 500) ∧
  session_answer (RestoreFailed BadZipFile "u1", 500) ∧
  ∀ upload_id, RestoreFailed BadZipFile "u1" ≠ InvalidZipFileProvided upload_id.
Proof.
  intros req.
  assert (Hr : (Toy.restore_database Toy.env0 req Toy.two_databases).1
               = Ret (RestoreFailed BadZipFile "u1", 500))
    by (vm_compute; reflexivity).
  split; [exact Hr|].
  destruct (restore_never_invalid_zip_provided Toy.md5_hexdigest
              Toy.is_zip_bytes Toy.zip_read Toy.env0 req Toy.two_databases
              _ Hr) as [[H|H] H'].
  - discriminate H.
  - split; [exact H|exact H'].
Defined.

Lemma bad_chunk_number_fails_witness :
  let req := mkRestoreRequest (Some "one") (Some "u1") None None
               (Some ("part", [Byte.x07])) in
  let w := Toy.half_uploaded in
  Py.int_of_str "one" = None ∧
  (Toy.restore_database Toy.env0 req w).1
  = Ret (RestoreFailed ValueError "u1", 500) ∧
  fs (Toy.restore_database Toy.env0 req w).2 = fs w.
Proof.
  intros req w. split; [reflexivity|].
  pose proof (bad_chunk_number_fails Toy.md5_hexdigest Toy.is_zip_bytes
                Toy.zip_read Toy.env0 req w
                (mkOperation "restore" uploading 100 1 2 "temp_uploads/u1"
                   None None None)
                "one" "part" [Byte.x07]) as H.
  unfold Toy.restore_database. rewrite H.
  - split; reflexivity.
  - reflexivity.
  - discriminate.
  - reflexivity.
  - vm_compute; reflexivity.
  - reflexivity.
  - discriminate.
Defined.

Lemma handlers_remove_no_file_witness :
  let w := Toy.two_databases in
  let p := "database/books_static.db" in
  is_Some (fs w !! p) ∧
  is_Some (fs (Toy.restore_database Toy.env0
                 (Toy.single_upload None [Byte.x03; Byte.x07]) w).2 !! p) ∧
  is_Some (fs (Toy.download Toy.env0 (mkBackupRequest None None) w).2 !! p).
Proof.
  intros w p.
  assert (Hp : is_Some (fs w !! p)) by (vm_compute; eauto).
  split; [exact Hp|].
  destruct (handlers_remove_no_file Toy.md5_hexdigest Toy.zip_write
              Toy.is_zip_bytes Toy.zip_read Toy.env0
              (Toy.single_upload None [Byte.x03; Byte.x07])
              (mkBackupRequest None None) "" "" w p Hp) as (H1 & _ & H3).
  split; [exact H1|exact H3].
Defined.

(** ** The scheduled removal of an upload *)

Lemma startswith_app a b c :
  Py.startswith (a +:+ b) (a +:+ c) = Py.startswith b c.
Proof.
  induction a as [|x a IH]; [done|].
  change (String x a +:+ b) with (String x (a +:+ b)).
  change (String x a +:+ c) with (String x (a +:+ c)).
  cbn [Py.startswith]. by rewrite Ascii.eqb_refl, IH.
Qed.

Lemma startswith_prefix a c : Py.startswith a (a +:+ c) = true.
Proof.
  induction a as [|x a IH]; [done|].
  change (String x a +:+ c) with (String x (a +:+ c)).
  cbn [Py.startswith]. by rewrite Ascii.eqb_refl, IH.
Qed.

(** What [os.path.join] puts under a directory is below it. *)
Lemma below_path_join d name :
  d ≠ "" → Py.startswith "/" name = false →
  below d (Py.path_join d name) = true.
Proof.
  intros Hd Hname. unfold below, Py.path_join. rewrite Hname.
  apply String.eqb_neq in Hd. rewrite Hd. cbn [orb].
  destruct (Py.endswith_sep d).
  - apply startswith_prefix.
  - rewrite startswith_app. apply startswith_prefix.
Qed.

(** X18. The removal of an upload, once its delay is over. It never
    raises. On an id that is not in the table it changes nothing. On a
    record with a staging directory the files are those the removal of
    the directory leaves; when that removal does not raise, the record is
    taken out of the table, and a second run changes nothing; when it
    raises, the exception is swallowed and the record stays. A removal
    that takes every file below the directory takes the chunk files and
    the assembled or single archive. *)
Theorem cleanup_operation_removes_upload r operation_id w :
  let w' := (cleanup_operation_later r operation_id w).2 in
  (cleanup_operation_later r operation_id w).1 = Ret () ∧
  (OPERATIONS w !! operation_id = None → w' = w) ∧
  (∀ op, OPERATIONS w !! operation_id = Some op → temp_dir op ≠ "" →
     let d := temp_dir op in
     fs w' = filter (λ kv, removed r d kv.1 = false) (fs w) ∧
     trace w' = trace w ∧
     (removal_error r d = None →
      OPERATIONS w' = delete operation_id (OPERATIONS w) ∧
      ∀ r', (cleanup_operation_later r' operation_id w').2 = w') ∧
     (is_Some (removal_error r d) → OPERATIONS w' = OPERATIONS w) ∧
     ((∀ p, below d p = true → removed r d p = true) →
      (∀ i, fs w' !! chunk_file d i = None) ∧
      fs w' !! Py.path_join d "combined.zip" = None ∧
      fs w' !! Py.path_join d "backup.zip" = None)).
Proof.
  intros w'. subst w'. rewrite cleanup_operation_later_run. cbn [fst snd].
  split; [done|]. split; [by intros ->|].
  intros op Hop Hdir. rewrite Hop.
  apply String.eqb_neq in Hdir as Hd. rewrite Hd. cbn zeta.
  set (d := temp_dir op).
  assert (Hfs : ∀ w1 : World,
            fs w1 = filter (λ kv, removed r d kv.1 = false) (fs w) →
            (∀ p, below d p = true → removed r d p = true) →
            (∀ i, fs w1 !! chunk_file d i = None) ∧
            fs w1 !! Py.path_join d "combined.zip" = None ∧
            fs w1 !! Py.path_join d "backup.zip" = None).
  { intros w1 E Hall.
    assert (∀ p, below d p = true → fs w1 !! p = None) as Hbelow.
    { intros p Hp. rewrite E. apply map_lookup_filter_None. right.
      intros x _. cbn. by rewrite (Hall p Hp). }
    split_and!; [intros i|..]; apply Hbelow;
      [unfold chunk_file|..]; by apply below_path_join. }
  destruct (removal_error r d) as [e|] eqn:He.
  - split_and!; [done|done|done|done|by apply Hfs].
  - split_and!; [done|done| |by intros [? ?]|by apply Hfs].
    intros _. split; [done|]. intros r'.
    rewrite cleanup_operation_later_run. cbn [snd OPERATIONS with_ops with_fs].
    by rewrite lookup_delete_eq.
Qed.

(** ** Verification and status *)

Section ReportFacts.

Variable md5_hexdigest : bytes → string.
Variable zip_write : list (string * bytes) → bytes.
Variable secure_filename : string → string.
Variable two_decimals : Q → string.

Local Abbreviation run_backup := (backup_database md5_hexdigest zip_write).
Local Abbreviation run_download := (download md5_hexdigest zip_write).
Local Abbreviation archive := (archive_of zip_write).
Local Abbreviation reply := (answer md5_hexdigest).
Local Abbreviation verify := (verify_backup md5_hexdigest secure_filename).
Local Abbreviation status_report := (backup_status two_decimals).
Local Abbreviation render := (format_size two_decimals).

Lemma truthy_Some s : s ≠ "" → truthy (Some s) = true.
Proof. by destruct s. Qed.

(** The checksum a streamed answer carries is the digest of the archive. *)
Lemma x_checksum_header env req (zipped : bytes) g code hd c :
  reply env req zipped = BackupStream g code hd →
  In ("X-Checksum", c) hd → c = md5_hexdigest zipped.
Proof.
  unfold answer, backup_headers.
  destruct (resolve req _) as [[s e0]|]; [|done].
  destruct (s >=? _); [done|].
  destruct (range_given req); intros [= <- <- <-]; cbn;
    intros H; repeat destruct H as [H|H]; by simplify_eq.
Qed.

(** Verification of a file that is staged under a secure name. *)
Lemma verify_staged c f d w :
  c ≠ "" → f ≠ "" → secure_filename f ≠ "" →
  fs w !! Py.path_join "temp_backups" (secure_filename f) = Some d →
  verify (mkVerifyRequest (Some c) (Some f)) w
  = (Ret (if String.eqb (md5_hexdigest d) c then (Verified, 200)
          else (NotVerified (md5_hexdigest d) c, 200)), w).
Proof.
  intros Hc Hf Hs Hd. unfold verify_backup. cbn [args_checksum args_filename].
  rewrite !truthy_Some by done. cbn [negb orb default from_option]. unfold id.
  apply String.eqb_neq in Hs as ->.
  cbv [bind path_exists gets calculate_file_checksum read_file ret].
  rewrite Hd. cbn [negb]. rewrite Hd. by destruct (String.eqb _ _).
Qed.

(** The request whose file name has an empty secure form. *)
Lemma verify_directory c f w :
  c ≠ "" → f ≠ "" → secure_filename f = "" →
  verify (mkVerifyRequest (Some c) (Some f)) w
  = (Raise (IsADirectoryError "temp_backups/"), w).
Proof.
  intros Hc Hf Hs. unfold verify_backup. cbn [args_checksum args_filename].
  rewrite !truthy_Some by done. cbn [negb orb default from_option]. unfold id.
  by rewrite Hs.
Qed.

Lemma verify_not_staged c f w :
  c ≠ "" → f ≠ "" → secure_filename f ≠ "" →
  fs w !! Py.path_join "temp_backups" (secure_filename f) = None →
  verify (mkVerifyRequest (Some c) (Some f)) w
  = (Ret (BackupFileNotFound, 404), w).
Proof.
  intros Hc Hf Hs Hd. unfold verify_backup. cbn [args_checksum args_filename].
  rewrite !truthy_Some by done. cbn [negb orb default from_option]. unfold id.
  apply String.eqb_neq in Hs as ->.
  cbv [bind path_exists gets ret]. by rewrite Hd.
Qed.

(** X19. The round trip of a download and its verification. After a
    streamed download, [/backup/verify] given the file name the download
    offered and the [X-Checksum] it carried answers [verified: true]; given
    any other checksum it answers [verified: false] with the two values;
    and once the scheduled removal of the archive has run it answers 404.
    Verification changes nothing. *)
Theorem downloaded_archive_verifies env req w g code hd c :
  databases_exist w →
  secure_filename (backup_filename env) = backup_filename env →
  (run_download env req w).1.1 = Ret (BackupStream g code hd) →
  In ("X-Checksum", c) hd → c ≠ "" →
  let w' := (run_download env req w).2 in
  let name := backup_filename env in
  verify (mkVerifyRequest (Some c) (Some name)) w' = (Ret (Verified, 200), w') ∧
  (∀ c', c' ≠ "" → c' ≠ c →
     verify (mkVerifyRequest (Some c') (Some name)) w'
     = (Ret (NotVerified c c', 200), w')) ∧
  (verify (mkVerifyRequest (Some c) (Some name))
     (cleanup_file_later (backup_file_path env) w').2).1
  = Ret (BackupFileNotFound, 404).
Proof.
  intros Hw Hsec Hr Hin Hc w' name.
  destruct (download_run md5_hexdigest zip_write env req w Hw) as (H1 & _ & _).
  rewrite H1 in Hr. injection Hr as Hr.
  pose proof (x_checksum_header env req _ g code hd c Hr Hin) as ->.
  assert (Hname : name ≠ "") by done.
  assert (Hsecure : secure_filename name ≠ "")
    by (unfold name; by rewrite Hsec).
  assert (Hfile : fs w' !! Py.path_join "temp_backups" (secure_filename name)
                  = Some (archive w)).
  { subst w' name. rewrite Hsec, download_stages by done.
    apply lookup_insert_eq. }
  split_and!.
  - rewrite (verify_staged _ name (archive w)) by done.
    by rewrite String.eqb_refl.
  - intros c' Hc' Hne.
    rewrite (verify_staged _ name (archive w)) by done.
    apply not_eq_sym, String.eqb_neq in Hne. by rewrite Hne.
  - rewrite cleanup_file_later_run. cbn [snd].
    rewrite verify_not_staged; [done..|].
    cbn [fs with_fs]. unfold name. rewrite Hsec.
    change (Py.path_join "temp_backups" (backup_filename env))
      with (backup_file_path env).
    by rewrite lookup_delete_eq.
Qed.

(** X20. [/backup/verify] never changes anything. It answers [verified:
    true] exactly when both arguments are given and not empty, the secure
    form of the file name is not empty, a file is staged in [temp_backups]
    under that form, and its digest is the checksum. The one request it
    does not answer carries a file name whose secure form is empty: the
    path is then [temp_backups/] itself, and reading it raises
    [IsADirectoryError]. *)
Theorem verified_exactly_when_digest_matches req w :
  (verify req w).2 = w ∧
  ((verify req w).1 = Ret (Verified, 200) ↔
   ∃ c f d, args_checksum req = Some c ∧ c ≠ "" ∧
     args_filename req = Some f ∧ f ≠ "" ∧ secure_filename f ≠ "" ∧
     fs w !! Py.path_join "temp_backups" (secure_filename f) = Some d ∧
     md5_hexdigest d = c) ∧
  (∀ e, (verify req w).1 = Raise e ↔
     ∃ c f, args_checksum req = Some c ∧ c ≠ "" ∧
       args_filename req = Some f ∧ f ≠ "" ∧ secure_filename f = "" ∧
       e = IsADirectoryError "temp_backups/").
Proof.
  destruct req as [[c|] [f|]]; cbn [args_checksum args_filename].
  2-4: (assert (∀ o, verify (mkVerifyRequest None o) w
                     = (Ret (MissingChecksumOrFilename, 400), w)) as E1
          by done;
        assert (∀ o, verify (mkVerifyRequest o None) w
                     = (Ret (MissingChecksumOrFilename, 400), w)) as E2
          by (intros o; unfold verify_backup;
              cbn [args_checksum args_filename truthy];
              by rewrite orb_true_r);
        rewrite ?E1, ?E2; cbn [fst snd];
        split_and!; [done| |intros e];
        (split; [done|]);
        [by intros (? & ? & ? & ? & ? & ? & ?)|by intros (? & ? & ? & ? & ? & ?)]).
  destruct (decide (c = "")) as [->|Hc].
  { cbn [fst snd]. split_and!; [done| |intros e]; (split; [done|]).
    - by intros (? & ? & ? & [= <-] & ? & _).
    - by intros (? & ? & [= <-] & ? & _). }
  destruct (decide (f = "")) as [->|Hf].
  { assert (verify (mkVerifyRequest (Some c) (Some "")) w
            = (Ret (MissingChecksumOrFilename, 400), w)) as ->.
    { unfold verify_backup. cbn [args_checksum args_filename truthy].
      by rewrite orb_true_r. }
    cbn [fst snd]. split_and!; [done| |intros e]; (split; [done|]).
    - by intros (? & ? & ? & ? & ? & [= <-] & ? & _).
    - by intros (? & ? & ? & ? & [= <-] & ? & _). }
  destruct (decide (secure_filename f = "")) as [Hs|Hs].
  { rewrite verify_directory by done. cbn [fst snd].
    split_and!; [done| |intros e].
    - split; [done|].
      intros (c0 & f0 & d0 & _ & _ & [= <-] & _ & Hs0 & _). done.
    - split.
      + intros [= <-]. by exists c, f.
      + by intros (? & ? & _ & _ & _ & _ & _ & ->). }
  destruct (fs w !! Py.path_join "temp_backups" (secure_filename f))
    as [d|] eqn:Hd.
  - rewrite (verify_staged c f d) by done. cbn [fst snd].
    split_and!; [done| |intros e].
    + destruct (String.eqb_spec (md5_hexdigest d) c) as [E|E].
      * split; [|done]. intros _. by exists c, f, d.
      * split; [done|].
        intros (c0 & f0 & d0 & [= <-] & _ & [= <-] & _ & _ & Hd0 & E0).
        congruence.
    + split; [by destruct (String.eqb _ _)|].
      intros (c0 & f0 & _ & _ & [= <-] & _ & Hs0 & _). done.
  - rewrite verify_not_staged by done. cbn [fst snd].
    split_and!; [done| |intros e]; (split; [done|]).
    + intros (c0 & f0 & d0 & _ & _ & [= <-] & _ & _ & Hd0 & _). congruence.
    + intros (c0 & f0 & _ & _ & [= <-] & _ & Hs0 & _). done.
Qed.

(** X21. [/backup/status] lists the databases in the order of
    [DATABASE_PATHS], each with whether it is there and its size (zero
    when it is not); the total is the sum of the sizes; and
    [all_files_exist] is false exactly when [/backup] would answer 404.
    The query changes nothing. *)
Theorem status_agrees_with_backup env req w :
  ∃ report,
    status_report w = (Ret (report, 200), w) ∧
    map info_path (databases (tally report)) = DATABASE_PATHS ∧
    Forall (λ i, (info_exists i = true ↔ is_Some (fs w !! info_path i)) ∧
                 info_size_bytes i
                 = Z.of_nat (length (default [] (fs w !! info_path i))))
      (databases (tally report)) ∧
    total_size_bytes (tally report)
    = foldr Z.add 0 (map info_size_bytes (databases (tally report))) ∧
    total_size_formatted report = render (total_size_bytes (tally report)) ∧
    (all_files_exist (tally report) = true ↔ databases_exist w) ∧
    (all_files_exist (tally report) = false ↔
     ∃ p, (run_backup env req w).1
          = Ret (BackupJson (DatabaseFileNotFound p) 404)).
Proof.
  eexists. split; [reflexivity|].
  assert (Hex : all_files_exist
                  (fold_left (add_database two_decimals w) DATABASE_PATHS
                     (mkTally [] 0 true)) = true ↔ databases_exist w).
  { unfold databases_exist, DATABASE_PATHS. cbn [fold_left].
    unfold add_database. cbn [databases total_size_bytes all_files_exist].
    destruct (fs w !! "database/books_data.db") eqn:H1;
      destruct (fs w !! "database/books_static.db") eqn:H2;
      cbn [all_files_exist].
    - split; [|done]. intros _. repeat constructor; rewrite ?H1, ?H2; eauto.
    - split; [done|]. intros H. inversion H as [|? ? _ H']; subst.
      inversion H' as [|? ? [? E] _]; subst. congruence.
    - split; [done|]. intros H. inversion H as [|? ? [? E] _]; subst.
      congruence.
    - split; [done|]. intros H. inversion H as [|? ? [? E] _]; subst.
      congruence. }
  cbn [tally total_size_formatted].
  split_and!.
  - unfold DATABASE_PATHS. cbn [fold_left]. unfold add_database.
    by repeat case_match.
  - unfold DATABASE_PATHS. cbn [fold_left]. unfold add_database.
    destruct (fs w !! "database/books_data.db") eqn:H1;
      destruct (fs w !! "database/books_static.db") eqn:H2;
      cbn [databases app]; repeat constructor;
      cbn [info_exists info_path info_size_bytes];
      rewrite ?H1, ?H2; try done; try (by eauto);
      by intros [? ?].
  - unfold DATABASE_PATHS. cbn [fold_left]. unfold add_database.
    repeat case_match; cbn; lia.
  - done.
  - exact Hex.
  - split.
    + intros Hf.
      destruct (backup_database_missing md5_hexdigest zip_write env req w)
        as (pre & p & post & _ & _ & _ & E).
      { intros Hw. apply Hex in Hw. congruence. }
      exists p. by rewrite E.
    + intros [p Hp]. apply not_true_iff_false. intros Ha.
      apply Hex in Ha.
      rewrite (backup_database_run md5_hexdigest zip_write) in Hp by done.
      injection Hp as Hp. by apply answer_not_404 in Hp.
Qed.

End ReportFacts.

(** *** Verification on the small instance *)

Lemma downloaded_archive_verifies_witness :
  let req := mkBackupRequest None None in
  let w := Toy.two_databases in
  let w' := (Toy.download Toy.env0 req w).2 in
  let name := backup_filename Toy.env0 in
  databases_exist w ∧
  Toy.verify_backup (mkVerifyRequest (Some "6") (Some name)) w'
  = (Ret (Verified, 200), w') ∧
  (Toy.verify_backup (mkVerifyRequest (Some "6") (Some name))
     (cleanup_file_later (backup_file_path Toy.env0) w').2).1
  = Ret (BackupFileNotFound, 404).
Proof.
  intros req w w' name. split; [apply two_databases_exist|].
  destruct (downloaded_archive_verifies Toy.md5_hexdigest Toy.zip_write
              Toy.secure_filename Toy.env0 req w
              (mkGenerator (backup_file_path Toy.env0) 0 6 (1024 * 1024)) 200
              (backup_headers (backup_filename Toy.env0) "6" 6 6) "6"
              two_databases_exist eq_refl) as (H1 & _ & H3).
  - vm_compute. reflexivity.
  - cbn. auto 10.
  - discriminate.
  - split; [exact H1|exact H3].
Defined.

(** The file name [..]: its secure form is empty, the path is the
    staging root, and the handler does not answer. *)
Example verify_of_parent_directory_raises :
  verify_backup Toy.md5_hexdigest Toy.secure_no_parent
    (mkVerifyRequest (Some "6") (Some "..")) Toy.two_databases
  = (Raise (IsADirectoryError "temp_backups/"), Toy.two_databases).
Proof. reflexivity. Qed.

Example verify_wrong_checksum :
  (Toy.verify_backup (mkVerifyRequest (Some "7") (Some "a.zip"))
     (mkWorld (<["temp_backups/a.zip" := [Byte.x01; Byte.x02; Byte.x03]]> ∅)
        ∅ [])).1
  = Ret (NotVerified "3" "7", 200).
Proof. vm_compute. reflexivity. Qed.

(** The removal of the staging directory empties it and then raises: the
    exception is swallowed, the chunk is gone and the record stays. With
    a removal that does not raise the record goes too. *)
Example cleanup_with_failing_removal :
  let r := mkRemoval below (λ _, Some OSError) in
  let w1 := (cleanup_operation_later r "u1" Toy.half_uploaded).2 in
  let w2 := (cleanup_operation_later plain_removal "u1" Toy.half_uploaded).2 in
  (cleanup_operation_later r "u1" Toy.half_uploaded).1 = Ret () ∧
  fs w1 !! "temp_uploads/u1/chunk_0" = None ∧
  OPERATIONS w1 = OPERATIONS Toy.half_uploaded ∧
  fs w1 !! "database/books_data.db" = Some [Byte.x0a; Byte.x0b; Byte.x0c] ∧
  fs w2 !! "temp_uploads/u1/chunk_0" = None ∧
  OPERATIONS w2 !! "u1" = None.
Proof. intros r w1 w2. split_and!; vm_compute; reflexivity. Qed.

(** ** Sizes in words *)

Lemma scale_down_spec steps :
  ∀ (x : Q) (i : nat), (1 <= x)%Q →
  ∀ y j, scale_down steps x i = (y, j) →
  (y * inject_Z (1024 ^ Z.of_nat (j - i)) == x)%Q ∧ (1 <= y)%Q ∧
  (i ≤ j ≤ i + steps)%nat ∧ ((j < i + steps)%nat → (y < 1024)%Q).
Proof.
  induction steps as [|k IH]; intros x i Hx y j; cbn [scale_down].
  - intros [= <- <-]. replace (i - i)%nat with 0%nat by lia.
    split_and!; [|done|lia|lia|lia].
    change (inject_Z (1024 ^ Z.of_nat 0)) with 1%Q. ring.
  - destruct (Qle_bool 1024 x) eqn:Hle.
    + apply Qle_bool_iff in Hle. intros Hr.
      assert (Hx' : (1 <= x / 1024)%Q).
      { apply Qle_shift_div_l; [reflexivity|]. by rewrite Qmult_1_l. }
      destruct (IH (x / 1024)%Q (S i) Hx' y j Hr) as (E & H1 & Hj & Hlt).
      split_and!; [|done|lia|lia|intros ?; apply Hlt; lia].
      replace (j - i)%nat with (S (j - S i)) by lia.
      rewrite Nat2Z.inj_succ, Z.pow_succ_r by lia.
      rewrite inject_Z_mult.
      rewrite (Qmult_comm (inject_Z 1024)), Qmult_assoc, E. change (inject_Z 1024) with 1024%Q. field.
    + intros [= <- <-]. replace (i - i)%nat with 0%nat by lia.
      split_and!; [|done|lia|lia|].
      * change (inject_Z (1024 ^ Z.of_nat 0)) with 1%Q. ring.
      * intros _. apply Qnot_le_lt. intros H%Qle_bool_iff. congruence.
Qed.

(** X22. The unit [format_size] chooses. A size of zero reads ["0 B"].
    For a size of one byte or more the text is a number with two decimals
    followed by the unit of index [i] among B, KB, MB, GB and TB, where
    the number is the size divided by [1024^i], is at least one, and is
    below 1024 unless the unit is the last one. *)
Theorem format_size_unit (two_decimals : Q → string) (n : Z) :
  format_size two_decimals 0 = "0 B" ∧
  (1 ≤ n →
   ∃ (x : Q) (i : nat),
     format_size two_decimals n
     = two_decimals x +:+ " " +:+ nth i size_names "" ∧
     (i ≤ 4)%nat ∧
     (x * inject_Z (1024 ^ Z.of_nat i) == inject_Z n)%Q ∧
     (1 <= x)%Q ∧ ((i < 4)%nat → (x < 1024)%Q)).
Proof.
  split; [done|]. intros Hn. unfold format_size.
  assert ((n =? 0) = false) as -> by (apply Z.eqb_neq; lia).
  change (length size_names - 1)%nat with 4%nat.
  destruct (scale_down 4 (inject_Z n) 0) as [x i] eqn:Hs.
  assert (Hx : (1 <= inject_Z n)%Q).
  { change 1%Q with (inject_Z 1). rewrite <- Zle_Qle. lia. }
  destruct (scale_down_spec 4 (inject_Z n) 0 Hx x i Hs) as (E & H1 & Hi & Hlt).
  exists x, i. rewrite Nat.sub_0_r in E.
  split_and!; [done|lia|done|done|intros ?; apply Hlt; lia].
Qed.

(** ** The earlier handler *)



Section EarlierHandler.

Variable md5_hexdigest : bytes → string.
Variable zip_write : list (string * bytes) → bytes.

Local Abbreviation run_download := (download md5_hexdigest zip_write).
Local Abbreviation archive := (archive_of zip_write).
Local Abbreviation reply := (answer md5_hexdigest).
Local Abbreviation earlier_backup := (Alpha.backup_database zip_write).
Local Abbreviation earlier_download := (Alpha.download zip_write).



End EarlierHandler.

